(** * CUPB GPA calculator: a shallow embedding of the refactored core

    The development follows [GPA_counter_refactored/src/utils]:
    - [config.py]      : [GRADE_MAPPING], [EXCEL_CONFIG], [FAIL_GRADE_HANDLING];
    - [calculator.py]  : class [GpaCalculator] ([load_data] and the three metrics);
    - [data_loader.py] : [DataLoader.load_from_excel];
    - [persistence.py] : [DataPersistence.load_history], [save_record],
      [get_record_by_index], [delete_record] and [clear_history];
    and, of [GPA_counter_refactored/src/ui], the callers of these:
    - [console_ui.py]  : [ConsoleUI._calculate_and_display_results];
    - [gui.py]         : [MainWindow.load_file], [_calculate_gpa] and
      [_save_record].

    The sources are embedded twice.

    Part one reads a [float] as an exact number: [pyfloat] is a rational,
    an infinity or NaN, and Python [int]s that reach the arithmetic are
    embedded as rationals.  It carries the statements that do not depend on
    how a [float] rounds.

    Part two, the module [Binary64], computes as CPython does: a [float] is
    an IEEE 754 binary64 value and every operation rounds to nearest, ties
    to even; [float] of an [int] beyond the range raises OverflowError;
    [load_data] assigns the fields of the calculator one after the other; the
    history file holds any JSON document.  It carries the statements in
    which rounding, overflow or the contents of the history file matter.

    Everything else (exceptions, the order of the checks, [try]/[except]
    blocks, logging calls) is transcribed from the source in both parts. *)

From Stdlib Require Import ZArith QArith Qcanon Qround Lia Lqa.
From Stdlib Require Import Ascii String DecimalString Sorted SpecFloat.
From stdpp Require Import base option list strings gmap.

Local Open Scope string_scope.
Local Open Scope list_scope.
Local Open Scope Qc_scope.

(** * Part one: exact numbers *)

(** ** Python floats *)

Inductive pyfloat : Type :=
| FNum (q : Qc)
| FInf (neg : bool)
| FNan.

Definition Qcltb (x y : Qc) : bool :=
  match x ?= y with Lt => true | _ => false end.

Definition Qceqb (x y : Qc) : bool :=
  match x ?= y with Eq => true | _ => false end.

(** [x < y] on floats: every comparison with NaN is false. *)
Definition flt (x y : pyfloat) : bool :=
  match x, y with
  | FNum a, FNum b => Qcltb a b
  | FNum _, FInf neg => negb neg
  | FInf neg, FNum _ => neg
  | FInf n1, FInf n2 => n1 && negb n2
  | _, _ => false
  end.

Definition fgt (x y : pyfloat) : bool := flt y x.

(** [x == y] on floats. *)
Definition feq (x y : pyfloat) : bool :=
  match x, y with
  | FNum a, FNum b => Qceqb a b
  | FInf n1, FInf n2 => Bool.eqb n1 n2
  | _, _ => false
  end.

Definition fneg (x : pyfloat) : pyfloat :=
  match x with
  | FNum a => FNum (- a)
  | FInf neg => FInf (negb neg)
  | FNan => FNan
  end.

Definition fadd (x y : pyfloat) : pyfloat :=
  match x, y with
  | FNum a, FNum b => FNum (a + b)
  | FNan, _ | _, FNan => FNan
  | FInf n1, FInf n2 => if Bool.eqb n1 n2 then FInf n1 else FNan
  | FInf n, FNum _ | FNum _, FInf n => FInf n
  end.

Definition fsub (x y : pyfloat) : pyfloat := fadd x (fneg y).

Definition fmul (x y : pyfloat) : pyfloat :=
  match x, y with
  | FNum a, FNum b => FNum (a * b)
  | FNan, _ | _, FNan => FNan
  | FInf n1, FInf n2 => FInf (xorb n1 n2)
  | FInf n, FNum a | FNum a, FInf n =>
      if Qceqb a 0 then FNan else FInf (xorb n (Qcltb a 0))
  end.

Definition fzero : pyfloat := FNum 0.
Definition fz (z : Z) : pyfloat := FNum (Qc_of_Z z).

(** ** Exceptions and results *)

Inductive exn_kind : Type :=
| TypeError
| ValueError
| FileNotFoundError
| IndexError
| ZeroDivisionError
| OverflowError
| EmptyDataError
| ParserError
| OtherError.

Record exn : Type := Exn { kind : exn_kind; message : string }.

Inductive result (A : Type) : Type :=
| Ok (a : A)
| Raise (e : exn).
Arguments Ok {A} a.
Arguments Raise {A} e.

Definition is_ok {A} (r : result A) : bool :=
  match r with Ok _ => true | Raise _ => false end.

Definition raises {A} (r : result A) (k : exn_kind) : Prop :=
  exists m, r = Raise (Exn k m).

(** [x / y]: Python raises ZeroDivisionError on a zero divisor. *)
Definition fdiv (x y : pyfloat) : result pyfloat :=
  match y with
  | FNum b =>
      if Qceqb b 0 then Raise (Exn ZeroDivisionError "float division by zero")
      else match x with
           | FNum a => Ok (FNum (a / b))
           | FInf n => Ok (FInf (xorb n (Qcltb b 0)))
           | FNan => Ok FNan
           end
  | FInf _ =>
      match x with
      | FNum _ => Ok (FNum 0)
      | _ => Ok FNan
      end
  | FNan => Ok FNan
  end.

(** [int(x)]: truncation toward zero; fails on NaN and on the infinities. *)
Definition Qctrunc (q : Qc) : Z :=
  if Qcltb q 0 then Qceiling q else Qfloor q.

Definition py_int (x : pyfloat) : result Z :=
  match x with
  | FNum q => Ok (Qctrunc q)
  | FInf _ => Raise (Exn OverflowError "cannot convert float infinity to integer")
  | FNan => Raise (Exn ValueError "cannot convert float NaN to integer")
  end.

(** [round(x, 1)]: to the nearest tenth, ties to the even tenth; NaN and the
    infinities are returned as they are. *)
Definition round_half_even (q : Qc) : Z :=
  let f := Qfloor q in
  match Qccompare (q - Qc_of_Z f) (Q2Qc (1 # 2)%Q) with
  | Lt => f
  | Gt => (f + 1)%Z
  | Eq => if Z.even f then f else (f + 1)%Z
  end.

Definition py_round1 (x : pyfloat) : pyfloat :=
  match x with
  | FNum q => FNum (Qc_of_Z (round_half_even (q * Qc_of_Z 10)) / Qc_of_Z 10)
  | _ => x
  end.

(** [sum(xs)]: left to right, starting from the integer 0. *)
Definition py_sum (xs : list pyfloat) : pyfloat :=
  fold_left fadd xs fzero.

(** ** Python values as they reach the calculator *)

Inductive pyval : Type :=
| VNone
| VBool (b : bool)
| VInt (z : Z)
| VFloat (f : pyfloat)
| VStr (s : string)
| VObj (tag : string).

(** An argument of [load_data]: a list or anything else. *)
Inductive pyarg : Type :=
| AList (xs : list pyval)
| ANotList (v : pyval).

Definition is_list (a : pyarg) : bool :=
  match a with AList _ => true | ANotList _ => false end.

Definition arg_items (a : pyarg) : list pyval :=
  match a with AList xs => xs | ANotList _ => [] end.

(** ** config.py *)

Definition GRADE_MAPPING : gmap string Z :=
  <["优秀" := 95%Z]> (<["良好" := 85%Z]> (<["中等" := 75%Z]>
  (<["及格" := 65%Z]> (<["不及格" := 0%Z]> ∅)))).

Record excel_config : Type := ExcelConfig {
  start_row : nat;
  course_name_col : nat;
  course_grade_col : nat;
  course_credit_col : nat
}.

Definition EXCEL_CONFIG : excel_config :=
  {| start_row := 1; course_name_col := 1;
     course_grade_col := 2; course_credit_col := 3 |}.

Record fail_grade_handling : Type := FailGradeHandling {
  avg_score_value : Z;
  gpa_value : Z
}.

Definition FAIL_GRADE_HANDLING : fail_grade_handling :=
  {| avg_score_value := 40%Z; gpa_value := 0%Z |}.

(** ** Logging and the monad of the calculator

    Every [logger] call of the source is an entry of the log; the index is
    the course the message names. *)

Inductive log_entry : Type :=
| WarnCreditNegative (i : nat)
| WarnCreditInvalid (i : nat)
| WarnTotalCreditsZero
| WarnGradeNegative (i : nat)
| WarnGradeOver100 (i : nat)
| WarnGradeInvalid (i : nat)
| WarnCourseGpaNegative (i : nat)
| WarnCourseGpaOver5 (i : nat)
| ErrCourseGpa (i : nat)
| WarnOverallNegative
| WarnOverallOver5
| ErrOverall
| WarnNoGrade (row : nat)
| WarnNoCredit (row : nat)
| InfoFound (n : nat)
| InfoExtracted (n : nat)
| ErrLoad (m : string).

Definition M (A : Type) : Type := list log_entry * result A.

Definition ret {A} (a : A) : M A := ([], Ok a).
Definition raise {A} (e : exn) : M A := ([], Raise e).
Definition log (w : log_entry) : M unit := ([w], Ok tt).
Definition lift {A} (r : result A) : M A := ([], r).

Definition bind {A B} (m : M A) (k : A -> M B) : M B :=
  match m with
  | (l, Ok a) => let '(l', r) := k a in (l ++ l', r)
  | (l, Raise e) => (l, Raise e)
  end.

(** [try: m  except <kinds>: h]. *)
Definition catch {A} (m : M A) (caught : exn_kind -> bool) (h : exn -> M A) : M A :=
  match m with
  | (l, Raise e) =>
      if caught (kind e) then let '(l', r) := h e in (l ++ l', r) else (l, Raise e)
  | ok => ok
  end.

Notation "x <- c1 ;; c2" := (bind c1 (fun x => c2))
  (at level 100, c1 at next level, right associativity).
Notation "c1 ;;; c2" := (bind c1 (fun _ => c2))
  (at level 100, right associativity).

Definition output {A} (m : M A) : result A := snd m.
Definition logged {A} (m : M A) : list log_entry := fst m.

Definition any_exception (k : exn_kind) : bool := true.
Definition value_or_type_error (k : exn_kind) : bool :=
  match k with ValueError | TypeError => true | _ => false end.

(** ** calculator.py *)

Record GpaCalculator : Type := MkCalculator {
  course_names : list pyval;
  course_grades : list pyfloat;
  course_credits : list pyfloat;
  course_count : nat;
  total_credits : pyfloat
}.

(** [GpaCalculator.__init__]. *)
Definition init : GpaCalculator :=
  {| course_names := []; course_grades := []; course_credits := [];
     course_count := 0; total_credits := fz 0 |}.

(** [xs[i]] for a log message: IndexError out of range. *)
Definition getitem {A} (xs : list A) (i : nat) : M A :=
  match xs !! i with
  | Some x => ret x
  | None => raise (Exn IndexError "list index out of range")
  end.

Section Calculator.

(** The builtin [float] on a [str]: [None] stands for its ValueError. *)
Variable str_to_float : string -> option pyfloat.

(** [float(v)].  An [int] too large for a [float] (OverflowError) is
    outside the model, as the numbers are exact. *)
Definition py_float (v : pyval) : result pyfloat :=
  match v with
  | VNone => Raise (Exn TypeError "float() argument must be a string or a real number, not 'NoneType'")
  | VBool b => Ok (if b then fz 1 else fz 0)
  | VInt z => Ok (fz z)
  | VFloat f => Ok f
  | VStr s =>
      match str_to_float s with
      | Some f => Ok f
      | None => Raise (Exn ValueError "could not convert string to float")
      end
  | VObj _ => Raise (Exn TypeError "float() argument must be a string or a real number")
  end.

(** Lines 60-69: one turn of the credit loop. *)
Definition convert_credit (names : list pyval) (i : nat) (credit : pyval) : M pyfloat :=
  catch
    (credit_value <- lift (py_float credit) ;;
     if flt credit_value (fz 0)
     then _ <- getitem names i ;; log (WarnCreditNegative i) ;;; ret (FNum 0)
     else ret credit_value)
    value_or_type_error
    (fun _ => _ <- getitem names i ;; log (WarnCreditInvalid i) ;;; ret (FNum 0)).

Fixpoint convert_credits (names : list pyval) (i : nat) (credits : list pyval)
  : M (list pyfloat) :=
  match credits with
  | [] => ret []
  | credit :: rest =>
      c <- convert_credit names i credit ;;
      cs <- convert_credits names (S i) rest ;;
      ret (c :: cs)
  end.

(** [isinstance(grade, str) and grade in GRADE_MAPPING], with the mapped
    value when it holds. *)
Definition mapped_grade (grade : pyval) : option Z :=
  match grade with
  | VStr s => GRADE_MAPPING !! s
  | _ => None
  end.

(** Lines 80-98: one turn of the grade loop. *)
Definition convert_grade (names : list pyval) (i : nat) (grade : pyval) : M pyfloat :=
  catch
    (match mapped_grade grade with
     | Some g => ret (fz g)
     | None =>
         grade_value <- lift (py_float grade) ;;
         if flt grade_value (fz 0)
         then _ <- getitem names i ;; log (WarnGradeNegative i) ;;; ret (FNum 0)
         else if fgt grade_value (fz 100)
         then _ <- getitem names i ;; log (WarnGradeOver100 i) ;;; ret (fz 100)
         else ret grade_value
     end)
    value_or_type_error
    (fun _ => _ <- getitem names i ;; log (WarnGradeInvalid i) ;;; ret (FNum 0)).

Fixpoint convert_grades (names : list pyval) (i : nat) (grades : list pyval)
  : M (list pyfloat) :=
  match grades with
  | [] => ret []
  | grade :: rest =>
      g <- convert_grade names i grade ;;
      gs <- convert_grades names (S i) rest ;;
      ret (g :: gs)
  end.

(** [GpaCalculator.load_data].  The checks come before the first
    assignment, so a call that raises there leaves the calculator as it was;
    the two loops after them raise nothing ([load_data_ok] below), so the
    fields are given here in one record. *)
Definition load_data (self : GpaCalculator) (names grades credits : pyarg)
  : M GpaCalculator :=
  if negb (is_list names && is_list grades && is_list credits)
  then raise (Exn TypeError "课程名称、成绩和学分参数必须是列表类型")
  else
    let names := arg_items names in
    let grades := arg_items grades in
    let credits := arg_items credits in
    if negb (Nat.eqb (length names) (length grades)
             && Nat.eqb (length grades) (length credits))
    then raise (Exn ValueError "课程名称、成绩和学分列表长度必须一致")
    else if Nat.eqb (length names) 0
    then raise (Exn ValueError "课程数据不能为空")
    else
      cs <- convert_credits names 0 credits ;;
      let total := py_sum cs in
      (if feq total (fz 0) then log WarnTotalCreditsZero else ret tt) ;;;
      gs <- convert_grades names 0 grades ;;
      ret {| course_names := names;
             course_grades := gs;
             course_credits := cs;
             course_count := length names;
             total_credits := total |}.

End Calculator.

(** Lines 122-127: failing grades count as 40 in the average. *)
Definition adjusted_grade (grade : pyfloat) : pyfloat :=
  if flt grade (fz 60) then fz (avg_score_value FAIL_GRADE_HANDLING) else grade.

(** [GpaCalculator.calculate_average_score]. *)
Definition calculate_average_score (self : GpaCalculator) : M pyfloat :=
  if Nat.eqb (course_count self) 0
  then raise (Exn ValueError "没有课程数据，无法计算平均学分绩")
  else if feq (total_credits self) (fz 0)
  then raise (Exn ValueError "总学分为0，无法计算平均学分绩")
  else
    let adjusted_grades := map adjusted_grade (course_grades self) in
    let total_weighted_grade :=
      py_sum (zip_with fmul adjusted_grades (course_credits self)) in
    lift (fdiv total_weighted_grade (total_credits self)).

(** Lines 157-177: one turn of the grade-point loop, with its [try]. *)
Definition course_gpa_turn (self : GpaCalculator) (i : nat) (grade : pyfloat)
  : M pyfloat :=
  catch
    (if flt grade (fz 60)
     then ret (FNum 0)
     else
       k <- lift (py_int grade) ;;
       let m := (k / 10)%Z in
       d <- lift (fdiv grade (fz 10)) ;;
       let n := fsub d (fz m) in
       let course_gpa := fsub (fadd (fz m) n) (fz 5) in
       course_gpa <-
         (if flt course_gpa (fz 0)
          then _ <- getitem (course_names self) i ;;
               log (WarnCourseGpaNegative i) ;;; ret (FNum 0)
          else if fgt course_gpa (FNum (Qc_of_Z 5))
          then _ <- getitem (course_names self) i ;;
               log (WarnCourseGpaOver5 i) ;;; ret course_gpa
          else ret course_gpa) ;;
       ret (py_round1 course_gpa))
    any_exception
    (fun _ => _ <- getitem (course_names self) i ;;
              log (ErrCourseGpa i) ;;; ret (FNum 0)).

Fixpoint course_gpa_loop (self : GpaCalculator) (i : nat) (grades : list pyfloat)
  : M (list pyfloat) :=
  match grades with
  | [] => ret []
  | grade :: rest =>
      g <- course_gpa_turn self i grade ;;
      gs <- course_gpa_loop self (S i) rest ;;
      ret (g :: gs)
  end.

(** [GpaCalculator.calculate_course_gpa]. *)
Definition calculate_course_gpa (self : GpaCalculator) : M (list pyfloat) :=
  if Nat.eqb (course_count self) 0
  then raise (Exn ValueError "没有课程数据，无法计算课程绩点")
  else course_gpa_loop self 0 (course_grades self).

(** [GpaCalculator.calculate_overall_gpa]: the [except] logs and re-raises. *)
Definition calculate_overall_gpa (self : GpaCalculator) : M pyfloat :=
  if Nat.eqb (course_count self) 0
  then raise (Exn ValueError "没有课程数据，无法计算平均学分绩点")
  else if feq (total_credits self) (fz 0)
  then raise (Exn ValueError "总学分为0，无法计算平均学分绩点")
  else
    catch
      (course_gpa_list <- calculate_course_gpa self ;;
       let total_weighted_gpa :=
         py_sum (zip_with fmul course_gpa_list (course_credits self)) in
       overall_gpa <- lift (fdiv total_weighted_gpa (total_credits self)) ;;
       overall_gpa <-
         (if flt overall_gpa (fz 0)
          then log WarnOverallNegative ;;; ret (FNum 0)
          else if fgt overall_gpa (FNum (Qc_of_Z 5))
          then log WarnOverallOver5 ;;; ret overall_gpa
          else ret overall_gpa) ;;
       ret (py_round1 overall_gpa))
      any_exception
      (fun e => log ErrOverall ;;; raise e).

(** ** data_loader.py *)

(** A [DataFrame] as [read_excel] returns it: [shape = (len rows, columns)]. *)
Record DataFrame : Type := MkDataFrame {
  columns : nat;
  rows : list (list pyval)
}.

Definition shape0 (df : DataFrame) : nat := length (rows df).
Definition shape1 (df : DataFrame) : nat := columns df.

(** Every row has one cell per column. *)
Definition rectangular (df : DataFrame) : Prop :=
  Forall (fun r => length r = columns df) (rows df).

(** [df.empty]. *)
Definition df_empty (df : DataFrame) : bool :=
  Nat.eqb (shape0 df) 0 || Nat.eqb (shape1 df) 0.

(** [df.iloc[i, j]]. *)
Definition iloc (df : DataFrame) (i j : nat) : M pyval :=
  match rows df !! i with
  | Some r =>
      match r !! j with
      | Some c => ret c
      | None => raise (Exn IndexError "single positional indexer is out-of-bounds")
      end
  | None => raise (Exn IndexError "single positional indexer is out-of-bounds")
  end.

(** [pd.isna] and [pd.notna] on a cell. *)
Definition isna (v : pyval) : bool :=
  match v with
  | VNone | VFloat FNan => true
  | _ => false
  end.
Definition notna (v : pyval) : bool := negb (isna v).

(** The characters [str.strip()] removes, as UTF-8 byte sequences:
    U+0009..U+000D, U+001C..U+0020, U+0085, U+00A0, U+1680, U+2000..U+200A,
    U+2028, U+2029, U+202F, U+205F, U+3000. *)
Definition bytes (l : list nat) : string :=
  String.string_of_list_ascii (map Ascii.ascii_of_nat l).

Definition whitespace : list string :=
  map bytes
    ([[9]; [10]; [11]; [12]; [13]; [28]; [29]; [30]; [31]; [32];
      [194; 133]; [194; 160]; [225; 154; 128]]
     ++ map (fun k => [226; 128; k]) (seq 128 11)
     ++ [[226; 128; 168]; [226; 128; 169]; [226; 128; 175];
         [226; 129; 159]; [227; 128; 128]])%nat.

Fixpoint drop_prefix (p s : string) : option string :=
  match p, s with
  | EmptyString, _ => Some s
  | String a p', String b s' =>
      if Ascii.eqb a b then drop_prefix p' s' else None
  | String _ _, EmptyString => None
  end.

Fixpoint drop_any_prefix (ps : list string) (s : string) : option string :=
  match ps with
  | [] => None
  | p :: ps' =>
      match drop_prefix p s with
      | Some s' => Some s'
      | None => drop_any_prefix ps' s
      end
  end.

Fixpoint lstrip_with (ws : list string) (fuel : nat) (s : string) : string :=
  match fuel with
  | O => s
  | S fuel' =>
      match drop_any_prefix ws s with
      | Some s' => lstrip_with ws fuel' s'
      | None => s
      end
  end.

Definition string_rev (s : string) : string :=
  String.string_of_list_ascii (rev (String.list_ascii_of_string s)).

Definition lstrip (s : string) : string :=
  lstrip_with whitespace (String.length s) s.

Definition rstrip (s : string) : string :=
  string_rev (lstrip_with (map string_rev whitespace) (String.length s) (string_rev s)).

(** [s.strip()]. *)
Definition strip (s : string) : string := rstrip (lstrip s).

(** Truth value of a [str]. *)
Definition nonempty (s : string) : bool :=
  match s with EmptyString => false | _ => true end.

Definition nat_to_string (n : nat) : string :=
  NilEmpty.string_of_uint (Nat.to_uint n).

(** What the loader reads from the outside world. *)
Record os_env : Type := MkEnv {
  (** [os.path.exists]. *)
  path_exists : string -> bool;
  (** [os.path.splitext(path)[1].lower()]. *)
  splitext_lower : string -> string;
  (** [pd.read_excel]. *)
  read_excel : string -> result DataFrame
}.

(** [try: m] followed by [except] clauses, tried in order; an exception
    raised by a handler is not offered to the later clauses. *)
Fixpoint select_handler {A} (clauses : list ((exn_kind -> bool) * (exn -> M A)))
    (e : exn) : option (exn -> M A) :=
  match clauses with
  | [] => None
  | (caught, h) :: rest =>
      if caught (kind e) then Some h else select_handler rest e
  end.

Definition try_except {A} (m : M A)
    (clauses : list ((exn_kind -> bool) * (exn -> M A))) : M A :=
  match m with
  | (l, Raise e) =>
      match select_handler clauses e with
      | Some h => let '(l', r) := h e in (l ++ l', r)
      | None => (l, Raise e)
      end
  | ok => ok
  end.

Definition is_kind (k : exn_kind) (k' : exn_kind) : bool :=
  match k, k' with
  | EmptyDataError, EmptyDataError | ParserError, ParserError => true
  | _, _ => false
  end.

Section DataLoader.

(** The builtin [str] on a value that is not a [str]. *)
Variable str_of : pyval -> string.

(** [str(v)]. *)
Definition py_str (v : pyval) : string :=
  match v with
  | VStr s => s
  | _ => str_of v
  end.

(** Lines 77-84: the scan for rows with a course name. *)
Fixpoint scan_rows (df : DataFrame) (range : list nat) : M (list nat) :=
  match range with
  | [] => ret []
  | i :: rest =>
      name <- iloc df i (course_name_col EXCEL_CONFIG) ;;
      found <-
        (if notna name && nonempty (strip (py_str name))
         then
           grade <- iloc df i (course_grade_col EXCEL_CONFIG) ;;
           (if isna grade then log (WarnNoGrade (i + 1)) else ret tt) ;;;
           credit <- iloc df i (course_credit_col EXCEL_CONFIG) ;;
           (if isna credit then log (WarnNoCredit (i + 1)) else ret tt) ;;;
           ret [i]
         else ret []) ;;
      more <- scan_rows df rest ;;
      ret (found ++ more)
  end.

(** Lines 96-107: the extraction of the three sequences. *)
Fixpoint extract_rows (df : DataFrame) (valid_rows : list nat)
  : M (list string * list pyval * list pyval) :=
  match valid_rows with
  | [] => ret ([], [], [])
  | i :: rest =>
      cell <- iloc df i (course_name_col EXCEL_CONFIG) ;;
      let name := strip (py_str cell) in
      grade <- iloc df i (course_grade_col EXCEL_CONFIG) ;;
      credit <- iloc df i (course_credit_col EXCEL_CONFIG) ;;
      more <- extract_rows df rest ;;
      let '(names, grades, credits) := more in
      ret (name :: names, grade :: grades, credit :: credits)
  end.

(** Lines 53-113: the body of the [try]. *)
Definition load_from_frame (env : os_env) (file_path : string)
  : M (nat * list string * list pyval * list pyval) :=
  df <- lift (read_excel env file_path) ;;
  if df_empty df then raise (Exn ValueError "Excel文件为空")
  else
    let start_row := start_row EXCEL_CONFIG in
    let name_col := course_name_col EXCEL_CONFIG in
    let grade_col := course_grade_col EXCEL_CONFIG in
    let credit_col := course_credit_col EXCEL_CONFIG in
    let required_cols := (Nat.max (Nat.max name_col grade_col) credit_col + 1)%nat in
    if Nat.ltb (shape1 df) required_cols
    then raise (Exn ValueError
                  ("Excel文件列数不足，至少需要" ++ nat_to_string required_cols ++ "列"))
    else if Nat.leb (shape0 df) start_row
    then raise (Exn ValueError
                  ("Excel文件中没有足够的数据行，至少需要"
                     ++ nat_to_string (start_row + 1) ++ "行"))
    else
      valid_rows <- scan_rows df (seq start_row (shape0 df - start_row)) ;;
      if Nat.eqb (length valid_rows) 0
      then raise (Exn ValueError "未找到有效的课程数据")
      else
        log (InfoFound (length valid_rows)) ;;;
        data <- extract_rows df valid_rows ;;
        let '(course_names, course_grades, course_credits) := data in
        log (InfoExtracted (length course_names)) ;;;
        ret (length course_names, course_names, course_grades, course_credits).

(** [DataLoader.load_from_excel]. *)
Definition load_from_excel (env : os_env) (file_path : pyval)
  : M (nat * list string * list pyval * list pyval) :=
  match file_path with
  | VStr file_path =>
      if negb (path_exists env file_path)
      then raise (Exn FileNotFoundError ("文件不存在: " ++ file_path))
      else
        let file_ext := splitext_lower env file_path in
        if negb (String.eqb file_ext ".xlsx" || String.eqb file_ext ".xls")
        then raise (Exn ValueError
                      ("不支持的文件格式: " ++ file_ext ++ "，仅支持.xlsx和.xls格式"))
        else
          try_except (load_from_frame env file_path)
            [ (is_kind EmptyDataError,
               fun _ => log (ErrLoad "Excel文件为空或格式错误") ;;;
                        raise (Exn ValueError "Excel文件为空或格式错误"));
              (is_kind ParserError,
               fun e => log (ErrLoad ("解析Excel文件时出错: " ++ message e)) ;;;
                        raise (Exn ValueError ("解析Excel文件时出错: " ++ message e)));
              (any_exception,
               fun e => log (ErrLoad ("加载Excel文件失败: " ++ message e)) ;;;
                        raise (Exn ValueError ("加载Excel文件失败: " ++ message e))) ]
  | _ => raise (Exn TypeError "文件路径必须是字符串类型")
  end.

End DataLoader.

(** ** persistence.py *)

(** One entry of [history.json], with the keys the callers write and the
    [timestamp] that [save_record] adds. *)
Record CalculationRecord : Type := MkRecord {
  rec_course_names : list string;
  rec_course_grades : list pyfloat;
  rec_course_credits : list pyfloat;
  rec_course_count : nat;
  rec_avg_score : pyfloat;
  rec_overall_gpa : pyfloat;
  rec_timestamp : string
}.

(** What is on disk at [self.history_file]: nothing, text that is not JSON,
    or the array the program wrote. *)
Inductive history_file : Type :=
| FileAbsent
| FileCorrupt
| FileJson (history : list CalculationRecord).

Record storage : Type := MkStorage {
  file : history_file;
  readable : bool;
  writable : bool
}.

(** [DataPersistence.load_history]: every failure gives the empty list. *)
Definition load_history (d : storage) : list CalculationRecord :=
  match file d with
  | FileAbsent => []
  | FileCorrupt => []
  | FileJson history => if readable d then history else []
  end.

(** [open(self.history_file, 'w')] then [json.dump(history, f)]. *)
Definition write_history (d : storage) (history : list CalculationRecord)
  : result storage :=
  if writable d
  then Ok {| file := FileJson history; readable := readable d; writable := true |}
  else Raise (Exn OtherError "Permission denied").

(** [isinstance(index, int)]: a [bool] is an [int]. *)
Definition as_int (v : pyval) : option Z :=
  match v with
  | VInt z => Some z
  | VBool b => Some (if b then 1%Z else 0%Z)
  | _ => None
  end.

(** [DataPersistence.delete_record]: the result and the disk afterwards. *)
Definition delete_record (d : storage) (index : pyval) : result bool * storage :=
  match as_int index with
  | None => (Raise (Exn TypeError "索引必须是整数类型"), d)
  | Some index =>
      let history := load_history d in
      if Nat.eqb (length history) 0 then (Ok false, d)
      else if Z.leb 0 index && Z.ltb index (Z.of_nat (length history))
      then
        let history := delete (Z.to_nat index) history in
        match write_history d history with
        | Ok d' => (Ok true, d')
        | Raise _ => (Ok false, d)
        end
      else (Ok false, d)
  end.

(** [DataPersistence.get_record_by_index]. *)
Definition get_record_by_index (d : storage) (index : pyval)
  : result (option CalculationRecord) :=
  match as_int index with
  | None => Raise (Exn TypeError "索引必须是整数类型")
  | Some index =>
      let history := load_history d in
      if Z.leb 0 index && Z.ltb index (Z.of_nat (length history))
      then Ok (history !! Z.to_nat index)
      else Ok None
  end.

(** ** States of the calculator that a program can reach

    A call of [load_data] that raises leaves the calculator unchanged, so
    the reachable states are the initial one and the results of successful
    loads. *)
Inductive reachable (str_to_float : string -> option pyfloat)
  : GpaCalculator -> Prop :=
| reach_init : reachable str_to_float init
| reach_load s names grades credits s' :
    reachable str_to_float s ->
    output (load_data str_to_float s names grades credits) = Ok s' ->
    reachable str_to_float s'.

(** ** The formulas as the specification words them *)

(** [floor(g/10) + (g/10 - floor(g/10)) - 5]. *)
Definition grade_point_formula (g : Qc) : Qc :=
  Qc_of_Z (Qfloor (g / Qc_of_Z 10)%Qc)
  + (g / Qc_of_Z 10 - Qc_of_Z (Qfloor (g / Qc_of_Z 10)%Qc))
  - Qc_of_Z 5.

(** The simple linear scale [g/10 - 5]. *)
Definition linear_scale (g : Qc) : Qc := g / Qc_of_Z 10 - Qc_of_Z 5.

(** The grade point of one course: 0.0 below 60, else the formula rounded to
    one decimal place.  A grade that is not a number (NaN, an infinity) has
    no formula value; the loop appends 0.0 for it. *)
Definition grade_point (g : pyfloat) : pyfloat :=
  match g with
  | FNum q =>
      if Qcltb q (Qc_of_Z 60) then FNum 0
      else py_round1 (FNum (grade_point_formula q))
  | FInf _ | FNan => FNum 0
  end.

(** [Σ x[i] * w[i]], summed from the last index down. *)
Fixpoint weighted_sum (xs ws : list pyfloat) : pyfloat :=
  match xs, ws with
  | x :: xs', w :: ws' => fadd (fmul x w) (weighted_sum xs' ws')
  | _, _ => fzero
  end.

(** The adjusted grade: the placeholder 40 below 60, the grade otherwise. *)
Definition adjusted_grade_spec (g : pyfloat) : pyfloat :=
  if flt g (fz 60) then fz 40 else g.

(** A normalized grade in [0, 100]. *)
Definition grade_in_range (g : pyfloat) : Prop :=
  exists q, g = FNum q /\ Qc_of_Z 0 <= q /\ q <= Qc_of_Z 100.

(** A grade point or GPA in [0.0, 5.0]. *)
Definition gpa_in_range (g : pyfloat) : Prop :=
  exists q, g = FNum q /\ Qc_of_Z 0 <= q /\ q <= Qc_of_Z 5.

(** A credit that is a number and not negative. *)
Definition credit_nonneg (c : pyfloat) : Prop :=
  exists q, c = FNum q /\ Qc_of_Z 0 <= q.

(** What the credit loop lets through: [not (c < 0)]. *)
Definition credit_not_negative (c : pyfloat) : Prop := flt c (fz 0) = false.

(** A grade as [load_data] can store it: in [0, 100], or NaN. *)
Definition loaded_grade (g : pyfloat) : Prop :=
  grade_in_range g \/ g = FNan.

(** The invariant of the calculator between calls. *)
Record calc_inv (s : GpaCalculator) : Prop := MkInv {
  inv_names : length (course_names s) = course_count s;
  inv_grades : length (course_grades s) = course_count s;
  inv_credits : length (course_credits s) = course_count s;
  inv_total : total_credits s = py_sum (course_credits s);
  inv_grade_values : Forall loaded_grade (course_grades s);
  inv_credit_values : Forall credit_not_negative (course_credits s)
}.

(** The entries the grade-point loop logs for grades that are NaN. *)
Fixpoint nan_errors (i : nat) (grades : list pyfloat) : list log_entry :=
  match grades with
  | [] => []
  | FNan :: rest => ErrCourseGpa i :: nan_errors (S i) rest
  | _ :: rest => nan_errors (S i) rest
  end.

(** The log entries of the clamp and range branches of the two GPA
    operations. *)
Definition is_range_warning (w : log_entry) : bool :=
  match w with
  | WarnCourseGpaNegative _ | WarnCourseGpaOver5 _
  | WarnOverallNegative | WarnOverallOver5 => true
  | _ => false
  end.

(** The state a computation leaves: the new one, or the initial one when
    the computation raised. Used to name the states of the examples. *)
Definition state_after (m : M GpaCalculator) : GpaCalculator :=
  match output m with
  | Ok s => s
  | Raise _ => init
  end.

(** ** Reference readings of the builtins, to run the model on examples

    The theorems below hold for every [str_to_float] and [str_of]; these two
    instances read plain decimal literals and print the scalars the examples
    use. Exponents and digit separators are not read. *)

Definition digit_of (c : Ascii.ascii) : option Z :=
  let n := Ascii.nat_of_ascii c in
  if Nat.leb 48 n && Nat.leb n 57 then Some (Z.of_nat (n - 48)) else None.

Fixpoint read_digits (s : string) (acc : Z) (n : nat) : Z * nat * string :=
  match s with
  | EmptyString => (acc, n, s)
  | String c rest =>
      match digit_of c with
      | Some d => read_digits rest (acc * 10 + d)%Z (S n)
      | None => (acc, n, s)
      end
  end.

Definition read_unsigned (s : string) : option Qc :=
  let '(i, ni, r1) := read_digits s 0%Z 0%nat in
  match r1 with
  | EmptyString => if Nat.ltb 0 ni then Some (Qc_of_Z i) else None
  | String "."%char r2 =>
      let '(f, nf, r3) := read_digits r2 0%Z 0%nat in
      match r3 with
      | EmptyString =>
          if Nat.ltb 0 (ni + nf)
          then Some (Qc_of_Z (i * 10 ^ Z.of_nat nf + f) / Qc_of_Z (10 ^ Z.of_nat nf))
          else None
      | _ => None
      end
  | _ => None
  end.

Definition lower_ascii (c : Ascii.ascii) : Ascii.ascii :=
  let n := Ascii.nat_of_ascii c in
  if Nat.leb 65 n && Nat.leb n 90 then Ascii.ascii_of_nat (n + 32) else c.

Definition lower (s : string) : string :=
  String.string_of_list_ascii (map lower_ascii (String.list_ascii_of_string s)).

Definition read_magnitude (s : string) : option pyfloat :=
  let l := lower s in
  if String.eqb l "nan" then Some FNan
  else if String.eqb l "inf" || String.eqb l "infinity" then Some (FInf false)
  else option_map FNum (read_unsigned s).

Definition decimal_float (s : string) : option pyfloat :=
  match strip s with
  | String "-"%char rest => option_map fneg (read_magnitude rest)
  | String "+"%char rest => read_magnitude rest
  | s' => read_magnitude s'
  end.

Definition Z_to_string (z : Z) : string :=
  NilZero.string_of_int (Z.to_int z).

Definition scalar_str (v : pyval) : string :=
  match v with
  | VNone => "None"
  | VBool b => if b then "True" else "False"
  | VInt z => Z_to_string z
  | VFloat FNan => "nan"
  | VFloat (FInf neg) => if neg then "-inf" else "inf"
  | VFloat (FNum q) =>
      if Pos.eqb (Qden q) 1 then Z_to_string (Qnum q) ++ ".0"
      else Z_to_string (Qnum q) ++ "/" ++ Z_to_string (Z.pos (Qden q))
  | VStr s => s
  | VObj tag => tag
  end.

(** ** The loader as the specification words it *)

(** The cell at row [i], column [j] of a frame. *)
Definition cell (df : DataFrame) (i j : nat) : pyval :=
  match rows df !! i with
  | Some r => match r !! j with Some c => c | None => VNone end
  | None => VNone
  end.

(** The data rows: the rows after the header offset, in row order. *)
Definition data_rows (df : DataFrame) : list nat :=
  seq (start_row EXCEL_CONFIG) (shape0 df - start_row EXCEL_CONFIG).

Section LoaderSpec.

Variable str_of : pyval -> string.

(** A row is valid iff its name cell is present and not empty after
    trimming whitespace. *)
Definition row_valid (df : DataFrame) (i : nat) : bool :=
  let c := cell df i (course_name_col EXCEL_CONFIG) in
  notna c && nonempty (strip (py_str str_of c)).

Definition valid_rows (df : DataFrame) : list nat :=
  List.filter (row_valid df) (data_rows df).

Definition row_name (df : DataFrame) (i : nat) : string :=
  strip (py_str str_of (cell df i (course_name_col EXCEL_CONFIG))).

End LoaderSpec.

Definition row_grade (df : DataFrame) (i : nat) : pyval :=
  cell df i (course_grade_col EXCEL_CONFIG).

Definition row_credit (df : DataFrame) (i : nat) : pyval :=
  cell df i (course_credit_col EXCEL_CONFIG).

(** ** The course sets of the examples *)

(** Math 95 (4 credits), PE with the failing label (2), English 72 (3). *)
Definition example_courses : M GpaCalculator :=
  load_data decimal_float init
    (AList [VStr "Math"; VStr "PE"; VStr "English"])
    (AList [VInt 95; VStr "不及格"; VInt 72])
    (AList [VInt 4; VInt 2; VInt 3]).

(** One course of grade 90 that carries no credit. *)
Definition zero_credit_courses : M GpaCalculator :=
  load_data decimal_float init
    (AList [VStr "A"]) (AList [VInt 90]) (AList [VInt 0]).

(** One course whose grade cell was empty: the loader hands NaN on. *)
Definition missing_grade_courses : M GpaCalculator :=
  load_data decimal_float init
    (AList [VStr "A"]) (AList [VFloat FNan]) (AList [VInt 2]).

(** One course whose credit cell was empty. *)
Definition missing_credit_courses : M GpaCalculator :=
  load_data decimal_float init
    (AList [VStr "A"]) (AList [VInt 90]) (AList [VFloat FNan]).

(** ** A spreadsheet for the examples *)

(** As [read_excel] returns it: the first sheet row went into the column
    labels; frame row 0 is skipped by [start_row]; of the four data rows one
    has an empty name cell and one a name of blanks only. *)
Definition example_frame : DataFrame :=
  {| columns := 4;
     rows := [ [VInt 0; VStr "课程"; VStr "成绩"; VStr "学分"];
               [VInt 1; VStr "Math"; VInt 95; VInt 4];
               [VInt 2; VFloat FNan; VInt 80; VInt 3];
               [VInt 3; VStr "   "; VInt 70; VInt 1];
               [VInt 4; VStr " PE "; VStr "不及格"; VInt 2] ] |}.

Definition example_env : os_env :=
  {| path_exists := fun p => String.eqb p "grades.xlsx";
     splitext_lower := fun p => ".xlsx";
     read_excel := fun p => Ok example_frame |}.

(** ** A history for the examples *)

Definition example_record (name : string) : CalculationRecord :=
  {| rec_course_names := [name];
     rec_course_grades := [fz 90];
     rec_course_credits := [fz 2];
     rec_course_count := 1;
     rec_avg_score := fz 90;
     rec_overall_gpa := fz 4;
     rec_timestamp := "2025-01-01T00:00:00" |}.

Definition example_storage : storage :=
  {| file := FileJson [example_record "a"; example_record "b";
                       example_record "c"];
     readable := true;
     writable := true |}.

(** ** Normalization, cell by cell

    What the two loops of [load_data] compute for one cell, read as plain
    functions: the stored value and the warnings logged for course [i]. *)

Section Normalization.

Variable str_to_float : string -> option pyfloat.

Definition normalize_credit (credit : pyval) : pyfloat :=
  match py_float str_to_float credit with
  | Ok x => if flt x (fz 0) then FNum 0 else x
  | Raise _ => FNum 0
  end.

Definition credit_warnings (i : nat) (credit : pyval) : list log_entry :=
  match py_float str_to_float credit with
  | Ok x => if flt x (fz 0) then [WarnCreditNegative i] else []
  | Raise _ => [WarnCreditInvalid i]
  end.

Definition normalize_grade (grade : pyval) : pyfloat :=
  match mapped_grade grade with
  | Some z => fz z
  | None =>
      match py_float str_to_float grade with
      | Ok x =>
          if flt x (fz 0) then FNum 0
          else if fgt x (fz 100) then fz 100 else x
      | Raise _ => FNum 0
      end
  end.

Definition grade_warnings (i : nat) (grade : pyval) : list log_entry :=
  match mapped_grade grade with
  | Some _ => []
  | None =>
      match py_float str_to_float grade with
      | Ok x =>
          if flt x (fz 0) then [WarnGradeNegative i]
          else if fgt x (fz 100) then [WarnGradeOver100 i] else []
      | Raise _ => [WarnGradeInvalid i]
      end
  end.

End Normalization.

(** The order of two floats that are numbers. *)
Definition fle (x y : pyfloat) : Prop :=
  exists a b, x = FNum a /\ y = FNum b /\ a <= b.

(** A float that is [k] tenths, with [lo <= k <= hi]. *)
Definition tenths (lo hi : Z) (x : pyfloat) : Prop :=
  exists k, x = FNum (Qc_of_Z k / Qc_of_Z 10) /\ (lo <= k <= hi)%Z.

(** A credit of exactly 0. *)
Definition no_credit (c : pyfloat) : Prop := c = FNum 0.

(** The warnings the scan logs for a kept row: one for an empty grade
    cell, one for an empty credit cell, with the row counted from 1. *)
Definition row_warnings (df : DataFrame) (i : nat) : list log_entry :=
  (if isna (row_grade df i) then [WarnNoGrade (i + 1)] else [])
  ++ (if isna (row_credit df i) then [WarnNoCredit (i + 1)] else []).

(** A sheet whose second data row has no grade and no credit, and a sheet
    with three columns only. *)
Definition sparse_frame : DataFrame :=
  {| columns := 4;
     rows := [ [VInt 0; VStr "课程"; VStr "成绩"; VStr "学分"];
               [VInt 1; VStr "Math"; VInt 95; VInt 4];
               [VInt 2; VStr "Art"; VFloat FNan; VFloat FNan] ] |}.

Definition narrow_frame : DataFrame :=
  {| columns := 3;
     rows := [ [VStr "课程"; VStr "成绩"; VStr "学分"];
               [VStr "Math"; VInt 95; VInt 4] ] |}.

Definition frame_env (df : DataFrame) : os_env :=
  {| path_exists := fun p => true;
     splitext_lower := fun p => ".xlsx";
     read_excel := fun p => Ok df |}.

(** ** persistence.py: [save_record] and [clear_history]

    The dict a caller hands to [save_record], in the shape the callers of
    this repository build it: each of the four required keys may be absent;
    the values are lists of [str] and of [float], an [int] and two
    [float]s.  [_prepare_record_for_json] rewrites dates, complex numbers
    and other objects only, so it leaves such a dict as it is.  With
    [allow_nan] at its default [json.dump] writes and [json.load] reads NaN
    and the infinities, so the floats come back as written. *)
Record record_dict : Type := MkDict {
  dict_course_names : option (list string);
  dict_course_grades : option (list pyfloat);
  dict_course_credits : option (list pyfloat);
  dict_course_count : option nat;
  dict_avg_score : pyfloat;
  dict_overall_gpa : pyfloat
}.

Inductive record_arg : Type :=
| NotADict (v : pyval)
| ADict (r : record_dict).

Definition has_key {A} (value : option A) : bool :=
  match value with Some _ => true | None => false end.

(** Lines 103-104: [[key for key in required_keys if key not in record_data]]. *)
Definition missing_keys (r : record_dict) : list string :=
  map fst
    (List.filter (fun key => negb (snd key))
       [ ("course_names", has_key (dict_course_names r));
         ("course_grades", has_key (dict_course_grades r));
         ("course_credits", has_key (dict_course_credits r));
         ("course_count", has_key (dict_course_count r)) ]).

(** The dict after line 110, as the entry of the history it becomes. *)
Definition stamped (now : string) (r : record_dict) : CalculationRecord :=
  {| rec_course_names := default [] (dict_course_names r);
     rec_course_grades := default [] (dict_course_grades r);
     rec_course_credits := default [] (dict_course_credits r);
     rec_course_count := default 0%nat (dict_course_count r);
     rec_avg_score := dict_avg_score r;
     rec_overall_gpa := dict_overall_gpa r;
     rec_timestamp := now |}.

(** [DataPersistence.save_record]: the result and the disk afterwards.
    [now] is [datetime.datetime.now().isoformat()]. *)
Definition save_record (d : storage) (now : string) (record_data : record_arg)
  : result bool * storage :=
  match record_data with
  | NotADict _ => (Raise (Exn TypeError "记录数据必须是字典类型"), d)
  | ADict r =>
      match missing_keys r with
      | _ :: _ =>
          (Raise (Exn ValueError
                    ("记录数据缺少必要的键: "
                       ++ String.concat ", " (missing_keys r))), d)
      | [] =>
          let record := stamped now r in
          let history := load_history d in
          let history := history ++ [record] in
          match write_history d history with
          | Ok d' => (Ok true, d')
          | Raise _ => (Ok false, d)
          end
      end
  end.

(** [DataPersistence.clear_history]. *)
Definition clear_history (d : storage) : bool * storage :=
  match write_history d [] with
  | Ok d' => (true, d')
  | Raise _ => (false, d)
  end.

(** A dict with every key, made of a record. *)
Definition dict_of (r : CalculationRecord) : record_dict :=
  {| dict_course_names := Some (rec_course_names r);
     dict_course_grades := Some (rec_course_grades r);
     dict_course_credits := Some (rec_course_credits r);
     dict_course_count := Some (rec_course_count r);
     dict_avg_score := rec_avg_score r;
     dict_overall_gpa := rec_overall_gpa r |}.

(** [except ValueError]: the class and its subclasses. *)
Definition is_value_error (k : exn_kind) : bool :=
  match k with
  | ValueError | EmptyDataError | ParserError => true
  | _ => false
  end.

(** ** ui/gui.py: [MainWindow]

    The fields of the window that its handlers read back, and the message
    boxes they open.  The tables, the status bar and the tabs only display:
    they are not part of the state, and the updates of the tables appear as
    the list accesses they make.  [_load_history], which redraws the
    history table after a save, is left out. *)

(** The text of a result label: ["--"], or the text of a float, given by
    the number that [float(text)] returns for it. *)
Inductive label_text : Type :=
| Dashes
| Number (value : pyfloat).

Inductive message_box : Type :=
| Critical (text : string)
| Warning (text : string).

Record MainWindow : Type := MkWindow {
  calculator : GpaCalculator;
  persistence : storage;
  win_course_count : nat;
  win_course_names : list string;
  win_course_grades : list pyval;
  win_course_credits : list pyval;
  avg_score_label : label_text;
  overall_gpa_label : label_text;
  calculate_button : bool;
  save_result_button : bool
}.

Definition set_courses (w : MainWindow) (count : nat) (names : list string)
    (grades credits : list pyval) : MainWindow :=
  {| calculator := calculator w;
     persistence := persistence w;
     win_course_count := count;
     win_course_names := names;
     win_course_grades := grades;
     win_course_credits := credits;
     avg_score_label := avg_score_label w;
     overall_gpa_label := overall_gpa_label w;
     calculate_button := calculate_button w;
     save_result_button := save_result_button w |}.

Definition set_calculate_button (w : MainWindow) (enabled : bool)
  : MainWindow :=
  {| calculator := calculator w;
     persistence := persistence w;
     win_course_count := win_course_count w;
     win_course_names := win_course_names w;
     win_course_grades := win_course_grades w;
     win_course_credits := win_course_credits w;
     avg_score_label := avg_score_label w;
     overall_gpa_label := overall_gpa_label w;
     calculate_button := enabled;
     save_result_button := save_result_button w |}.

Definition set_persistence (w : MainWindow) (disk : storage) : MainWindow :=
  {| calculator := calculator w;
     persistence := disk;
     win_course_count := win_course_count w;
     win_course_names := win_course_names w;
     win_course_grades := win_course_grades w;
     win_course_credits := win_course_credits w;
     avg_score_label := avg_score_label w;
     overall_gpa_label := overall_gpa_label w;
     calculate_button := calculate_button w;
     save_result_button := save_result_button w |}.

(** [_update_course_table] and [_update_gpa_table]: for each [i] of the
    range, one access to each of the three lists. *)
Fixpoint table_items {A B C} (xs : list A) (ys : list B) (zs : list C)
    (range : list nat) : M unit :=
  match range with
  | [] => ret tt
  | i :: rest =>
      _ <- getitem xs i ;;
      _ <- getitem ys i ;;
      _ <- getitem zs i ;;
      table_items xs ys zs rest
  end.

(** [float(label.text())]. *)
Definition label_float (label : label_text) : result pyfloat :=
  match label with
  | Dashes => Raise (Exn ValueError "could not convert string to float: '--'")
  | Number value => Ok value
  end.

Section MainWindow.

Variable str_of : pyval -> string.
Variable str_to_float : string -> option pyfloat.
Variable env : os_env.

(** [MainWindow.load_file]. *)
Definition load_file (w : MainWindow) (file_path : string)
  : MainWindow * list message_box :=
  match output (load_from_excel str_of env (VStr file_path)) with
  | Raise e => (w, [Critical ("加载文件失败: " ++ message e)])
  | Ok (count, names, grades, credits) =>
      let w := set_courses w count names grades credits in
      match output (table_items names grades credits (seq 0 count)) with
      | Raise e => (w, [Critical ("加载文件失败: " ++ message e)])
      | Ok _ => (set_calculate_button w true, [])
      end
  end.

(** [[float(x) for x in values]]. *)
Fixpoint floats (values : list pyval) : result (list pyfloat) :=
  match values with
  | [] => Ok []
  | value :: rest =>
      match py_float str_to_float value with
      | Raise e => Raise e
      | Ok x =>
          match floats rest with
          | Raise e => Raise e
          | Ok xs => Ok (x :: xs)
          end
      end
  end.

(** Lines 446-453: the dict literal, its values evaluated in order. *)
Definition record_of_window (w : MainWindow) : result record_dict :=
  match floats (win_course_grades w) with
  | Raise e => Raise e
  | Ok grades =>
      match floats (win_course_credits w) with
      | Raise e => Raise e
      | Ok credits =>
          match label_float (avg_score_label w) with
          | Raise e => Raise e
          | Ok avg_score =>
              match label_float (overall_gpa_label w) with
              | Raise e => Raise e
              | Ok overall_gpa =>
                  Ok {| dict_course_names := Some (win_course_names w);
                        dict_course_grades := Some grades;
                        dict_course_credits := Some credits;
                        dict_course_count := Some (win_course_count w);
                        dict_avg_score := avg_score;
                        dict_overall_gpa := overall_gpa |}
              end
          end
      end
  end.

(** [MainWindow._save_record], called at time [now]. *)
Definition _save_record (w : MainWindow) (now : string)
  : MainWindow * list message_box :=
  match record_of_window w with
  | Raise e => (w, [Critical ("保存记录失败: " ++ message e)])
  | Ok record =>
      match save_record (persistence w) now (ADict record) with
      | (Ok true, disk) => (set_persistence w disk, [])
      | (Ok false, disk) => (set_persistence w disk, [Warning "保存记录失败"])
      | (Raise e, disk) =>
          (set_persistence w disk, [Critical ("保存记录失败: " ++ message e)])
      end
  end.

End MainWindow.

(** ** Windows for the examples *)

(** A window that shows the results of one course of grade 95. *)
Definition shown_window : MainWindow :=
  {| calculator := init;
     persistence := example_storage;
     win_course_count := 1;
     win_course_names := ["Math"];
     win_course_grades := [VInt 95];
     win_course_credits := [VInt 4];
     avg_score_label := Number (fz 95);
     overall_gpa_label := Number (FNum (Qc_of_Z 45 / Qc_of_Z 10));
     calculate_button := true;
     save_result_button := true |}.

(** The same window with the grade given by its label. *)
Definition label_window : MainWindow :=
  set_courses shown_window 1 ["Math"] [VStr "优秀"] [VInt 4].

(** ** Cells that need no correction *)

(** ** Names without surrounding whitespace *)

(** The string starts, resp. ends, with one of the whitespace characters. *)
Definition starts_with_whitespace (s : string) : bool :=
  match drop_any_prefix whitespace s with Some _ => true | None => false end.

Definition ends_with_whitespace (s : string) : bool :=
  match drop_any_prefix (map string_rev whitespace) (string_rev s) with
  | Some _ => true
  | None => false
  end.

(** * The program over binary64

    The first part of the development reads a [float] as an exact number.
    The module below embeds the same sources a second time, with what the
    first embedding leaves out:
    - a [float] is an IEEE 754 binary64 value ([spec_float] of the Standard
      Library, 53 bits of precision), and the operations round to nearest,
      ties to even, as CPython's do;
    - [float] of an [int] beyond the range of binary64 raises OverflowError;
    - [load_data] assigns the fields of the calculator one after the other,
      so a call that raises in one of its loops leaves the fields assigned
      so far;
    - the history file may hold any JSON document, the dict given to
      [save_record] any values, and a [json.dump] that fails leaves the file
      it has truncated;
    - what differs between versions of CPython is a parameter: the builtin
      [sum] on floats ([builtin_sum], with [sum_left] for the versions that
      add from left to right) and the [int]s that can be written as text
      ([int_as_text]).
    Exceptions, logging and the configuration are those of the first part. *)

Module Binary64.

(** ** Python floats *)

Definition prec : Z := 53%Z.
Definition emax : Z := 1024%Z.

Definition float : Type := spec_float.

(** [float(z)] for an [int] in range; an infinity beyond it. *)
Definition fz (z : Z) : float := binary_normalize prec emax z 0%Z false.

Definition fadd (x y : float) : float := SFadd prec emax x y.
Definition fsub (x y : float) : float := SFsub prec emax x y.
Definition fmul (x y : float) : float := SFmul prec emax x y.

(** [x < y], [x > y] and [x == y]: false when an operand is NaN; the two
    zeros are equal. *)
Definition flt (x y : float) : bool := SFltb x y.
Definition fgt (x y : float) : bool := SFltb y x.
Definition feq (x y : float) : bool := SFeqb x y.

Definition is_infinite (x : float) : bool :=
  match x with S754_infinity _ => true | _ => false end.

(** [x / y]: Python raises ZeroDivisionError on a zero divisor. *)
Definition fdiv (x y : float) : result float :=
  if feq y (fz 0)
  then Raise (Exn ZeroDivisionError "float division by zero")
  else Ok (SFdiv prec emax x y).

(** The float nearest to [n / d], for [d > 0]: the value of a decimal
    literal such as [63.5] or [0.1]. *)
Definition decimal (n d : Z) : float := SFdiv prec emax (fz n) (fz d).

(** [int(x)]: truncation toward zero; fails on NaN and on the infinities. *)
Definition py_int (x : float) : result Z :=
  match x with
  | S754_zero _ => Ok 0%Z
  | S754_finite s m e =>
      let magnitude :=
        match e with
        | Zneg p => (Zpos m / Z.pow_pos 2 p)%Z
        | _ => (Zpos m * 2 ^ e)%Z
        end in
      Ok (if s then (- magnitude)%Z else magnitude)
  | S754_infinity _ =>
      Raise (Exn OverflowError "cannot convert float infinity to integer")
  | S754_nan => Raise (Exn ValueError "cannot convert float NaN to integer")
  end.

(** [m * 2^e * scale], rounded to the nearest integer, ties to even. *)
Definition scaled_half_even (m : positive) (e : Z) (scale : Z) : Z :=
  let n := (Zpos m * scale)%Z in
  match e with
  | Zneg p =>
      let d := Z.pow_pos 2 p in
      let q := (n / d)%Z in
      let r := (n mod d)%Z in
      match (2 * r ?= d)%Z with
      | Lt => q
      | Gt => (q + 1)%Z
      | Eq => if Z.even q then q else (q + 1)%Z
      end
  | _ => (n * 2 ^ e)%Z
  end.

(** The float nearest to [k / d] with the sign [s], for [k >= 0]. *)
Definition nearest (s : bool) (k d : Z) : float :=
  match k with
  | Zpos p => SFdiv prec emax (S754_finite s p 0) (fz d)
  | _ => S754_zero s
  end.

(** [round(x, 1)]: the exact value of [x] is rounded to the nearest tenth,
    ties to the even tenth, and the result is the float nearest to that
    decimal; zeros, NaN and the infinities are returned as they are. *)
Definition py_round1 (x : float) : float :=
  match x with
  | S754_finite s m e => nearest s (scaled_half_even m e 10) 10
  | _ => x
  end.

(** [sum(xs)] as CPython computes it up to version 3.11: from left to
    right, starting from the integer 0, every partial sum rounded. *)
Definition sum_left (xs : list float) : float :=
  fold_left fadd xs (fz 0).

(** ** Python values as they reach the calculator *)

Inductive pyval : Type :=
| VNone
| VBool (b : bool)
| VInt (z : Z)
| VFloat (f : float)
| VStr (s : string)
| VObj (tag : string).

(** An argument of [load_data]: a list or anything else. *)
Inductive pyarg : Type :=
| AList (xs : list pyval)
| ANotList (v : pyval).

Definition is_list (a : pyarg) : bool :=
  match a with AList _ => true | ANotList _ => false end.

Definition arg_items (a : pyarg) : list pyval :=
  match a with AList xs => xs | ANotList _ => [] end.

(** ** calculator.py *)

Record GpaCalculator : Type := MkCalculator {
  course_names : list pyval;
  course_grades : list float;
  course_credits : list float;
  course_count : nat;
  total_credits : float
}.

(** [GpaCalculator.__init__]. *)
Definition init : GpaCalculator :=
  {| course_names := []; course_grades := []; course_credits := [];
     course_count := 0; total_credits := fz 0 |}.

Definition set_course_names (self : GpaCalculator) (names : list pyval)
  : GpaCalculator :=
  {| course_names := names;
     course_grades := course_grades self;
     course_credits := course_credits self;
     course_count := course_count self;
     total_credits := total_credits self |}.

Definition set_course_count (self : GpaCalculator) (count : nat)
  : GpaCalculator :=
  {| course_names := course_names self;
     course_grades := course_grades self;
     course_credits := course_credits self;
     course_count := count;
     total_credits := total_credits self |}.

Definition set_course_credits (self : GpaCalculator) (credits : list float)
  : GpaCalculator :=
  {| course_names := course_names self;
     course_grades := course_grades self;
     course_credits := credits;
     course_count := course_count self;
     total_credits := total_credits self |}.

Definition set_total_credits (self : GpaCalculator) (total : float)
  : GpaCalculator :=
  {| course_names := course_names self;
     course_grades := course_grades self;
     course_credits := course_credits self;
     course_count := course_count self;
     total_credits := total |}.

Definition set_course_grades (self : GpaCalculator) (grades : list float)
  : GpaCalculator :=
  {| course_names := course_names self;
     course_grades := grades;
     course_credits := course_credits self;
     course_count := course_count self;
     total_credits := total_credits self |}.

(** A loop that appends to a list of the calculator: its log, the
    exception that ended it if one did, and the list as the loop left it. *)
Definition filled : Type := list log_entry * option exn * list float.

Section Calculator.

(** The builtin [float] on a [str]: [None] stands for its ValueError. *)
Variable str_to_float : string -> option float.

(** The builtin [sum] on a list of [float]s.  Up to CPython 3.11 it is
    [sum_left]; from 3.12 on it adds a compensation for the rounding errors
    at the end.  On one float [x] it returns [0 + x] in every version. *)
Variable builtin_sum : list float -> float.

(** [float(v)]. *)
Definition py_float (v : pyval) : result float :=
  match v with
  | VNone => Raise (Exn TypeError "float() argument must be a string or a real number, not 'NoneType'")
  | VBool b => Ok (if b then fz 1 else fz 0)
  | VInt z =>
      if is_infinite (fz z)
      then Raise (Exn OverflowError "int too large to convert to float")
      else Ok (fz z)
  | VFloat f => Ok f
  | VStr s =>
      match str_to_float s with
      | Some f => Ok f
      | None => Raise (Exn ValueError "could not convert string to float")
      end
  | VObj _ => Raise (Exn TypeError "float() argument must be a string or a real number")
  end.

(** Lines 61-69: one turn of the credit loop, with the value it appends. *)
Definition convert_credit (names : list pyval) (i : nat) (credit : pyval) : M float :=
  catch
    (credit_value <- lift (py_float credit) ;;
     if flt credit_value (fz 0)
     then _ <- getitem names i ;; log (WarnCreditNegative i) ;;; ret (fz 0)
     else ret credit_value)
    value_or_type_error
    (fun _ => _ <- getitem names i ;; log (WarnCreditInvalid i) ;;; ret (fz 0)).

(** Lines 60-69: the loop over [enumerate(course_credits)], from index [i],
    with [self.course_credits] holding [appended] when it starts. *)
Fixpoint convert_credits (names : list pyval) (i : nat) (credits : list pyval)
    (appended : list float) : filled :=
  match credits with
  | [] => ([], None, appended)
  | credit :: rest =>
      match convert_credit names i credit with
      | (l, Ok c) =>
          let '(l', e, final) :=
            convert_credits names (S i) rest (appended ++ [c]) in
          (l ++ l', e, final)
      | (l, Raise e) => (l, Some e, appended)
      end
  end.

(** [isinstance(grade, str) and grade in GRADE_MAPPING], with the mapped
    value when it holds. *)
Definition mapped_grade (grade : pyval) : option Z :=
  match grade with
  | VStr s => GRADE_MAPPING !! s
  | _ => None
  end.

(** Lines 81-98: one turn of the grade loop, with the value it appends. *)
Definition convert_grade (names : list pyval) (i : nat) (grade : pyval) : M float :=
  catch
    (match mapped_grade grade with
     | Some g => ret (fz g)
     | None =>
         grade_value <- lift (py_float grade) ;;
         if flt grade_value (fz 0)
         then _ <- getitem names i ;; log (WarnGradeNegative i) ;;; ret (fz 0)
         else if fgt grade_value (fz 100)
         then _ <- getitem names i ;; log (WarnGradeOver100 i) ;;; ret (fz 100)
         else ret grade_value
     end)
    value_or_type_error
    (fun _ => _ <- getitem names i ;; log (WarnGradeInvalid i) ;;; ret (fz 0)).

Fixpoint convert_grades (names : list pyval) (i : nat) (grades : list pyval)
    (appended : list float) : filled :=
  match grades with
  | [] => ([], None, appended)
  | grade :: rest =>
      match convert_grade names i grade with
      | (l, Ok g) =>
          let '(l', e, final) :=
            convert_grades names (S i) rest (appended ++ [g]) in
          (l ++ l', e, final)
      | (l, Raise e) => (l, Some e, appended)
      end
  end.

(** [GpaCalculator.load_data]: the log, the result and the calculator
    after the call.  The checks come before the first assignment; from line
    55 on the fields are assigned in the order of the source, and an
    exception that leaves a loop ends the call with the fields as they
    are. *)
Definition load_data (self : GpaCalculator) (names grades credits : pyarg)
  : M unit * GpaCalculator :=
  if negb (is_list names && is_list grades && is_list credits)
  then (raise (Exn TypeError "课程名称、成绩和学分参数必须是列表类型"), self)
  else
    let names := arg_items names in
    let grades := arg_items grades in
    let credits := arg_items credits in
    if negb (Nat.eqb (length names) (length grades)
             && Nat.eqb (length grades) (length credits))
    then (raise (Exn ValueError "课程名称、成绩和学分列表长度必须一致"), self)
    else if Nat.eqb (length names) 0
    then (raise (Exn ValueError "课程数据不能为空"), self)
    else
      let self := set_course_names self names in
      let self := set_course_count self (length names) in
      let '(l1, e1, cs) := convert_credits names 0 credits [] in
      let self := set_course_credits self cs in
      match e1 with
      | Some e => ((l1, Raise e), self)
      | None =>
          let total := builtin_sum cs in
          let self := set_total_credits self total in
          let l2 := if feq total (fz 0) then [WarnTotalCreditsZero] else [] in
          let '(l3, e3, gs) := convert_grades names 0 grades [] in
          let self := set_course_grades self gs in
          match e3 with
          | Some e => ((l1 ++ l2 ++ l3, Raise e), self)
          | None => ((l1 ++ l2 ++ l3, Ok tt), self)
          end
      end.

End Calculator.

Section Metrics.

Variable builtin_sum : list float -> float.

(** Lines 122-127: failing grades count as 40 in the average. *)
Definition adjusted_grade (grade : float) : float :=
  if flt grade (fz 60) then fz (avg_score_value FAIL_GRADE_HANDLING) else grade.

(** [GpaCalculator.calculate_average_score]. *)
Definition calculate_average_score (self : GpaCalculator) : M float :=
  if Nat.eqb (course_count self) 0
  then raise (Exn ValueError "没有课程数据，无法计算平均学分绩")
  else if feq (total_credits self) (fz 0)
  then raise (Exn ValueError "总学分为0，无法计算平均学分绩")
  else
    let adjusted_grades := map adjusted_grade (course_grades self) in
    let total_weighted_grade :=
      builtin_sum (zip_with fmul adjusted_grades (course_credits self)) in
    lift (fdiv total_weighted_grade (total_credits self)).

(** Lines 157-177: one turn of the grade-point loop, with its [try]. *)
Definition course_gpa_turn (self : GpaCalculator) (i : nat) (grade : float)
  : M float :=
  catch
    (if flt grade (fz 60)
     then ret (fz 0)
     else
       k <- lift (py_int grade) ;;
       let m := (k / 10)%Z in
       d <- lift (fdiv grade (fz 10)) ;;
       let n := fsub d (fz m) in
       let course_gpa := fsub (fadd (fz m) n) (fz 5) in
       course_gpa <-
         (if flt course_gpa (fz 0)
          then _ <- getitem (course_names self) i ;;
               log (WarnCourseGpaNegative i) ;;; ret (fz 0)
          else if fgt course_gpa (fz 5)
          then _ <- getitem (course_names self) i ;;
               log (WarnCourseGpaOver5 i) ;;; ret course_gpa
          else ret course_gpa) ;;
       ret (py_round1 course_gpa))
    any_exception
    (fun _ => _ <- getitem (course_names self) i ;;
              log (ErrCourseGpa i) ;;; ret (fz 0)).

Fixpoint course_gpa_loop (self : GpaCalculator) (i : nat) (grades : list float)
  : M (list float) :=
  match grades with
  | [] => ret []
  | grade :: rest =>
      g <- course_gpa_turn self i grade ;;
      gs <- course_gpa_loop self (S i) rest ;;
      ret (g :: gs)
  end.

(** [GpaCalculator.calculate_course_gpa]. *)
Definition calculate_course_gpa (self : GpaCalculator) : M (list float) :=
  if Nat.eqb (course_count self) 0
  then raise (Exn ValueError "没有课程数据，无法计算课程绩点")
  else course_gpa_loop self 0 (course_grades self).

(** [GpaCalculator.calculate_overall_gpa]: the [except] logs and re-raises. *)
Definition calculate_overall_gpa (self : GpaCalculator) : M float :=
  if Nat.eqb (course_count self) 0
  then raise (Exn ValueError "没有课程数据，无法计算平均学分绩点")
  else if feq (total_credits self) (fz 0)
  then raise (Exn ValueError "总学分为0，无法计算平均学分绩点")
  else
    catch
      (course_gpa_list <- calculate_course_gpa self ;;
       let total_weighted_gpa :=
         builtin_sum (zip_with fmul course_gpa_list (course_credits self)) in
       overall_gpa <- lift (fdiv total_weighted_gpa (total_credits self)) ;;
       overall_gpa <-
         (if flt overall_gpa (fz 0)
          then log WarnOverallNegative ;;; ret (fz 0)
          else if fgt overall_gpa (fz 5)
          then log WarnOverallOver5 ;;; ret overall_gpa
          else ret overall_gpa) ;;
       ret (py_round1 overall_gpa))
      any_exception
      (fun e => log ErrOverall ;;; raise e).

End Metrics.

(** ** The loops of [load_data], cell by cell *)

(** An [int] beyond the range of binary64: [float] raises OverflowError on
    it, and on nothing else. *)
Definition too_large (v : pyval) : bool :=
  match v with
  | VInt z => is_infinite (fz z)
  | _ => false
  end.

Definition overflow_error : exn :=
  Exn OverflowError "int too large to convert to float".

(** The cells a loop converts: those before the first one that is too
    large. *)
Fixpoint converted (cells : list pyval) : list pyval :=
  match cells with
  | [] => []
  | c :: rest => if too_large c then [] else c :: converted rest
  end.

Section Normalization.

Variable str_to_float : string -> option float.

(** The value stored for a cell that is converted, and the warnings logged
    for it as course [i]. *)
Definition normalize_credit (credit : pyval) : float :=
  match py_float str_to_float credit with
  | Ok x => if flt x (fz 0) then fz 0 else x
  | Raise _ => fz 0
  end.

Definition credit_warnings (i : nat) (credit : pyval) : list log_entry :=
  match py_float str_to_float credit with
  | Ok x => if flt x (fz 0) then [WarnCreditNegative i] else []
  | Raise _ => [WarnCreditInvalid i]
  end.

Definition normalize_grade (grade : pyval) : float :=
  match mapped_grade grade with
  | Some z => fz z
  | None =>
      match py_float str_to_float grade with
      | Ok x =>
          if flt x (fz 0) then fz 0
          else if fgt x (fz 100) then fz 100 else x
      | Raise _ => fz 0
      end
  end.

Definition grade_warnings (i : nat) (grade : pyval) : list log_entry :=
  match mapped_grade grade with
  | Some _ => []
  | None =>
      match py_float str_to_float grade with
      | Ok x =>
          if flt x (fz 0) then [WarnGradeNegative i]
          else if fgt x (fz 100) then [WarnGradeOver100 i] else []
      | Raise _ => [WarnGradeInvalid i]
      end
  end.

End Normalization.

(** The calculator when the credit loop has ended (line 69), and when the
    grade loop has ended (line 98). *)
Definition after_credits (str_to_float : string -> option float)
    (self : GpaCalculator) (names credits : list pyval) : GpaCalculator :=
  {| course_names := names;
     course_grades := course_grades self;
     course_credits := map (normalize_credit str_to_float) (converted credits);
     course_count := length names;
     total_credits := total_credits self |}.

Definition after_grades (str_to_float : string -> option float)
    (builtin_sum : list float -> float)
    (names grades credits : list pyval) : GpaCalculator :=
  {| course_names := names;
     course_grades := map (normalize_grade str_to_float) (converted grades);
     course_credits := map (normalize_credit str_to_float) (converted credits);
     course_count := length names;
     total_credits :=
       builtin_sum
         (map (normalize_credit str_to_float) (converted credits)) |}.

(** ** The metrics as formulas *)

(** The grade point of one course: 0.0 below 60 and for a grade that is
    not a finite number; otherwise [m + (g / 10 - m) - 5] with
    [m = int(g) // 10], each operation rounded to binary64, a negative
    value replaced by 0.0, and the result rounded to one decimal. *)
Definition grade_point (g : float) : float :=
  if SFltb g (fz 60) then fz 0
  else
    match py_int g with
    | Raise _ => fz 0
    | Ok k =>
        let m := fz (k / 10) in
        let c :=
          SFsub prec emax
            (SFadd prec emax m (SFsub prec emax (SFdiv prec emax g (fz 10)) m))
            (fz 5) in
        py_round1 (if SFltb c (fz 0) then fz 0 else c)
    end.

(** [acc + x1 * w1 + x2 * w2 + ...], from left to right, each product
    and each sum rounded to binary64. *)
Fixpoint weighted_sum_from (acc : float) (xs ws : list float) : float :=
  match xs, ws with
  | x :: xs', w :: ws' =>
      weighted_sum_from (SFadd prec emax acc (SFmul prec emax x w)) xs' ws'
  | _, _ => acc
  end.

Definition weighted_sum (xs ws : list float) : float :=
  weighted_sum_from (S754_zero false) xs ws.

(** [k / 10] rounded to the nearest integer, ties to even: the tenths of
    [k] hundredths rounded to one decimal. *)
Definition tenths_half_even (k : Z) : Z :=
  let q := (k / 10)%Z in
  match (k mod 10 ?= 5)%Z with
  | Lt => q
  | Gt => (q + 1)%Z
  | Eq => if Z.even q then q else (q + 1)%Z
  end.

(** ** Examples *)

(** The three courses of the specification's example. *)
Definition example_courses : M unit * GpaCalculator :=
  load_data (fun _ => None) sum_left init
    (AList [VStr "Math"; VStr "PE"; VStr "English"])
    (AList [VInt 95; VStr "不及格"; VInt 72])
    (AList [VInt 4; VInt 2; VInt 3]).

(** One course with the grade 63.5. *)
Definition course_63_5 : M unit * GpaCalculator :=
  load_data (fun _ => None) sum_left init
    (AList [VStr "Math"]) (AList [VFloat (decimal 635 10)]) (AList [VInt 1]).

(** One course of grade 60, with 1.1 credits. *)
Definition course_60 : M unit * GpaCalculator :=
  load_data (fun _ => None) sum_left init
    (AList [VStr "Math"]) (AList [VInt 60]) (AList [VFloat (decimal 11 10)]).

(** Two courses of grade 100, with the credits 0.1 and 0.7. *)
Definition two_full_marks : M unit * GpaCalculator :=
  load_data (fun _ => None) sum_left init
    (AList [VStr "A"; VStr "B"])
    (AList [VInt 100; VInt 100])
    (AList [VFloat (decimal 1 10); VFloat (decimal 7 10)]).

(** A credit that no float can hold, after a first course that is fine. *)
Definition huge_credit : M unit * GpaCalculator :=
  load_data (fun _ => None) sum_left (snd example_courses)
    (AList [VStr "A"; VStr "B"])
    (AList [VInt 90; VInt 80])
    (AList [VInt 3; VInt (10 ^ 400)]).

(** ** Tables *)

(** The same float: same sign, mantissa and exponent. *)
Definition same_float (x y : float) : bool :=
  match x, y with
  | S754_zero a, S754_zero b => Bool.eqb a b
  | S754_infinity a, S754_infinity b => Bool.eqb a b
  | S754_nan, S754_nan => true
  | S754_finite a m e, S754_finite b n f =>
      Bool.eqb a b && Pos.eqb m n && Z.eqb e f
  | _, _ => false
  end.

(** The integers [lo, lo + 1, ..., lo + n - 1]. *)
Definition Z_range (lo : Z) (n : nat) : list Z :=
  map (fun k => (lo + Z.of_nat k)%Z) (seq 0 n).

(** The grade point of the whole grade [z] is 0.0 below 60 and
    [(z - 50) / 10] from 60 on. *)
Definition whole_grade_row (z : Z) : bool :=
  same_float (grade_point (fz z))
    (if (z <? 60)%Z then fz 0 else nearest false (z - 50) 10).

(** The grade point of the grade [k / 10], unless [k] ends in 5: the tenth
    nearest to [(k - 500) / 100]. *)
Definition one_decimal_row (k : Z) : bool :=
  (k mod 10 =? 5)%Z
  || same_float (grade_point (decimal k 10))
       (nearest false (tenths_half_even (k - 500)) 10).

(** The rational number that a finite float stands for. *)
Definition exact_value (x : float) : Q :=
  match x with
  | S754_finite s m e =>
      let q := (inject_Z (Zpos m) * Qpower 2 e)%Q in
      if s then Qopp q else q
  | _ => 0%Q
  end.

(** The products [x1 * w1, x2 * w2, ...], each rounded to binary64. *)
Definition products (xs ws : list float) : list float :=
  zip_with (SFmul prec emax) xs ws.

(** The two averages of a calculator as formulas over the builtin [sum]. *)
Definition average_score_value (builtin_sum : list float -> float)
    (s : GpaCalculator) : float :=
  SFdiv prec emax
    (builtin_sum
       (products (map adjusted_grade (course_grades s)) (course_credits s)))
    (total_credits s).

Definition overall_gpa_value (builtin_sum : list float -> float)
    (s : GpaCalculator) : float :=
  let v :=
    SFdiv prec emax
      (builtin_sum
         (products (map grade_point (course_grades s)) (course_credits s)))
      (total_credits s) in
  py_round1 (if SFltb v (fz 0) then fz 0 else v).

(** Grades 60 and 67 with 1 and 39 credits. *)
Definition two_courses : M unit * GpaCalculator :=
  load_data (fun _ => None) sum_left init
    (AList [VStr "A"; VStr "B"])
    (AList [VInt 60; VInt 67])
    (AList [VInt 1; VInt 39]).

(** ** data_loader.py

    The loader does no arithmetic: it is the loader of the first part, over
    the cells of this module. *)

(** A [DataFrame] as [read_excel] returns it: [shape = (len rows, columns)]. *)
Record DataFrame : Type := MkDataFrame {
  columns : nat;
  rows : list (list pyval)
}.

Definition shape0 (df : DataFrame) : nat := length (rows df).
Definition shape1 (df : DataFrame) : nat := columns df.

(** [df.empty]. *)
Definition df_empty (df : DataFrame) : bool :=
  Nat.eqb (shape0 df) 0 || Nat.eqb (shape1 df) 0.

(** [df.iloc[i, j]]. *)
Definition iloc (df : DataFrame) (i j : nat) : M pyval :=
  match rows df !! i with
  | Some r =>
      match r !! j with
      | Some c => ret c
      | None => raise (Exn IndexError "single positional indexer is out-of-bounds")
      end
  | None => raise (Exn IndexError "single positional indexer is out-of-bounds")
  end.

(** [pd.isna] and [pd.notna] on a cell. *)
Definition isna (v : pyval) : bool :=
  match v with
  | VNone | VFloat S754_nan => true
  | _ => false
  end.
Definition notna (v : pyval) : bool := negb (isna v).

(** What the loader reads from the outside world. *)
Record os_env : Type := MkEnv {
  (** [os.path.exists]. *)
  path_exists : string -> bool;
  (** [os.path.splitext(path)[1].lower()]. *)
  splitext_lower : string -> string;
  (** [pd.read_excel]. *)
  read_excel : string -> result DataFrame
}.

Section DataLoader.

(** The builtin [str] on a value that is not a [str]. *)
Variable str_of : pyval -> string.

(** [str(v)]. *)
Definition py_str (v : pyval) : string :=
  match v with
  | VStr s => s
  | _ => str_of v
  end.

(** Lines 77-84: the scan for rows with a course name. *)
Fixpoint scan_rows (df : DataFrame) (range : list nat) : M (list nat) :=
  match range with
  | [] => ret []
  | i :: rest =>
      name <- iloc df i (course_name_col EXCEL_CONFIG) ;;
      found <-
        (if notna name && nonempty (strip (py_str name))
         then
           grade <- iloc df i (course_grade_col EXCEL_CONFIG) ;;
           (if isna grade then log (WarnNoGrade (i + 1)) else ret tt) ;;;
           credit <- iloc df i (course_credit_col EXCEL_CONFIG) ;;
           (if isna credit then log (WarnNoCredit (i + 1)) else ret tt) ;;;
           ret [i]
         else ret []) ;;
      more <- scan_rows df rest ;;
      ret (found ++ more)
  end.

(** Lines 96-107: the extraction of the three sequences. *)
Fixpoint extract_rows (df : DataFrame) (valid_rows : list nat)
  : M (list string * list pyval * list pyval) :=
  match valid_rows with
  | [] => ret ([], [], [])
  | i :: rest =>
      cell <- iloc df i (course_name_col EXCEL_CONFIG) ;;
      let name := strip (py_str cell) in
      grade <- iloc df i (course_grade_col EXCEL_CONFIG) ;;
      credit <- iloc df i (course_credit_col EXCEL_CONFIG) ;;
      more <- extract_rows df rest ;;
      let '(names, grades, credits) := more in
      ret (name :: names, grade :: grades, credit :: credits)
  end.

(** Lines 53-113: the body of the [try]. *)
Definition load_from_frame (env : os_env) (file_path : string)
  : M (nat * list string * list pyval * list pyval) :=
  df <- lift (read_excel env file_path) ;;
  if df_empty df then raise (Exn ValueError "Excel文件为空")
  else
    let start_row := start_row EXCEL_CONFIG in
    let name_col := course_name_col EXCEL_CONFIG in
    let grade_col := course_grade_col EXCEL_CONFIG in
    let credit_col := course_credit_col EXCEL_CONFIG in
    let required_cols := (Nat.max (Nat.max name_col grade_col) credit_col + 1)%nat in
    if Nat.ltb (shape1 df) required_cols
    then raise (Exn ValueError
                  ("Excel文件列数不足，至少需要" ++ nat_to_string required_cols ++ "列"))
    else if Nat.leb (shape0 df) start_row
    then raise (Exn ValueError
                  ("Excel文件中没有足够的数据行，至少需要"
                     ++ nat_to_string (start_row + 1) ++ "行"))
    else
      valid_rows <- scan_rows df (seq start_row (shape0 df - start_row)) ;;
      if Nat.eqb (length valid_rows) 0
      then raise (Exn ValueError "未找到有效的课程数据")
      else
        log (InfoFound (length valid_rows)) ;;;
        data <- extract_rows df valid_rows ;;
        let '(course_names, course_grades, course_credits) := data in
        log (InfoExtracted (length course_names)) ;;;
        ret (length course_names, course_names, course_grades, course_credits).

(** [DataLoader.load_from_excel]. *)
Definition load_from_excel (env : os_env) (file_path : pyval)
  : M (nat * list string * list pyval * list pyval) :=
  match file_path with
  | VStr file_path =>
      if negb (path_exists env file_path)
      then raise (Exn FileNotFoundError ("文件不存在: " ++ file_path))
      else
        let file_ext := splitext_lower env file_path in
        if negb (String.eqb file_ext ".xlsx" || String.eqb file_ext ".xls")
        then raise (Exn ValueError
                      ("不支持的文件格式: " ++ file_ext ++ "，仅支持.xlsx和.xls格式"))
        else
          try_except (load_from_frame env file_path)
            [ (is_kind EmptyDataError,
               fun _ => log (ErrLoad "Excel文件为空或格式错误") ;;;
                        raise (Exn ValueError "Excel文件为空或格式错误"));
              (is_kind ParserError,
               fun e => log (ErrLoad ("解析Excel文件时出错: " ++ message e)) ;;;
                        raise (Exn ValueError ("解析Excel文件时出错: " ++ message e)));
              (any_exception,
               fun e => log (ErrLoad ("加载Excel文件失败: " ++ message e)) ;;;
                        raise (Exn ValueError ("加载Excel文件失败: " ++ message e))) ]
  | _ => raise (Exn TypeError "文件路径必须是字符串类型")
  end.

End DataLoader.

(** ** The rows the loader keeps *)

(** The cell at row [i], column [j] of a frame. *)
Definition cell (df : DataFrame) (i j : nat) : pyval :=
  match rows df !! i with
  | Some r => match r !! j with Some c => c | None => VNone end
  | None => VNone
  end.

(** The data rows: the rows after the header offset, in row order. *)
Definition data_rows (df : DataFrame) : list nat :=
  seq (start_row EXCEL_CONFIG) (shape0 df - start_row EXCEL_CONFIG).

Section LoaderSpec.

Variable str_of : pyval -> string.

(** A row is valid iff its name cell is present and not empty after
    trimming whitespace. *)
Definition row_valid (df : DataFrame) (i : nat) : bool :=
  let c := cell df i (course_name_col EXCEL_CONFIG) in
  notna c && nonempty (strip (py_str str_of c)).

Definition valid_rows (df : DataFrame) : list nat :=
  List.filter (row_valid df) (data_rows df).

Definition row_name (df : DataFrame) (i : nat) : string :=
  strip (py_str str_of (cell df i (course_name_col EXCEL_CONFIG))).

End LoaderSpec.

Definition row_grade (df : DataFrame) (i : nat) : pyval :=
  cell df i (course_grade_col EXCEL_CONFIG).

Definition row_credit (df : DataFrame) (i : nat) : pyval :=
  cell df i (course_credit_col EXCEL_CONFIG).

(** ** A spreadsheet for the examples *)

(** As [read_excel] returns it: the first sheet row went into the column
    labels; frame row 0 is skipped by [start_row]; of the four data rows one
    has an empty name cell and one a name of blanks only. *)
Definition example_frame : DataFrame :=
  {| columns := 4;
     rows := [ [VInt 0; VStr "课程"; VStr "成绩"; VStr "学分"];
               [VInt 1; VStr "Math"; VInt 95; VInt 4];
               [VInt 2; VFloat S754_nan; VInt 80; VInt 3];
               [VInt 3; VStr "   "; VInt 70; VInt 1];
               [VInt 4; VStr " PE "; VStr "不及格"; VInt 2] ] |}.

Definition example_env : os_env :=
  {| path_exists := fun p => String.eqb p "grades.xlsx";
     splitext_lower := fun p => ".xlsx";
     read_excel := fun p => Ok example_frame |}.

(** ** persistence.py *)

Local Set Warnings "-register-all".

(** The Python values of a record: the JSON types, tuples, and objects
    that [json] cannot write.  The keys of a dict are [str]s, as the type
    [Dict[str, Any]] of the source says and as in every JSON object. *)
Inductive pyobj : Type :=
| ONone
| OBool (b : bool)
| OInt (z : Z)
| OFloat (f : float)
| OStr (s : string)
| OList (items : list pyobj)
| OTuple (items : list pyobj)
| ODict (entries : list (string * pyobj))
| ODate (isoformat : string)
| OComplex (re im : float)
| OObj (tag : string).

(** A JSON document, by the value it stands for.  With [allow_nan] at its
    default, NaN and the infinities are written and read back. *)
Inductive json : Type :=
| JNull
| JBool (b : bool)
| JInt (z : Z)
| JFloat (f : float)
| JStr (s : string)
| JArray (items : list json)
| JObject (members : list (string * json)).

(** [json.load]. *)
Fixpoint of_json (doc : json) : pyobj :=
  match doc with
  | JNull => ONone
  | JBool b => OBool b
  | JInt z => OInt z
  | JFloat f => OFloat f
  | JStr s => OStr s
  | JArray items => OList (map of_json items)
  | JObject members => ODict (map (fun m => (fst m, of_json (snd m))) members)
  end.

(** All the values of a list, if each of them is there. *)
Fixpoint all_some {A} (xs : list (option A)) : option (list A) :=
  match xs with
  | [] => Some []
  | Some x :: rest =>
      match all_some rest with
      | Some ys => Some (x :: ys)
      | None => None
      end
  | None :: _ => None
  end.

Definition with_key {A} (key : string) (value : option A)
  : option (string * A) :=
  match value with
  | Some v => Some (key, v)
  | None => None
  end.

(** What is on disk at [self.history_file]: nothing, text that is not a
    JSON document, or a JSON document. *)
Inductive history_file : Type :=
| FileAbsent
| FileNotJson
| FileJson (doc : json).

Record storage : Type := MkStorage {
  file : history_file;
  (** [open(self.history_file, 'r')] and [open(self.history_file, 'w')]
      succeed. *)
  readable : bool;
  writable : bool
}.

(** [isinstance(index, int)]: a [bool] is an [int]. *)
Definition as_int (v : pyval) : option Z :=
  match v with
  | VInt z => Some z
  | VBool b => Some (if b then 1%Z else 0%Z)
  | _ => None
  end.

(** [key in record]. *)
Definition has_key (key : string) (entries : list (string * pyobj)) : bool :=
  existsb (fun e => String.eqb (fst e) key) entries.

(** [record[key] = value]: the value of an existing key is replaced, a new
    key comes last. *)
Fixpoint dict_set (key : string) (value : pyobj)
    (entries : list (string * pyobj)) : list (string * pyobj) :=
  match entries with
  | [] => [(key, value)]
  | (k, v) :: rest =>
      if String.eqb k key then (k, value) :: rest
      else (k, v) :: dict_set key value rest
  end.


Definition required_keys : list string :=
  ["course_names"; "course_grades"; "course_credits"; "course_count"].

(** Lines 103-104: [[key for key in required_keys if key not in record_data]]. *)
Definition missing_keys (entries : list (string * pyobj)) : list string :=
  List.filter (fun key => negb (has_key key entries)) required_keys.

Section Persistence.

(** Whether CPython writes an [int] as decimal text and reads it back:
    always, before version 3.11; from 3.11 on an [int] of more than 4300
    digits is refused with a ValueError, unless the limit is changed. *)
Variable int_as_text : Z -> bool.

(** The builtin [str] on a value that is not a [str]. *)
Variable str_of : pyobj -> string.

(** The code points of a [str], each as a [str]. *)
Variable code_points : string -> list string.

(** The document has no [int] that is refused as text. *)
Fixpoint json_ok (doc : json) : bool :=
  match doc with
  | JInt z => int_as_text z
  | JArray items => forallb json_ok items
  | JObject members => forallb (fun m => json_ok (snd m)) members
  | _ => true
  end.

(** The document [json.dump] writes for a value; [None] when it raises: a
    date, a complex number or another object is not JSON serializable
    (TypeError), and an [int] may be refused as text (ValueError).  A tuple
    is written as an array. *)
Fixpoint to_json (v : pyobj) : option json :=
  match v with
  | ONone => Some JNull
  | OBool b => Some (JBool b)
  | OInt z => if int_as_text z then Some (JInt z) else None
  | OFloat f => Some (JFloat f)
  | OStr s => Some (JStr s)
  | OList items | OTuple items =>
      match all_some (map to_json items) with
      | Some docs => Some (JArray docs)
      | None => None
      end
  | ODict entries =>
      match all_some (map (fun e => with_key (fst e) (to_json (snd e))) entries) with
      | Some members => Some (JObject members)
      | None => None
      end
  | ODate _ | OComplex _ _ | OObj _ => None
  end.

(** [DataPersistence.load_history].  The [try] covers [json.load] and the
    [len(history)] of the log message: text that is not JSON, a file that
    cannot be read, a document with an [int] that is refused as text, and
    a document without a length (a number, [true], [false], [null]) all
    give the empty list.  An array, an object or a string is returned as
    it is. *)
Definition load_history (d : storage) : pyobj :=
  match file d with
  | FileAbsent => OList []
  | FileNotJson => OList []
  | FileJson doc =>
      if readable d && json_ok doc
      then match of_json doc with
           | OList items => OList items
           | ODict entries => ODict entries
           | OStr s => OStr s
           | _ => OList []
           end
      else OList []
  end.

(** [with open(self.history_file, 'w') as f: json.dump(history, f, ...)].
    [open] truncates the file before [json.dump] writes to it: when
    [json.dump] raises, the file is left with the part of the text written
    so far, which is not a JSON document. *)
Definition dump_history (d : storage) (history : pyobj) : result unit * storage :=
  if writable d
  then match to_json history with
       | Some doc =>
           (Ok tt, {| file := FileJson doc; readable := readable d;
                      writable := true |})
       | None =>
           (Raise (Exn OtherError "json.dump failed"),
            {| file := FileNotJson; readable := readable d;
               writable := true |})
       end
  else (Raise (Exn OtherError "Permission denied"), d).

(** Lines 145-151: an item of a list. *)
Definition prepare_item (item : pyobj) : pyobj :=
  match item with
  | ODate isoformat => OStr isoformat
  | OComplex _ _ => OStr (str_of item)
  | ONone | OBool _ | OInt _ | OFloat _ | OStr _ => item
  | _ => OStr (str_of item)
  end.

(** Lines 143-157: a value of the record. *)
Definition prepare_value (value : pyobj) : pyobj :=
  match value with
  | OList items => OList (map prepare_item items)
  | ODate isoformat => OStr isoformat
  | OComplex _ _ => OStr (str_of value)
  | ONone | OBool _ | OInt _ | OFloat _ | OStr _ | ODict _ => value
  | _ => OStr (str_of value)
  end.

(** [DataPersistence._prepare_record_for_json]: the record is changed in
    place, key by key. *)
Definition _prepare_record_for_json (record : list (string * pyobj))
  : list (string * pyobj) :=
  map (fun e => (fst e, prepare_value (snd e))) record.

(** The outcome of [save_record]: what it returns or raises, the disk, and
    the argument after the call, which the method changes in place. *)
Record saved : Type := MkSaved {
  save_result : result bool;
  save_disk : storage;
  save_record_data : pyobj
}.

(** [DataPersistence.save_record].  [now] is
    [datetime.datetime.now().isoformat()].  Every exception of the [try]
    makes the method return [False]: [history.append] on a history that is
    not a list, [open] on a file that cannot be written, [json.dump] on a
    record that it cannot write. *)
Definition save_record (d : storage) (now : string) (record_data : pyobj)
  : saved :=
  match record_data with
  | ODict entries =>
      match missing_keys entries with
      | _ :: _ =>
          {| save_result :=
               Raise (Exn ValueError
                        ("记录数据缺少必要的键: "
                           ++ String.concat ", " (missing_keys entries)));
             save_disk := d;
             save_record_data := record_data |}
      | [] =>
          let record :=
            _prepare_record_for_json (dict_set "timestamp" (OStr now) entries) in
          match load_history d with
          | OList history =>
              match dump_history d (OList (history ++ [ODict record])) with
              | (Ok _, d') =>
                  {| save_result := Ok true; save_disk := d';
                     save_record_data := ODict record |}
              | (Raise _, d') =>
                  {| save_result := Ok false; save_disk := d';
                     save_record_data := ODict record |}
              end
          | _ =>
              {| save_result := Ok false; save_disk := d;
                 save_record_data := ODict record |}
          end
      end
  | _ =>
      {| save_result := Raise (Exn TypeError "记录数据必须是字典类型");
         save_disk := d;
         save_record_data := record_data |}
  end.

(** [len(history)] for what [load_history] returns. *)
Definition py_len (history : pyobj) : nat :=
  match history with
  | OList items => length items
  | ODict entries => length entries
  | OStr s => length (code_points s)
  | _ => 0
  end.

(** [history[index]] for an index in range: an item of a list, a
    character of a [str]; KeyError on a dict, whose keys are [str]s. *)
Definition py_getitem (history : pyobj) (index : nat) : result (option pyobj) :=
  match history with
  | OList items => Ok (items !! index)
  | OStr s => Ok (OStr <$> code_points s !! index)
  | ODict _ => Raise (Exn OtherError "KeyError")
  | _ => Raise (Exn TypeError "object is not subscriptable")
  end.

(** [del history[index]] for an index in range. *)
Definition py_delitem (history : pyobj) (index : nat) : result pyobj :=
  match history with
  | OList items => Ok (OList (delete index items))
  | ODict _ => Raise (Exn OtherError "KeyError")
  | _ => Raise (Exn TypeError "object doesn't support item deletion")
  end.

(** [DataPersistence.get_record_by_index]; the [None] of the source is
    [Ok None].  Nothing is caught here. *)
Definition get_record_by_index (d : storage) (index : pyval)
  : result (option pyobj) :=
  match as_int index with
  | None => Raise (Exn TypeError "索引必须是整数类型")
  | Some index =>
      let history := load_history d in
      if Z.leb 0 index && Z.ltb index (Z.of_nat (py_len history))
      then py_getitem history (Z.to_nat index)
      else Ok None
  end.

(** [DataPersistence.delete_record]: the result and the disk afterwards. *)
Definition delete_record (d : storage) (index : pyval) : result bool * storage :=
  match as_int index with
  | None => (Raise (Exn TypeError "索引必须是整数类型"), d)
  | Some index =>
      let history := load_history d in
      if Nat.eqb (py_len history) 0 then (Ok false, d)
      else if Z.leb 0 index && Z.ltb index (Z.of_nat (py_len history))
      then
        match py_delitem history (Z.to_nat index) with
        | Raise _ => (Ok false, d)
        | Ok history =>
            match dump_history d history with
            | (Ok _, d') => (Ok true, d')
            | (Raise _, d') => (Ok false, d')
            end
        end
      else (Ok false, d)
  end.

End Persistence.


(** ** ui/console_ui.py: [_calculate_and_display_results]

    The lines the method prints.  Its own [logger] calls repeat the printed
    text and are left out; the log kept is that of the calculator. *)

(** [f"{x:.2f}"], as the float that the text denotes: the exact value of
    [x] is rounded to the nearest hundredth, ties to even; zeros, NaN and
    the infinities print as such. *)
Definition py_format_2f (x : float) : float :=
  match x with
  | S754_finite s m e => nearest s (scaled_half_even m e 100) 100
  | _ => x
  end.

Inductive console_line : Type :=
| PrintAverageScore (shown : float)
| PrintAverageScoreFailed (reason : string)
| PrintCourseGpaTitle
| PrintCourseGpa (name : pyval) (gpa : float)
| PrintCourseGpaFailed (reason : string)
| PrintOverallGpa (gpa : float)
| PrintOverallGpaFailed (reason : string)
| PrintUnknownError (reason : string).

Section Console.

Variable builtin_sum : list float -> float.

(** Lines 200-207. *)
Definition show_average_score (calculator : GpaCalculator)
  : M (list console_line) :=
  catch
    (avg_score <- calculate_average_score builtin_sum calculator ;;
     ret [PrintAverageScore (py_format_2f avg_score)])
    is_value_error
    (fun e => ret [PrintAverageScoreFailed (message e)]).

(** Lines 210-219. *)
Definition show_course_gpa (calculator : GpaCalculator)
  : M (list console_line) :=
  catch
    (course_gpas <- calculate_course_gpa calculator ;;
     ret (PrintCourseGpaTitle
            :: zip_with PrintCourseGpa (course_names calculator) course_gpas))
    is_value_error
    (fun e => ret [PrintCourseGpaFailed (message e)]).

(** Lines 222-229. *)
Definition show_overall_gpa (calculator : GpaCalculator)
  : M (list console_line) :=
  catch
    (overall_gpa <- calculate_overall_gpa builtin_sum calculator ;;
     ret [PrintOverallGpa overall_gpa])
    is_value_error
    (fun e => ret [PrintOverallGpaFailed (message e)]).

(** The outer [try] of lines 197-233: the blocks run in order; each prints
    only after its computation has returned, so an exception that a block
    lets through leaves the lines of the blocks before it, and the outer
    [except] adds one line and ends the method. *)
Fixpoint print_blocks (blocks : list (M (list console_line)))
  : M (list console_line) :=
  match blocks with
  | [] => ret []
  | block :: rest =>
      catch
        (printed <- block ;;
         more <- print_blocks rest ;;
         ret (printed ++ more))
        any_exception
        (fun e => ret [PrintUnknownError (message e)])
  end.

Definition _calculate_and_display_results (calculator : GpaCalculator)
  : M (list console_line) :=
  print_blocks [ show_average_score calculator;
                 show_course_gpa calculator;
                 show_overall_gpa calculator ].

End Console.

(** ** ui/gui.py: [MainWindow]

    The fields of the window that its handlers read back, and the message
    boxes they open.  The tables, the status bar and the tabs only display:
    they are not part of the state, and the updates of the tables appear as
    the list accesses they make.  [_load_history], which redraws the
    history table after a save under a [try] of its own, is left out. *)

(** The text of a result label: ["--"], or the text of a float, given by
    the number that [float(text)] returns for it. *)
Inductive label_text : Type :=
| Dashes
| Number (value : float).

Record MainWindow : Type := MkWindow {
  calculator : GpaCalculator;
  persistence : storage;
  win_course_count : nat;
  win_course_names : list string;
  win_course_grades : list pyval;
  win_course_credits : list pyval;
  avg_score_label : label_text;
  overall_gpa_label : label_text;
  calculate_button : bool;
  save_result_button : bool
}.

(** [MainWindow.__init__]. *)
Definition main_window (calc : GpaCalculator) (disk : storage) : MainWindow :=
  {| calculator := calc;
     persistence := disk;
     win_course_count := 0;
     win_course_names := [];
     win_course_grades := [];
     win_course_credits := [];
     avg_score_label := Dashes;
     overall_gpa_label := Dashes;
     calculate_button := false;
     save_result_button := false |}.

Definition set_courses (w : MainWindow) (count : nat) (names : list string)
    (grades credits : list pyval) : MainWindow :=
  {| calculator := calculator w;
     persistence := persistence w;
     win_course_count := count;
     win_course_names := names;
     win_course_grades := grades;
     win_course_credits := credits;
     avg_score_label := avg_score_label w;
     overall_gpa_label := overall_gpa_label w;
     calculate_button := calculate_button w;
     save_result_button := save_result_button w |}.

Definition set_calculate_button (w : MainWindow) (enabled : bool)
  : MainWindow :=
  {| calculator := calculator w;
     persistence := persistence w;
     win_course_count := win_course_count w;
     win_course_names := win_course_names w;
     win_course_grades := win_course_grades w;
     win_course_credits := win_course_credits w;
     avg_score_label := avg_score_label w;
     overall_gpa_label := overall_gpa_label w;
     calculate_button := enabled;
     save_result_button := save_result_button w |}.

Definition set_calculator (w : MainWindow) (calc : GpaCalculator)
  : MainWindow :=
  {| calculator := calc;
     persistence := persistence w;
     win_course_count := win_course_count w;
     win_course_names := win_course_names w;
     win_course_grades := win_course_grades w;
     win_course_credits := win_course_credits w;
     avg_score_label := avg_score_label w;
     overall_gpa_label := overall_gpa_label w;
     calculate_button := calculate_button w;
     save_result_button := save_result_button w |}.

Definition set_avg_score_label (w : MainWindow) (text : label_text)
  : MainWindow :=
  {| calculator := calculator w;
     persistence := persistence w;
     win_course_count := win_course_count w;
     win_course_names := win_course_names w;
     win_course_grades := win_course_grades w;
     win_course_credits := win_course_credits w;
     avg_score_label := text;
     overall_gpa_label := overall_gpa_label w;
     calculate_button := calculate_button w;
     save_result_button := save_result_button w |}.

Definition set_overall_gpa_label (w : MainWindow) (text : label_text)
  : MainWindow :=
  {| calculator := calculator w;
     persistence := persistence w;
     win_course_count := win_course_count w;
     win_course_names := win_course_names w;
     win_course_grades := win_course_grades w;
     win_course_credits := win_course_credits w;
     avg_score_label := avg_score_label w;
     overall_gpa_label := text;
     calculate_button := calculate_button w;
     save_result_button := save_result_button w |}.

Definition set_save_result_button (w : MainWindow) (enabled : bool)
  : MainWindow :=
  {| calculator := calculator w;
     persistence := persistence w;
     win_course_count := win_course_count w;
     win_course_names := win_course_names w;
     win_course_grades := win_course_grades w;
     win_course_credits := win_course_credits w;
     avg_score_label := avg_score_label w;
     overall_gpa_label := overall_gpa_label w;
     calculate_button := calculate_button w;
     save_result_button := enabled |}.

Definition set_persistence (w : MainWindow) (disk : storage) : MainWindow :=
  {| calculator := calculator w;
     persistence := disk;
     win_course_count := win_course_count w;
     win_course_names := win_course_names w;
     win_course_grades := win_course_grades w;
     win_course_credits := win_course_credits w;
     avg_score_label := avg_score_label w;
     overall_gpa_label := overall_gpa_label w;
     calculate_button := calculate_button w;
     save_result_button := save_result_button w |}.

(** [float(label.text())]. *)
Definition label_float (label : label_text) : result float :=
  match label with
  | Dashes => Raise (Exn ValueError "could not convert string to float: '--'")
  | Number value => Ok value
  end.

Section MainWindow.

Variable str_of : pyval -> string.
Variable int_as_text : Z -> bool.
Variable str_of_obj : pyobj -> string.
Variable str_to_float : string -> option float.
Variable builtin_sum : list float -> float.
Variable env : os_env.

(** [MainWindow.load_file]. *)
Definition load_file (w : MainWindow) (file_path : string)
  : MainWindow * list message_box :=
  match output (load_from_excel str_of env (VStr file_path)) with
  | Raise e => (w, [Critical ("加载文件失败: " ++ message e)])
  | Ok (count, names, grades, credits) =>
      let w := set_courses w count names grades credits in
      match output (table_items names grades credits (seq 0 count)) with
      | Raise e => (w, [Critical ("加载文件失败: " ++ message e)])
      | Ok _ => (set_calculate_button w true, [])
      end
  end.

(** [MainWindow._calculate_gpa]: one [try] around the load and the three
    metrics.  [load_data] works on the calculator of the window, so what
    it has assigned stays assigned when it raises, and so does what the
    method has assigned before an exception. *)
Definition _calculate_gpa (w : MainWindow) : MainWindow * list message_box :=
  let loaded :=
    load_data str_to_float builtin_sum (calculator w)
      (AList (map VStr (win_course_names w)))
      (AList (win_course_grades w))
      (AList (win_course_credits w)) in
  let calc := snd loaded in
  let w := set_calculator w calc in
  match output (fst loaded) with
  | Raise e => (w, [Critical ("计算GPA失败: " ++ message e)])
  | Ok _ =>
      match output (calculate_average_score builtin_sum calc) with
      | Raise e => (w, [Critical ("计算GPA失败: " ++ message e)])
      | Ok avg_score =>
          let w := set_avg_score_label w (Number (py_format_2f avg_score)) in
          match output (calculate_course_gpa calc) with
          | Raise e => (w, [Critical ("计算GPA失败: " ++ message e)])
          | Ok course_gpas =>
              match output (table_items (win_course_names w)
                              (win_course_grades w) course_gpas
                              (seq 0 (win_course_count w))) with
              | Raise e => (w, [Critical ("计算GPA失败: " ++ message e)])
              | Ok _ =>
                  match output (calculate_overall_gpa builtin_sum calc) with
                  | Raise e => (w, [Critical ("计算GPA失败: " ++ message e)])
                  | Ok overall_gpa =>
                      let w := set_overall_gpa_label w (Number overall_gpa) in
                      (set_save_result_button w true, [])
                  end
              end
          end
      end
  end.

(** [[float(x) for x in values]]. *)
Fixpoint floats (values : list pyval) : result (list float) :=
  match values with
  | [] => Ok []
  | value :: rest =>
      match py_float str_to_float value with
      | Raise e => Raise e
      | Ok x =>
          match floats rest with
          | Raise e => Raise e
          | Ok xs => Ok (x :: xs)
          end
      end
  end.

(** Lines 446-453: the dict literal, its values evaluated in order. *)
Definition record_of_window (w : MainWindow) : result (list (string * pyobj)) :=
  match floats (win_course_grades w) with
  | Raise e => Raise e
  | Ok grades =>
      match floats (win_course_credits w) with
      | Raise e => Raise e
      | Ok credits =>
          match label_float (avg_score_label w) with
          | Raise e => Raise e
          | Ok avg_score =>
              match label_float (overall_gpa_label w) with
              | Raise e => Raise e
              | Ok overall_gpa =>
                  Ok [ ("course_names", OList (map OStr (win_course_names w)));
                       ("course_grades", OList (map OFloat grades));
                       ("course_credits", OList (map OFloat credits));
                       ("course_count", OInt (Z.of_nat (win_course_count w)));
                       ("avg_score", OFloat avg_score);
                       ("overall_gpa", OFloat overall_gpa) ]
              end
          end
      end
  end.

(** [MainWindow._save_record], called at time [now]. *)
Definition _save_record (w : MainWindow) (now : string)
  : MainWindow * list message_box :=
  match record_of_window w with
  | Raise e => (w, [Critical ("保存记录失败: " ++ message e)])
  | Ok record =>
      let saved := save_record int_as_text str_of_obj (persistence w) now (ODict record) in
      let w := set_persistence w (save_disk saved) in
      match save_result saved with
      | Ok true => (w, [])
      | Ok false => (w, [Warning "保存记录失败"])
      | Raise e => (w, [Critical ("保存记录失败: " ++ message e)])
      end
  end.

End MainWindow.


(** ** A history and windows for the examples *)

Definition example_doc (name : string) : json :=
  JObject [ ("course_names", JArray [JStr name]);
            ("course_grades", JArray [JFloat (fz 90)]);
            ("course_credits", JArray [JFloat (fz 2)]);
            ("course_count", JInt 1);
            ("avg_score", JFloat (fz 90));
            ("overall_gpa", JFloat (fz 4));
            ("timestamp", JStr "2025-01-01T00:00:00") ].

Definition example_storage : storage :=
  {| file := FileJson (JArray [example_doc "a"; example_doc "b";
                               example_doc "c"]);
     readable := true;
     writable := true |}.


(** A record with the four required keys. *)
Definition example_record : pyobj :=
  ODict [ ("course_names", OList [OStr "Math"]);
          ("course_grades", OList [OFloat (fz 95)]);
          ("course_credits", OList [OFloat (fz 4)]);
          ("course_count", OInt 1) ].




Definition no_str (v : pyval) : string := EmptyString.

(** The window after [load_file] on the example sheet. *)
Definition loaded_window : MainWindow :=
  fst (load_file no_str example_env (main_window init example_storage)
         "grades.xlsx").

(** A window that shows the results of one course of grade 95. *)
Definition shown_window : MainWindow :=
  {| calculator := init;
     persistence := example_storage;
     win_course_count := 1;
     win_course_names := ["Math"];
     win_course_grades := [VInt 95];
     win_course_credits := [VInt 4];
     avg_score_label := Number (fz 95);
     overall_gpa_label := Number (decimal 45 10);
     calculate_button := true;
     save_result_button := true |}.

End Binary64.

(** * Proofs *)

(** ** Rational arithmetic: from [Qc] to [Q], where [lra] works *)

Lemma this_plus (x y : Qc) : (this (x + y) == this x + this y)%Q.
Proof. apply Qred_correct. Qed.

Lemma this_mult (x y : Qc) : (this (x * y) == this x * this y)%Q.
Proof. apply Qred_correct. Qed.

Lemma this_opp (x : Qc) : (this (- x) == - this x)%Q.
Proof. apply Qred_correct. Qed.

Lemma this_minus (x y : Qc) : (this (x - y) == this x - this y)%Q.
Proof. unfold Qcminus. rewrite this_plus, this_opp. reflexivity. Qed.

Lemma this_inv (x : Qc) : (this (/ x) == / this x)%Q.
Proof. apply Qred_correct. Qed.

Lemma this_div (x y : Qc) : (this (x / y) == this x / this y)%Q.
Proof. unfold Qcdiv. rewrite this_mult, this_inv. reflexivity. Qed.

Lemma this_of_Z (z : Z) : this (Qc_of_Z z) = inject_Z z.
Proof. reflexivity. Qed.

Lemma this_zero : this 0 = inject_Z 0.
Proof. reflexivity. Qed.

Lemma Qc_eq_this (x y : Qc) : x = y -> (this x == this y)%Q.
Proof. intros ->. reflexivity. Qed.

Ltac qc_push_in H :=
  repeat (setoid_rewrite this_plus in H || setoid_rewrite this_minus in H
          || setoid_rewrite this_div in H || setoid_rewrite this_mult in H
          || setoid_rewrite this_opp in H || setoid_rewrite this_inv in H).

Ltac qc_push :=
  repeat (setoid_rewrite this_plus || setoid_rewrite this_minus
          || setoid_rewrite this_div || setoid_rewrite this_mult
          || setoid_rewrite this_opp || setoid_rewrite this_inv).

(** Turns a goal on [Qc] into one on [Q] with numeral constants. *)
Ltac qc2q :=
  unfold Qcle, Qclt in *;
  repeat match goal with
  | |- @eq Qc _ _ => apply Qc_is_canon
  | H : @eq Qc _ _ |- _ => apply Qc_eq_this in H
  end;
  repeat match goal with
  | H : context [this (Qcplus _ _)] |- _ => qc_push_in H
  | H : context [this (Qcminus _ _)] |- _ => qc_push_in H
  | H : context [this (Qcmult _ _)] |- _ => qc_push_in H
  | H : context [this (Qcdiv _ _)] |- _ => qc_push_in H
  | H : context [this (Qcopp _)] |- _ => qc_push_in H
  end;
  qc_push;
  rewrite ?this_of_Z, ?this_zero in *; unfold inject_Z in *;
  repeat match goal with
  | |- context [ Qdiv ?a (?n # ?d) ] =>
      let v := eval vm_compute in (Qinv (n # d)) in
      change (Qdiv a (n # d)) with (Qmult a v)
  | H : context [ Qdiv ?a (?n # ?d) ] |- _ =>
      let v := eval vm_compute in (Qinv (n # d)) in
      change (Qdiv a (n # d)) with (Qmult a v) in H
  end.

Lemma Qcltb_lt (x y : Qc) : Qcltb x y = true <-> x < y.
Proof.
  unfold Qcltb. rewrite Qclt_alt.
  destruct (x ?= y); split; congruence.
Qed.

Lemma Qcltb_ge (x y : Qc) : Qcltb x y = false <-> y <= x.
Proof.
  rewrite <- Bool.not_true_iff_false, Qcltb_lt. split.
  - apply Qcnot_lt_le.
  - intros H H'. exact (Qcle_not_lt _ _ H H').
Qed.

Lemma Qceqb_eq (x y : Qc) : Qceqb x y = true <-> x = y.
Proof.
  unfold Qceqb. rewrite Qceq_alt.
  destruct (x ?= y); split; congruence.
Qed.

Lemma Qceqb_neq (x y : Qc) : Qceqb x y = false <-> x <> y.
Proof.
  rewrite <- Bool.not_true_iff_false, Qceqb_eq. reflexivity.
Qed.

Lemma Qc_of_Z_le (a b : Z) : (a <= b)%Z <-> Qc_of_Z a <= Qc_of_Z b.
Proof. unfold Qcle. rewrite !this_of_Z, <- Zle_Qle. reflexivity. Qed.

Lemma Qc_of_Z_lt (a b : Z) : (a < b)%Z <-> Qc_of_Z a < Qc_of_Z b.
Proof. unfold Qclt. rewrite !this_of_Z, <- Zlt_Qlt. reflexivity. Qed.

(** ** Floor, truncation and rounding *)

Lemma Qfloor_le_Qc (q : Qc) : Qc_of_Z (Qfloor q) <= q.
Proof. unfold Qcle. rewrite this_of_Z. apply Qfloor_le. Qed.

Lemma Qlt_floor_Qc (q : Qc) : q < Qc_of_Z (Qfloor q + 1).
Proof. unfold Qclt. rewrite this_of_Z. apply Qlt_floor. Qed.

Lemma Qfloor_lower (q : Qc) (a : Z) : Qc_of_Z a <= q -> (a <= Qfloor q)%Z.
Proof.
  intros H. pose proof (Qlt_floor_Qc q) as H'.
  assert (Qc_of_Z a < Qc_of_Z (Qfloor q + 1)) as H2
    by (eapply Qcle_lt_trans; eauto).
  apply Qc_of_Z_lt in H2. lia.
Qed.




(** Rounding to an integer stays between integer bounds. *)
Lemma round_half_even_bounds (q : Qc) (a b : Z) :
  Qc_of_Z a <= q -> q <= Qc_of_Z b ->
  (a <= round_half_even q <= b)%Z.
Proof.
  intros Ha Hb. unfold round_half_even.
  pose proof (Qfloor_lower q a Ha) as Hfa.
  pose proof (Qfloor_le_Qc q) as Hfq.
  assert (Qfloor q <= b)%Z as Hfb
    by (apply Qc_of_Z_le; eapply Qcle_trans; eauto).
  assert (q - Qc_of_Z (Qfloor q) <> 0 -> (Qfloor q + 1 <= b)%Z) as Hup.
  { intros Hne.
    destruct (Z.eq_dec (Qfloor q) b) as [E|]; [|lia].
    exfalso. apply Hne. rewrite E in *.
    assert (q = Qc_of_Z b) as -> by (apply Qcle_antisym; assumption).
    ring. }
  destruct (Qccompare (q - Qc_of_Z (Qfloor q)) (Q2Qc (1 # 2))) eqn:E.
  - destruct (Z.even (Qfloor q)); [lia|].
    apply Qceq_alt in E.
    enough (Qfloor q + 1 <= b)%Z by lia.
    apply Hup. rewrite E. discriminate.
  - lia.
  - enough (Qfloor q + 1 <= b)%Z by lia.
    apply Hup. intros E0. rewrite E0 in E. discriminate.
Qed.

(** The rounded value is within one half of the argument. *)
Lemma round_half_even_near (q : Qc) :
  Qc_of_Z (round_half_even q) - q <= Q2Qc (1 # 2) /\
  q - Qc_of_Z (round_half_even q) <= Q2Qc (1 # 2).
Proof.
  pose proof (Qfloor_le_Qc q) as Hlo.
  pose proof (Qlt_floor_Qc q) as Hhi.
  assert (Qc_of_Z (Qfloor q + 1) = Qc_of_Z (Qfloor q) + Qc_of_Z 1) as E1
    by (apply Qc_is_canon; rewrite this_plus, !this_of_Z, inject_Z_plus;
        reflexivity).
  assert (this (Q2Qc (1 # 2)) = (1 # 2)%Q) as Eh by reflexivity.
  unfold round_half_even.
  destruct (Qccompare (q - Qc_of_Z (Qfloor q)) (Q2Qc (1 # 2))) eqn:E;
    [ apply Qceq_alt in E; destruct (Z.even (Qfloor q))
    | apply Qclt_alt in E
    | apply Qcgt_alt in E ];
    rewrite ?E1 in *;
    generalize dependent (Qc_of_Z (Qfloor q)); intros f; intros;
    split; qc2q; rewrite ?Eh in *; lra.
Qed.

(** ** Floats *)

Lemma Qc_of_Z_0 : Qc_of_Z 0 = 0.
Proof. apply Qc_is_canon. reflexivity. Qed.

Lemma fz_0 : fz 0 = fzero.
Proof. unfold fz, fzero. rewrite Qc_of_Z_0. reflexivity. Qed.

Lemma formula_is_linear (g : Qc) : grade_point_formula g = linear_scale g.
Proof. unfold grade_point_formula, linear_scale. ring. Qed.

Lemma linear_scale_bounds (q : Qc) :
  Qc_of_Z 60 <= q -> q <= Qc_of_Z 100 ->
  Qc_of_Z 1 <= linear_scale q /\ linear_scale q <= Qc_of_Z 5.
Proof. intros H1 H2. unfold linear_scale. split; qc2q; lra. Qed.

Lemma py_round1_bounds (q : Qc) (a b : Z) :
  Qc_of_Z a <= q * Qc_of_Z 10 -> q * Qc_of_Z 10 <= Qc_of_Z b ->
  exists k, py_round1 (FNum q) = FNum (Qc_of_Z k / Qc_of_Z 10)
            /\ (a <= k <= b)%Z.
Proof.
  intros Ha Hb. eexists. split; [reflexivity|].
  apply round_half_even_bounds; assumption.
Qed.

Lemma py_round1_gpa (q : Qc) :
  Qc_of_Z 0 <= q -> q <= Qc_of_Z 5 -> gpa_in_range (py_round1 (FNum q)).
Proof.
  intros H0 H5.
  destruct (py_round1_bounds q 0 50) as (k & -> & Hk).
  - qc2q. lra.
  - qc2q. lra.
  - exists (Qc_of_Z k / Qc_of_Z 10). split; [reflexivity|].
    destruct Hk as [Hk0 Hk5].
    apply Qc_of_Z_le in Hk0, Hk5. split; qc2q; lra.
Qed.

(** ** The grade-point loop *)

Lemma course_gpa_turn_passing (s : GpaCalculator) (i : nat) (q : Qc) :
  Qc_of_Z 60 <= q -> q <= Qc_of_Z 100 ->
  course_gpa_turn s i (FNum q) = ret (py_round1 (FNum (linear_scale q))).
Proof.
  intros H60 H100.
  destruct (linear_scale_bounds q H60 H100) as [Hlo Hhi].
  unfold course_gpa_turn, flt, fz.
  replace (Qcltb q (Qc_of_Z 60)) with false
    by (symmetry; apply Qcltb_ge; assumption).
  unfold py_int, lift, bind, fdiv.
  replace (Qceqb (Qc_of_Z 10) 0) with false by reflexivity.
  cbn [fsub fadd fneg].
  assert (Qc_of_Z (Qctrunc q / 10)
          + (q / Qc_of_Z 10 + - Qc_of_Z (Qctrunc q / 10)) + - Qc_of_Z 5
          = linear_scale q) as -> by (unfold linear_scale; ring).
  unfold fgt, flt.
  replace (Qcltb (linear_scale q) (Qc_of_Z 0)) with false
    by (symmetry; apply Qcltb_ge; qc2q; lra).
  replace (Qcltb (Qc_of_Z 5) (linear_scale q)) with false
    by (symmetry; apply Qcltb_ge; assumption).
  reflexivity.
Qed.

Lemma course_gpa_turn_failing (s : GpaCalculator) (i : nat) (q : Qc) :
  q < Qc_of_Z 60 -> course_gpa_turn s i (FNum q) = ret (FNum 0).
Proof.
  intros H. unfold course_gpa_turn, flt, fz.
  replace (Qcltb q (Qc_of_Z 60)) with true
    by (symmetry; apply Qcltb_lt; assumption).
  reflexivity.
Qed.

Lemma course_gpa_turn_nan (s : GpaCalculator) (i : nat) :
  is_Some (course_names s !! i) ->
  course_gpa_turn s i FNan = ([ErrCourseGpa i], Ok (FNum 0)).
Proof.
  intros [name Hname]. unfold course_gpa_turn, getitem. cbn.
  rewrite Hname. reflexivity.
Qed.

Lemma course_gpa_turn_loaded (s : GpaCalculator) (i : nat) (g : pyfloat) :
  is_Some (course_names s !! i) -> loaded_grade g ->
  course_gpa_turn s i g = (nan_errors i [g], Ok (grade_point g)).
Proof.
  intros Hname [(q & -> & H0 & H100) | ->].
  - cbn [nan_errors grade_point].
    destruct (Qcltb q (Qc_of_Z 60)) eqn:E.
    + apply Qcltb_lt in E. apply course_gpa_turn_failing. assumption.
    + apply Qcltb_ge in E. rewrite formula_is_linear.
      apply course_gpa_turn_passing; assumption.
  - apply course_gpa_turn_nan. assumption.
Qed.

Lemma nan_errors_cons (i : nat) (g : pyfloat) (rest : list pyfloat) :
  nan_errors i (g :: rest) = nan_errors i [g] ++ nan_errors (S i) rest.
Proof. destruct g; reflexivity. Qed.

Lemma course_gpa_loop_loaded (s : GpaCalculator) (grades : list pyfloat) :
  forall i,
    (i + length grades <= length (course_names s))%nat ->
    Forall loaded_grade grades ->
    course_gpa_loop s i grades
    = (nan_errors i grades, Ok (map grade_point grades)).
Proof.
  induction grades as [|g rest IH]; intros i Hlen Hall.
  - reflexivity.
  - inversion Hall as [|? ? Hg Hrest]; subst.
    cbn [course_gpa_loop length] in *.
    rewrite (course_gpa_turn_loaded s i g); [| | assumption].
    + rewrite (nan_errors_cons i g rest). unfold bind at 1.
      rewrite IH by (assumption || lia).
      unfold bind, ret. rewrite app_nil_r. reflexivity.
    + apply lookup_lt_is_Some. lia.
Qed.

Lemma nan_errors_no_range_warning (i : nat) (grades : list pyfloat) :
  forallb (fun w => negb (is_range_warning w)) (nan_errors i grades) = true.
Proof.
  revert i. induction grades as [|g rest IH]; intros i; [reflexivity|].
  destruct g; cbn; auto.
Qed.

Lemma grade_point_loaded (g : pyfloat) :
  loaded_grade g -> gpa_in_range (grade_point g).
Proof.
  intros [(q & -> & H0 & H100) | ->]; cbn [grade_point].
  - destruct (Qcltb q (Qc_of_Z 60)) eqn:E.
    + exists 0. rewrite <- Qc_of_Z_0. repeat split; qc2q; lra.
    + apply Qcltb_ge in E. rewrite formula_is_linear.
      destruct (linear_scale_bounds q E H100).
      apply py_round1_gpa; [qc2q; lra | assumption].
  - exists 0. rewrite <- Qc_of_Z_0. repeat split; qc2q; lra.
Qed.

(** ** [load_data] *)

Lemma GRADE_MAPPING_values (s : string) (z : Z) :
  GRADE_MAPPING !! s = Some z ->
  (s = "优秀" /\ z = 95%Z) \/ (s = "良好" /\ z = 85%Z)
  \/ (s = "中等" /\ z = 75%Z) \/ (s = "及格" /\ z = 65%Z)
  \/ (s = "不及格" /\ z = 0%Z).
Proof.
  unfold GRADE_MAPPING. intros H.
  repeat (apply lookup_insert_Some in H as [[<- <-] | [_ H]]; [tauto|]).
  rewrite lookup_empty in H. discriminate.
Qed.

Lemma GRADE_MAPPING_labels :
  GRADE_MAPPING !! "优秀" = Some 95%Z /\ GRADE_MAPPING !! "良好" = Some 85%Z
  /\ GRADE_MAPPING !! "中等" = Some 75%Z /\ GRADE_MAPPING !! "及格" = Some 65%Z
  /\ GRADE_MAPPING !! "不及格" = Some 0%Z.
Proof. repeat split; vm_compute; reflexivity. Qed.

Lemma fz_in_range (z : Z) : (0 <= z <= 100)%Z -> grade_in_range (fz z).
Proof.
  intros [H0 H100]. exists (Qc_of_Z z).
  split; [reflexivity|]. split; apply -> Qc_of_Z_le; assumption.
Qed.

Lemma flt_zero_zero : flt (FNum 0) (fz 0) = false.
Proof. reflexivity. Qed.

(** A float that is neither below 0 nor above 100. *)
Lemma not_clamped_loaded (x : pyfloat) :
  flt x (fz 0) = false -> fgt x (fz 100) = false -> loaded_grade x.
Proof.
  destruct x as [q | neg |]; unfold fgt, flt, fz; intros H0 H100.
  - left. exists q. split; [reflexivity|].
    apply Qcltb_ge in H0, H100. split; assumption.
  - destruct neg; discriminate.
  - right. reflexivity.
Qed.

Section LoadData.

Variable str_to_float : string -> option pyfloat.

Lemma py_float_raise_kind (v : pyval) (e : exn) :
  py_float str_to_float v = Raise e -> value_or_type_error (kind e) = true.
Proof.
  destruct v as [| b | z | f | s | tag]; cbn; try discriminate;
    try (intros [= <-]; reflexivity).
  destruct (str_to_float s); [discriminate|].
  intros [= <-]. reflexivity.
Qed.

Lemma convert_credit_ok (names : list pyval) (i : nat) (credit : pyval) :
  is_Some (names !! i) ->
  exists l c, convert_credit str_to_float names i credit = (l, Ok c)
              /\ credit_not_negative c.
Proof.
  intros [name Hname]. unfold convert_credit, getitem, lift, bind.
  destruct (py_float str_to_float credit) as [cv | e] eqn:E.
  - destruct (flt cv (fz 0)) eqn:Hneg.
    + rewrite Hname. cbn. eexists _, _. split; [reflexivity|].
      exact flt_zero_zero.
    + cbn. eexists _, _. split; [reflexivity | exact Hneg].
  - cbn. rewrite (py_float_raise_kind _ _ E), Hname. cbn.
    eexists _, _. split; [reflexivity | exact flt_zero_zero].
Qed.

Lemma convert_credits_ok (names : list pyval) (credits : list pyval) :
  forall i,
    (i + length credits <= length names)%nat ->
    exists l cs, convert_credits str_to_float names i credits = (l, Ok cs)
                 /\ length cs = length credits
                 /\ Forall credit_not_negative cs.
Proof.
  induction credits as [|c rest IH]; intros i Hlen.
  - exists [], []. repeat split. constructor.
  - cbn [length convert_credits] in *.
    destruct (convert_credit_ok names i c) as (l1 & c1 & E1 & H1);
      [apply lookup_lt_is_Some; lia|].
    destruct (IH (S i)) as (l2 & cs & E2 & Hl & Hall); [lia|].
    rewrite E1. unfold bind at 1. rewrite E2. cbn.
    eexists _, _. split; [reflexivity|]. split.
    + cbn. congruence.
    + constructor; assumption.
Qed.

Lemma convert_grade_ok (names : list pyval) (i : nat) (grade : pyval) :
  is_Some (names !! i) ->
  exists l g, convert_grade str_to_float names i grade = (l, Ok g)
              /\ loaded_grade g.
Proof.
  intros [name Hname]. unfold convert_grade, getitem, lift.
  destruct (mapped_grade grade) as [z|] eqn:Hmap.
  - cbn. eexists _, _. split; [reflexivity|]. left.
    destruct grade; try discriminate. cbn in Hmap.
    apply GRADE_MAPPING_values in Hmap.
    apply fz_in_range.
    destruct Hmap as [[_ ->]|[[_ ->]|[[_ ->]|[[_ ->]|[_ ->]]]]]; lia.
  - unfold bind.
    destruct (py_float str_to_float grade) as [gv | e] eqn:E.
    + destruct (flt gv (fz 0)) eqn:Hneg.
      * rewrite Hname. cbn. eexists _, _. split; [reflexivity|].
        left. rewrite <- Qc_of_Z_0. apply fz_in_range. lia.
      * destruct (fgt gv (fz 100)) eqn:Hover.
        -- rewrite Hname. cbn. eexists _, _. split; [reflexivity|].
           left. apply fz_in_range. lia.
        -- cbn. eexists _, _. split; [reflexivity|].
           apply not_clamped_loaded; assumption.
    + cbn. rewrite (py_float_raise_kind _ _ E), Hname. cbn.
      eexists _, _. split; [reflexivity|].
      left. rewrite <- Qc_of_Z_0. apply fz_in_range. lia.
Qed.

Lemma convert_grades_ok (names : list pyval) (grades : list pyval) :
  forall i,
    (i + length grades <= length names)%nat ->
    exists l gs, convert_grades str_to_float names i grades = (l, Ok gs)
                 /\ length gs = length grades
                 /\ Forall loaded_grade gs.
Proof.
  induction grades as [|g rest IH]; intros i Hlen.
  - exists [], []. repeat split. constructor.
  - cbn [length convert_grades] in *.
    destruct (convert_grade_ok names i g) as (l1 & g1 & E1 & H1);
      [apply lookup_lt_is_Some; lia|].
    destruct (IH (S i)) as (l2 & gs & E2 & Hl & Hall); [lia|].
    rewrite E1. unfold bind at 1. rewrite E2. cbn.
    eexists _, _. split; [reflexivity|]. split.
    + cbn. congruence.
    + constructor; assumption.
Qed.

(** [load_data] succeeds exactly on three lists of one length that is not
    0, and then stores a state that satisfies the invariant. *)
Lemma load_data_ok (self : GpaCalculator) (names grades credits : list pyval) :
  length names = length grades -> length grades = length credits ->
  length names <> 0%nat ->
  exists l s',
    load_data str_to_float self (AList names) (AList grades) (AList credits)
    = (l, Ok s')
    /\ course_names s' = names
    /\ course_count s' = length names
    /\ calc_inv s'.
Proof.
  intros Hng Hgc Hne. unfold load_data. cbn [is_list arg_items andb negb].
  rewrite Hng, Hgc, !Nat.eqb_refl. cbn [andb negb].
  replace (Nat.eqb (length credits) 0) with false
    by (symmetry; apply Nat.eqb_neq; congruence).
  destruct (convert_credits_ok names credits 0) as (l1 & cs & E1 & Hl1 & Hcs);
    [lia|].
  destruct (convert_grades_ok names grades 0) as (l2 & gs & E2 & Hl2 & Hgs);
    [lia|].
  rewrite E1. unfold bind at 1.
  destruct (feq (py_sum cs) (fz 0)); cbn; rewrite E2; cbn;
    (eexists _, _; split; [reflexivity|]);
    (split; [reflexivity|]); (split; [cbn; congruence|]);
    constructor; cbn [course_names course_grades course_credits course_count
                       total_credits]; congruence || assumption.
Qed.

Lemma load_data_inv (self : GpaCalculator) (names grades credits : pyarg)
    (s' : GpaCalculator) :
  output (load_data str_to_float self names grades credits) = Ok s' ->
  exists ns gs cs,
    names = AList ns /\ grades = AList gs /\ credits = AList cs
    /\ length ns = length gs /\ length gs = length cs
    /\ length ns <> 0%nat
    /\ course_names s' = ns /\ course_count s' = length ns /\ calc_inv s'.
Proof.
  destruct names as [ns|], grades as [gs|], credits as [cs|];
    try (cbn; discriminate).
  intros H.
  assert (length ns = length gs /\ length gs = length cs
          /\ length ns <> 0%nat) as (E1 & E2 & E3).
  { unfold load_data in H. cbn [is_list arg_items andb negb] in H.
    destruct (Nat.eqb (length ns) (length gs)) eqn:E1;
      [|cbn in H; discriminate].
    destruct (Nat.eqb (length gs) (length cs)) eqn:E2;
      [|cbn in H; discriminate].
    destruct (Nat.eqb (length ns) 0) eqn:E3; [cbn in H; discriminate|].
    apply Nat.eqb_eq in E1, E2. apply Nat.eqb_neq in E3. tauto. }
  destruct (load_data_ok self ns gs cs E1 E2 E3) as (l & s0 & E & Hs).
  rewrite E in H. cbn in H. injection H as <-.
  exists ns, gs, cs. tauto.
Qed.

Lemma init_inv : calc_inv init.
Proof.
  constructor; cbn; try reflexivity; try constructor.
  exact fz_0.
Qed.

Lemma reachable_inv (s : GpaCalculator) :
  reachable str_to_float s -> calc_inv s.
Proof.
  intros H. destruct H as [| s names grades credits s' _ Hload].
  - exact init_inv.
  - apply load_data_inv in Hload
      as (ns & gs & cs & _ & _ & _ & _ & _ & _ & _ & _ & Hinv).
    exact Hinv.
Qed.

End LoadData.

(** ** Sums *)

Lemma fadd_comm (x y : pyfloat) : fadd x y = fadd y x.
Proof.
  destruct x as [a|n1|], y as [b|n2|]; cbn; try reflexivity.
  - f_equal. ring.
  - destruct n1, n2; reflexivity.
Qed.

Lemma fadd_assoc (x y z : pyfloat) : fadd x (fadd y z) = fadd (fadd x y) z.
Proof.
  destruct x as [a|n1|], y as [b|n2|], z as [c|n3|]; cbn;
    try reflexivity; try (f_equal; ring);
    repeat match goal with n : bool |- _ => destruct n end; reflexivity.
Qed.

Lemma fadd_zero_l (x : pyfloat) : fadd fzero x = x.
Proof. destruct x; cbn; try reflexivity. f_equal. ring. Qed.

Lemma fold_left_fadd (xs : list pyfloat) (a x : pyfloat) :
  fold_left fadd xs (fadd a x) = fadd x (fold_left fadd xs a).
Proof.
  revert a. induction xs as [|y ys IH]; intros a; cbn.
  - apply fadd_comm.
  - rewrite <- IH. f_equal.
    rewrite <- !fadd_assoc. f_equal. apply fadd_comm.
Qed.

Lemma py_sum_cons (x : pyfloat) (xs : list pyfloat) :
  py_sum (x :: xs) = fadd x (py_sum xs).
Proof. unfold py_sum. cbn [fold_left]. apply fold_left_fadd. Qed.

(** The generator sum of the source is the indexed sum of the formula. *)
Lemma py_sum_weighted (xs ws : list pyfloat) :
  py_sum (zip_with fmul xs ws) = weighted_sum xs ws.
Proof.
  revert ws. induction xs as [|x xs IH]; intros [|w ws]; try reflexivity.
  cbn [zip_with weighted_sum]. rewrite py_sum_cons, IH. reflexivity.
Qed.

Lemma feq_fz_0 (b : Qc) : Qceqb b 0 = Qceqb b (Qc_of_Z 0).
Proof. rewrite Qc_of_Z_0. reflexivity. Qed.

Lemma fdiv_ok (x y : pyfloat) :
  feq y (fz 0) = false -> exists v, fdiv x y = Ok v.
Proof.
  destruct y as [b|n|]; cbn; intros H.
  - rewrite feq_fz_0, H. destruct x; eauto.
  - destruct x; eauto.
  - eauto.
Qed.

Lemma fdiv_zero (x y : pyfloat) :
  feq y (fz 0) = true -> raises (fdiv x y) ZeroDivisionError.
Proof.
  destruct y as [b|n|]; cbn; intros H; try discriminate.
  rewrite feq_fz_0, H. eexists. reflexivity.
Qed.

(** ** The three metrics *)

Lemma calculate_course_gpa_loaded (s : GpaCalculator) :
  calc_inv s -> course_count s <> 0%nat ->
  calculate_course_gpa s
  = (nan_errors 0 (course_grades s), Ok (map grade_point (course_grades s))).
Proof.
  intros Hinv Hcount. unfold calculate_course_gpa.
  replace (Nat.eqb (course_count s) 0) with false
    by (symmetry; apply Nat.eqb_neq; assumption).
  apply course_gpa_loop_loaded.
  - rewrite (inv_names s Hinv), (inv_grades s Hinv). lia.
  - exact (inv_grade_values s Hinv).
Qed.

Lemma calculate_average_score_loaded (s : GpaCalculator) :
  course_count s <> 0%nat -> feq (total_credits s) (fz 0) = false ->
  calculate_average_score s
  = lift (fdiv (weighted_sum (map adjusted_grade_spec (course_grades s))
                             (course_credits s))
               (total_credits s)).
Proof.
  intros Hcount Htotal. unfold calculate_average_score.
  replace (Nat.eqb (course_count s) 0) with false
    by (symmetry; apply Nat.eqb_neq; assumption).
  rewrite Htotal, py_sum_weighted. reflexivity.
Qed.

(** The value [calculate_overall_gpa] computes before its range check. *)
Lemma calculate_overall_gpa_loaded (s : GpaCalculator) :
  calc_inv s -> course_count s <> 0%nat ->
  feq (total_credits s) (fz 0) = false ->
  exists v,
    fdiv (weighted_sum (map grade_point (course_grades s)) (course_credits s))
         (total_credits s) = Ok v
    /\ calculate_overall_gpa s
       = (nan_errors 0 (course_grades s)
            ++ (if flt v (fz 0) then [WarnOverallNegative]
                else if fgt v (FNum (Qc_of_Z 5)) then [WarnOverallOver5]
                else []),
          Ok (py_round1 (if flt v (fz 0) then FNum 0 else v))).
Proof.
  intros Hinv Hcount Htotal.
  destruct (fdiv_ok (weighted_sum (map grade_point (course_grades s))
                                  (course_credits s))
                    (total_credits s) Htotal) as [v Hv].
  exists v. split; [exact Hv|].
  unfold calculate_overall_gpa.
  replace (Nat.eqb (course_count s) 0) with false
    by (symmetry; apply Nat.eqb_neq; assumption).
  rewrite Htotal, (calculate_course_gpa_loaded s Hinv Hcount).
  unfold bind at 1. rewrite py_sum_weighted, Hv. unfold lift, bind at 1.
  destruct (flt v (fz 0)); [|destruct (fgt v (FNum (Qc_of_Z 5)))];
    cbn; rewrite ?app_nil_r; reflexivity.
Qed.

(** Proves an equation between floats or lists of floats whose rationals
    are closed terms. *)
Ltac float_eq :=
  cbn [total_credits course_grades course_credits]; unfold fz;
  repeat first [ reflexivity
               | apply Qc_is_canon; vm_compute; reflexivity
               | progress f_equal ].

Lemma reachable_state_after (str_to_float : string -> option pyfloat)
    (names grades credits : pyarg) :
  is_ok (output (load_data str_to_float init names grades credits)) = true ->
  reachable str_to_float
    (state_after (load_data str_to_float init names grades credits)).
Proof.
  unfold state_after.
  destruct (output (load_data str_to_float init names grades credits))
    as [s|e] eqn:E; [|discriminate].
  intros _. exact (reach_load _ _ _ _ _ _ (reach_init _) E).
Qed.

(** ** C1: when the metrics fail *)

(** C1, counterexample.  After loading one course of grade 90 with 0
    credits the calculator is loaded and its total of credits is 0, yet
    [calculate_course_gpa] does not raise: it returns the list [4.0]. *)
Lemma course_gpa_with_zero_credits :
  reachable decimal_float (state_after zero_credit_courses)
  /\ feq (total_credits (state_after zero_credit_courses)) (fz 0) = true
  /\ output (calculate_course_gpa (state_after zero_credit_courses))
     = Ok [FNum (Qc_of_Z 40 / Qc_of_Z 10)]
  /\ ~ raises (output (calculate_course_gpa (state_after zero_credit_courses)))
       ValueError.
Proof.
  split.
  { apply reachable_state_after. vm_compute. reflexivity. }
  split; [vm_compute; reflexivity|].
  assert (output (calculate_course_gpa (state_after zero_credit_courses))
          = Ok [FNum (Qc_of_Z 40 / Qc_of_Z 10)]) as E.
  { vm_compute. float_eq. }
  split; [exact E|].
  intros [m H]. rewrite E in H. discriminate.
Qed.

(** C1, as amended.  In every state the calculator can reach:
    [calculate_average_score] and [calculate_overall_gpa] raise ValueError
    when no data is loaded or the total of credits is 0;
    [calculate_course_gpa] raises ValueError when no data is loaded, and only
    then: it returns normally on loaded data whatever the total of credits;
    with data loaded and a total that is not 0 all three return normally. *)
Theorem metrics_error_policy (str_to_float : string -> option pyfloat)
    (s : GpaCalculator) :
  reachable str_to_float s ->
  (course_count s = 0%nat \/ feq (total_credits s) (fz 0) = true ->
     raises (output (calculate_average_score s)) ValueError
     /\ raises (output (calculate_overall_gpa s)) ValueError)
  /\ (course_count s = 0%nat ->
        raises (output (calculate_course_gpa s)) ValueError)
  /\ (course_count s <> 0%nat ->
        is_ok (output (calculate_course_gpa s)) = true)
  /\ (course_count s <> 0%nat -> feq (total_credits s) (fz 0) = false ->
        is_ok (output (calculate_average_score s)) = true
        /\ is_ok (output (calculate_overall_gpa s)) = true).
Proof.
  intros Hreach. pose proof (reachable_inv _ _ Hreach) as Hinv.
  repeat split.
  - unfold calculate_average_score.
    destruct (Nat.eqb (course_count s) 0) eqn:E; [eexists; reflexivity|].
    destruct H as [H|H]; [apply Nat.eqb_neq in E; contradiction|].
    rewrite H. eexists. reflexivity.
  - unfold calculate_overall_gpa.
    destruct (Nat.eqb (course_count s) 0) eqn:E; [eexists; reflexivity|].
    destruct H as [H|H]; [apply Nat.eqb_neq in E; contradiction|].
    rewrite H. eexists. reflexivity.
  - intros H. unfold calculate_course_gpa. rewrite H. eexists. reflexivity.
  - intros H. rewrite (calculate_course_gpa_loaded s Hinv H). reflexivity.
  - rewrite (calculate_average_score_loaded s H H0).
    destruct (fdiv_ok (weighted_sum (map adjusted_grade_spec (course_grades s))
                                    (course_credits s))
                      (total_credits s) H0) as [v ->].
    reflexivity.
  - destruct (calculate_overall_gpa_loaded s Hinv H H0) as (v & _ & ->).
    reflexivity.
Qed.

Lemma metrics_error_policy_witness :
  reachable decimal_float (state_after example_courses)
  /\ is_ok (output (calculate_average_score (state_after example_courses)))
     = true.
Proof.
  assert (reachable decimal_float (state_after example_courses)) as R.
  { apply reachable_state_after. vm_compute. reflexivity. }
  split; [exact R|].
  refine (proj1 (proj2 (proj2 (proj2
            (metrics_error_policy decimal_float
               (state_after example_courses) R))) _ _));
    vm_compute; congruence.
Defined.

(** ** C2: the grade-point formula *)




(** ** C3: the end-to-end example *)

(** C3, counterexample.  On the example courses [calculate_average_score]
    returns 676/9, which is not 68.44: 95*4 + 40*2 + 72*3 is 676, and
    676/9 lies between 75.11 and 75.12. *)
Lemma example_average_is_not_68_44 :
  output (calculate_average_score (state_after example_courses))
  = Ok (FNum (Q2Qc (676 # 9)))
  /\ output (calculate_average_score (state_after example_courses))
     <> Ok (FNum (Q2Qc (6844 # 100)))
  /\ Q2Qc (7511 # 100) < Q2Qc (676 # 9) /\ Q2Qc (676 # 9) < Q2Qc (7512 # 100).
Proof.
  assert (output (calculate_average_score (state_after example_courses))
          = Ok (FNum (Q2Qc (676 # 9)))) as E by (vm_compute; float_eq).
  split; [exact E|]. split.
  - rewrite E. intros H.
    assert (this (Q2Qc (676 # 9)) = this (Q2Qc (6844 # 100))) as H'
      by congruence.
    vm_compute in H'. discriminate.
  - split; vm_compute; reflexivity.
Qed.

(** C3, as amended.  For the courses Math 95 (4 credits), PE with the
    failing label (2 credits), English 72 (3 credits), [load_data]
    normalizes the grades to 95, 0, 72 with a total of 9 credits, and
    [calculate_average_score] then returns
    (95*4 + 40*2 + 72*3)/9 = 676/9, about 75.11, not rounded. *)
Theorem example_end_to_end (str_to_float : string -> option pyfloat) :
  exists s,
    output (load_data str_to_float init
              (AList [VStr "Math"; VStr "PE"; VStr "English"])
              (AList [VInt 95; VStr "不及格"; VInt 72])
              (AList [VInt 4; VInt 2; VInt 3])) = Ok s
    /\ course_grades s = [fz 95; fz 0; fz 72]
    /\ total_credits s = fz 9
    /\ output (calculate_average_score s) = Ok (FNum (Q2Qc (676 # 9)))
    /\ (Qc_of_Z 95 * Qc_of_Z 4 + Qc_of_Z 40 * Qc_of_Z 2
        + Qc_of_Z 72 * Qc_of_Z 3) / Qc_of_Z 9 = Q2Qc (676 # 9).
Proof.
  eexists. split; [vm_compute; reflexivity|].
  split; [reflexivity|].
  split; [float_eq|].
  split; [vm_compute; float_eq | float_eq].
Qed.

(** ** C4 and C5: the grade points and the weighted average

    Both results depend on how a [float] rounds: they are stated over
    binary64, in the last part of the file. *)

(** ** C6: grade normalization *)

Section GradeNormalization.

Variable str_to_float : string -> option pyfloat.
Variable names : list pyval.
Variable i : nat.
Hypothesis name_i : is_Some (names !! i).

(** The five labels map to 95, 85, 75, 65 and 0, without a warning. *)
Lemma convert_grade_label (label : string) (z : Z) :
  GRADE_MAPPING !! label = Some z ->
  convert_grade str_to_float names i (VStr label) = ([], Ok (fz z))
  /\ (z = 95 \/ z = 85 \/ z = 75 \/ z = 65 \/ z = 0)%Z.
Proof.
  intros H. split.
  - unfold convert_grade. cbn [mapped_grade]. rewrite H. reflexivity.
  - apply GRADE_MAPPING_values in H. tauto.
Qed.

(** A value that converts to a number is clamped to [0, 100]. *)
Lemma convert_grade_number (grade : pyval) (q : Qc) :
  mapped_grade grade = None ->
  py_float str_to_float grade = Ok (FNum q) ->
  convert_grade str_to_float names i grade
  = if Qcltb q (Qc_of_Z 0) then ([WarnGradeNegative i], Ok (FNum 0))
    else if Qcltb (Qc_of_Z 100) q then ([WarnGradeOver100 i], Ok (fz 100))
    else ([], Ok (FNum q)).
Proof.
  destruct name_i as [name Hname].
  intros Hmap Hfloat. unfold convert_grade, getitem, lift, bind.
  rewrite Hmap, Hfloat, Hname. unfold fgt, flt, fz.
  destruct (Qcltb q (Qc_of_Z 0)); [reflexivity|].
  destruct (Qcltb (Qc_of_Z 100) q); reflexivity.
Qed.

(** A value that is neither a label nor convertible becomes 0, with a
    warning and without an exception. *)
Lemma convert_grade_invalid (grade : pyval) (e : exn) :
  mapped_grade grade = None ->
  py_float str_to_float grade = Raise e ->
  convert_grade str_to_float names i grade
  = ([WarnGradeInvalid i], Ok (FNum 0)).
Proof.
  destruct name_i as [name Hname].
  intros Hmap Hfloat. unfold convert_grade, getitem, lift, bind.
  rewrite Hmap, Hfloat. cbn [catch].
  rewrite (py_float_raise_kind _ _ _ Hfloat), Hname. reflexivity.
Qed.

(** The infinities are clamped as well. *)
Lemma convert_grade_infinity (grade : pyval) (neg : bool) :
  mapped_grade grade = None ->
  py_float str_to_float grade = Ok (FInf neg) ->
  convert_grade str_to_float names i grade
  = if neg then ([WarnGradeNegative i], Ok (FNum 0))
    else ([WarnGradeOver100 i], Ok (fz 100)).
Proof.
  destruct name_i as [name Hname].
  intros Hmap Hfloat. unfold convert_grade, getitem, lift, bind.
  rewrite Hmap, Hfloat, Hname. destruct neg; reflexivity.
Qed.

(** NaN passes both range tests and is stored as it is, without a
    warning. *)
Lemma convert_grade_nan (grade : pyval) :
  mapped_grade grade = None ->
  py_float str_to_float grade = Ok FNan ->
  convert_grade str_to_float names i grade = ([], Ok FNan).
Proof.
  intros Hmap Hfloat. unfold convert_grade, lift, bind.
  rewrite Hmap, Hfloat. reflexivity.
Qed.

End GradeNormalization.

Lemma nan_not_in_range : ~ grade_in_range FNan.
Proof. intros (q & H & _). discriminate. Qed.

(** C6, the code at the failing input.  A grade that is the float NaN (what
    the loader passes on for an empty grade cell) is neither a label nor a
    conversion failure; it passes the two range tests, so [load_data] stores
    NaN: not a value of [0, 100], not 0, and no warning is logged. *)
Theorem missing_grade_stays_nan :
  convert_grade decimal_float [VStr "A"] 0 (VFloat FNan) = ([], Ok FNan)
  /\ output missing_grade_courses = Ok (state_after missing_grade_courses)
  /\ course_grades (state_after missing_grade_courses) = [FNan]
  /\ logged missing_grade_courses = []
  /\ ~ grade_in_range FNan.
Proof.
  repeat split; try (vm_compute; reflexivity). exact nan_not_in_range.
Qed.

(** ** C7: the state after a load *)

(** The result of [load_data] does not depend on the state before it:
    nothing of an earlier load survives. *)
Lemma load_data_fresh (str_to_float : string -> option pyfloat)
    (s1 s2 : GpaCalculator) (names grades credits : pyarg) :
  load_data str_to_float s1 names grades credits
  = load_data str_to_float s2 names grades credits.
Proof. reflexivity. Qed.

(** What every successful load establishes: three sequences of one length
    that is the course count and not 0, the total recomputed as the sum of
    the stored credits, and no stored credit below 0. *)
Lemma load_data_state (str_to_float : string -> option pyfloat)
    (self : GpaCalculator) (names grades credits : pyarg) (s : GpaCalculator) :
  output (load_data str_to_float self names grades credits) = Ok s ->
  length (course_names s) = course_count s
  /\ length (course_grades s) = course_count s
  /\ length (course_credits s) = course_count s
  /\ (0 < course_count s)%nat
  /\ total_credits s = py_sum (course_credits s)
  /\ Forall (fun c => flt c (fz 0) = false) (course_credits s).
Proof.
  intros Hload.
  apply load_data_inv in Hload
    as (ns & gs & cs & _ & _ & _ & _ & _ & Hne & _ & Hcount & Hinv).
  destruct Hinv. repeat split; try assumption. lia.
Qed.

Lemma nan_not_nonneg : ~ credit_nonneg FNan.
Proof. intros (q & H & _). discriminate. Qed.

(** C7, the code at the failing input.  A credit that is the float NaN
    (an empty credit cell) is not below 0, so the credit loop stores it:
    the load succeeds, the stored credit is not a number >= 0, and the total
    of credits is NaN. *)
Theorem missing_credit_stays_nan :
  output missing_credit_courses = Ok (state_after missing_credit_courses)
  /\ course_credits (state_after missing_credit_courses) = [FNan]
  /\ total_credits (state_after missing_credit_courses) = FNan
  /\ logged missing_credit_courses = []
  /\ ~ Forall credit_nonneg (course_credits (state_after missing_credit_courses)).
Proof.
  assert (course_credits (state_after missing_credit_courses) = [FNan]) as E
    by (vm_compute; reflexivity).
  repeat split; try (vm_compute; reflexivity).
  rewrite E. intros H. inversion H as [|? ? Hc _]; subst.
  exact (nan_not_nonneg Hc).
Qed.

(** ** C10: the range of the grade points *)

(** On loaded data every grade point is in [0.0, 5.0] and neither range
    branch of the loop is taken: whatever the credits are. *)
Lemma course_gpa_in_range (s : GpaCalculator) :
  calc_inv s -> course_count s <> 0%nat ->
  exists gpas,
    output (calculate_course_gpa s) = Ok gpas
    /\ Forall gpa_in_range gpas
    /\ forallb (fun w => negb (is_range_warning w))
               (logged (calculate_course_gpa s)) = true.
Proof.
  intros Hinv Hcount. rewrite (calculate_course_gpa_loaded s Hinv Hcount).
  eexists. split; [reflexivity|]. split.
  - apply Forall_fmap. eapply Forall_impl; [exact (inv_grade_values s Hinv)|].
    intros g Hg. apply grade_point_loaded. exact Hg.
  - apply nan_errors_no_range_warning.
Qed.

(** A weighted sum of values in [0, 5] with credits that are numbers >= 0
    lies between 0 and 5 times the sum of the credits. *)
Lemma weighted_sum_bounds (gpas : list pyfloat) :
  forall credits,
    length gpas = length credits ->
    Forall gpa_in_range gpas -> Forall credit_nonneg credits ->
    exists w c,
      weighted_sum gpas credits = FNum w /\ py_sum credits = FNum c
      /\ Qc_of_Z 0 <= w /\ w <= Qc_of_Z 5 * c /\ Qc_of_Z 0 <= c.
Proof.
  induction gpas as [|g gpas IH]; intros [|c credits] Hlen Hg Hc;
    try discriminate.
  - exists 0, 0. repeat split; try reflexivity; qc2q; lra.
  - inversion Hg as [|? ? (p & -> & Hp0 & Hp5) Hg']; subst.
    inversion Hc as [|? ? (r & -> & Hr0) Hc']; subst.
    destruct (IH credits) as (w & t & Ew & Et & Hw0 & Hw5 & Ht0);
      [cbn in Hlen; congruence | assumption | assumption |].
    exists (p * r + w), (r + t).
    cbn [weighted_sum]. rewrite Ew, py_sum_cons, Et.
    repeat split; try reflexivity; qc2q; nra.
Qed.

(** With credits that are numbers >= 0 and a total that is not 0, the
    overall GPA is in [0.0, 5.0] and no range branch of either operation is
    taken. *)
Lemma overall_gpa_in_range (s : GpaCalculator) :
  calc_inv s -> course_count s <> 0%nat ->
  Forall credit_nonneg (course_credits s) ->
  feq (total_credits s) (fz 0) = false ->
  exists gpa,
    output (calculate_overall_gpa s) = Ok gpa
    /\ gpa_in_range gpa
    /\ forallb (fun w => negb (is_range_warning w))
               (logged (calculate_overall_gpa s)) = true.
Proof.
  intros Hinv Hcount Hcredits Htotal.
  destruct (calculate_overall_gpa_loaded s Hinv Hcount Htotal)
    as (v & Hv & E).
  destruct (weighted_sum_bounds (map grade_point (course_grades s))
                                (course_credits s))
    as (w & c & Ew & Ec & Hw0 & Hw5 & Hc0).
  { rewrite length_map, (inv_grades s Hinv), (inv_credits s Hinv).
    reflexivity. }
  { apply Forall_fmap. eapply Forall_impl; [exact (inv_grade_values s Hinv)|].
    intros g Hg. apply grade_point_loaded. exact Hg. }
  { assumption. }
  rewrite (inv_total s Hinv) in Hv, Htotal. rewrite Ew, Ec in Hv.
  rewrite Ec in Htotal. cbn [feq fz] in Htotal.
  cbn [fdiv] in Hv. rewrite feq_fz_0, Htotal in Hv. injection Hv as <-.
  apply Qceqb_neq in Htotal.
  assert (Qc_of_Z 0 < c) as Hcpos.
  { apply Qcle_lt_or_eq in Hc0 as [H|H]; [exact H|].
    exfalso. apply Htotal. rewrite <- H. reflexivity. }
  assert (Qc_of_Z 0 <= w / c /\ w / c <= Qc_of_Z 5) as [Hlo Hhi].
  { clear - Hw0 Hw5 Hcpos. split.
    - qc2q. apply Qle_shift_div_l; [assumption|]. lra.
    - qc2q. apply Qle_shift_div_r; [assumption|]. lra. }
  assert (flt (FNum (w / c)) (fz 0) = false) as Hneg
    by (apply Qcltb_ge; assumption).
  assert (fgt (FNum (w / c)) (FNum (Qc_of_Z 5)) = false) as Hover
    by (apply Qcltb_ge; assumption).
  rewrite E, Hneg, Hover.
  eexists. split; [reflexivity|]. split.
  - apply py_round1_gpa; assumption.
  - cbn [logged fst]. rewrite app_nil_r. apply nan_errors_no_range_warning.
Qed.

Lemma nan_not_a_gpa : ~ gpa_in_range FNan.
Proof. intros (q & H & _). discriminate. Qed.

(** C10, the code at the failing input.  With one course of grade 90, which
    is in [0, 100], and a credit that is NaN, [calculate_course_gpa] returns
    [4.0] and logs nothing, and [calculate_overall_gpa] returns NaN, which is
    not in [0.0, 5.0]; no range branch is taken on the way. *)
Theorem overall_gpa_nan_with_missing_credit :
  Forall grade_in_range (course_grades (state_after missing_credit_courses))
  /\ calculate_course_gpa (state_after missing_credit_courses)
     = ([], Ok [FNum (Qc_of_Z 40 / Qc_of_Z 10)])
  /\ calculate_overall_gpa (state_after missing_credit_courses)
     = ([], Ok FNan)
  /\ ~ gpa_in_range FNan.
Proof.
  split.
  { assert (course_grades (state_after missing_credit_courses) = [fz 90])
      as -> by (vm_compute; reflexivity).
    constructor; [|constructor]. apply fz_in_range. lia. }
  split; [vm_compute; float_eq|].
  split; [vm_compute; reflexivity | exact nan_not_a_gpa].
Qed.

(** ** C8: the rows the loader keeps *)

Lemma bind_ret {A B} (a : A) (k : A -> M B) : bind (ret a) k = k a.
Proof. unfold bind, ret. destruct (k a). reflexivity. Qed.

Lemma iloc_cell (df : DataFrame) (i j : nat) :
  rectangular df -> (i < shape0 df)%nat -> (j < columns df)%nat ->
  iloc df i j = ret (cell df i j).
Proof.
  intros Hrect Hi Hj. unfold iloc, cell.
  destruct (lookup_lt_is_Some_2 (rows df) i Hi) as [r Hr].
  rewrite Hr.
  pose proof (proj1 (Forall_lookup _ _) Hrect i r Hr) as Hlen. cbn in Hlen.
  destruct (lookup_lt_is_Some_2 r j ltac:(lia)) as [c Hc].
  rewrite Hc. reflexivity.
Qed.

Lemma filter_seq_sorted (f : nat -> bool) (n : nat) :
  forall a, StronglySorted lt (List.filter f (seq a n)).
Proof.
  induction n as [|n IH]; intros a; cbn; [constructor|].
  destruct (f a); [|apply IH].
  constructor; [apply IH|].
  apply List.Forall_forall. intros x Hx.
  apply List.filter_In in Hx as [Hx _]. apply List.in_seq in Hx. lia.
Qed.

Section Loader.

Variable str_of : pyval -> string.
Variable df : DataFrame.
Hypothesis Hrect : rectangular df.
Hypothesis Hcols : (4 <= columns df)%nat.

Lemma scan_rows_filter (range : list nat) :
  Forall (fun i => (i < shape0 df)%nat) range ->
  exists l, scan_rows str_of df range
            = (l, Ok (List.filter (row_valid str_of df) range)).
Proof.
  induction range as [|i rest IH]; intros Hall.
  - exists []. reflexivity.
  - inversion Hall as [|? ? Hi Hrest]; subst.
    destruct (IH Hrest) as [l El].
    cbn [scan_rows List.filter]. unfold row_valid.
    rewrite !iloc_cell by (assumption || cbn; lia).
    rewrite bind_ret.
    set (c := cell df i (course_name_col EXCEL_CONFIG)).
    destruct (notna c && nonempty (strip (py_str str_of c))).
    + rewrite !bind_ret.
      destruct (isna (cell df i (course_grade_col EXCEL_CONFIG)));
        destruct (isna (cell df i (course_credit_col EXCEL_CONFIG)));
        rewrite El; cbn; eexists; reflexivity.
    + rewrite bind_ret, El. cbn. eexists. reflexivity.
Qed.

Lemma extract_rows_map (valid : list nat) :
  Forall (fun i => (i < shape0 df)%nat) valid ->
  extract_rows str_of df valid
  = ret (map (row_name str_of df) valid, map (row_grade df) valid,
         map (row_credit df) valid).
Proof.
  induction valid as [|i rest IH]; intros Hall.
  - reflexivity.
  - inversion Hall as [|? ? Hi Hrest]; subst.
    cbn [extract_rows].
    rewrite !iloc_cell by (assumption || cbn; lia).
    rewrite !bind_ret, (IH Hrest), bind_ret. reflexivity.
Qed.

Lemma data_rows_in_frame :
  Forall (fun i => (i < shape0 df)%nat) (data_rows df).
Proof.
  apply List.Forall_forall. intros i Hi.
  apply List.in_seq in Hi. cbn in Hi. lia.
Qed.

Lemma valid_rows_in_frame :
  Forall (fun i => (i < shape0 df)%nat) (valid_rows str_of df).
Proof.
  apply List.Forall_forall. intros i Hi.
  apply List.filter_In in Hi as [Hi _].
  exact (proj1 (List.Forall_forall _ _) data_rows_in_frame i Hi).
Qed.

Variable env : os_env.
Variable path : string.
Hypothesis Hread : read_excel env path = Ok df.
Hypothesis Hrows : (1 < shape0 df)%nat.

Lemma load_from_frame_rows :
  exists l,
    load_from_frame str_of env path
    = (l, match valid_rows str_of df with
          | [] => Raise (Exn ValueError "未找到有效的课程数据")
          | _ :: _ =>
              Ok (length (valid_rows str_of df),
                  map (row_name str_of df) (valid_rows str_of df),
                  map (row_grade df) (valid_rows str_of df),
                  map (row_credit df) (valid_rows str_of df))
          end).
Proof.
  unfold load_from_frame. rewrite Hread.
  change (lift (Ok df)) with (ret df). rewrite bind_ret.
  assert (df_empty df = false) as ->.
  { unfold df_empty, shape1.
    destruct (shape0 df); [lia|]. destruct (columns df); [lia|].
    reflexivity. }
  assert (Nat.ltb (shape1 df)
            (Nat.max (Nat.max (course_name_col EXCEL_CONFIG)
                              (course_grade_col EXCEL_CONFIG))
                     (course_credit_col EXCEL_CONFIG) + 1) = false) as ->
    by (apply Nat.ltb_ge; cbn; unfold shape1; lia).
  assert (Nat.leb (shape0 df) (start_row EXCEL_CONFIG) = false) as ->
    by (apply Nat.leb_gt; cbn; lia).
  destruct (scan_rows_filter (data_rows df) data_rows_in_frame) as [l El].
  fold (data_rows df). rewrite El. fold (valid_rows str_of df).
  unfold bind at 1.
  pose proof valid_rows_in_frame as Hin.
  destruct (valid_rows str_of df) as [|i rest] eqn:Ev.
  - cbn. eexists. reflexivity.
  - cbn [length Nat.eqb].
    rewrite (extract_rows_map (i :: rest) Hin).
    cbn. rewrite !length_map. eexists. reflexivity.
Qed.

End Loader.

(** C8.  For a spreadsheet that passes the checks on its file and shape,
    the loader keeps a data row if and only if its name cell is present and
    not empty after trimming whitespace; the other rows are skipped, not
    counted, and raise nothing; the three output sequences list the kept
    rows in row order and the count is their number; with no valid row the
    loader raises ValueError, the message ending in "no valid course data"
    (未找到有效的课程数据). *)
Theorem loader_keeps_named_rows (str_of : pyval -> string) (env : os_env)
    (path : string) (df : DataFrame) :
  path_exists env path = true ->
  splitext_lower env path = ".xlsx" \/ splitext_lower env path = ".xls" ->
  read_excel env path = Ok df ->
  rectangular df -> (4 <= columns df)%nat -> (1 < shape0 df)%nat ->
  (forall i, In i (valid_rows str_of df)
             <-> (start_row EXCEL_CONFIG <= i < shape0 df)%nat
                 /\ notna (cell df i (course_name_col EXCEL_CONFIG)) = true
                 /\ strip (py_str str_of
                             (cell df i (course_name_col EXCEL_CONFIG)))
                    <> "")
  /\ StronglySorted lt (valid_rows str_of df)
  /\ (valid_rows str_of df = [] ->
      output (load_from_excel str_of env (VStr path))
      = Raise (Exn ValueError ("加载Excel文件失败: " ++ "未找到有效的课程数据")))
  /\ (valid_rows str_of df <> [] ->
      output (load_from_excel str_of env (VStr path))
      = Ok (length (valid_rows str_of df),
            map (row_name str_of df) (valid_rows str_of df),
            map (row_grade df) (valid_rows str_of df),
            map (row_credit df) (valid_rows str_of df))).
Proof.
  intros Hexists Hext Hread Hrect Hcols Hrows.
  split.
  { intros i. unfold valid_rows, data_rows.
    rewrite List.filter_In, List.in_seq. unfold row_valid.
    rewrite Bool.andb_true_iff.
    assert (nonempty (strip (py_str str_of
                               (cell df i (course_name_col EXCEL_CONFIG))))
            = true
            <-> strip (py_str str_of
                         (cell df i (course_name_col EXCEL_CONFIG))) <> "")
      as ->.
    { destruct (strip _); cbn; split; congruence. }
    cbn [start_row EXCEL_CONFIG]. split.
    - intros [[H1 H2] H3]. split; [lia | exact H3].
    - intros [[H1 H2] H3]. split; [lia | exact H3]. }
  split; [apply filter_seq_sorted|].
  destruct (load_from_frame_rows str_of df Hrect Hcols env path Hread Hrows)
    as [l El].
  assert (negb (String.eqb (splitext_lower env path) ".xlsx"
                || String.eqb (splitext_lower env path) ".xls") = false)
    as Hext'.
  { destruct Hext as [-> | ->]; reflexivity. }
  split; intros Hv; unfold load_from_excel;
    rewrite Hexists, Hext', El; cbn [negb].
  - rewrite Hv. reflexivity.
  - destruct (valid_rows str_of df); [contradiction|]. reflexivity.
Qed.

Lemma loader_keeps_named_rows_witness :
  path_exists example_env "grades.xlsx" = true
  /\ rectangular example_frame
  /\ output (load_from_excel scalar_str example_env (VStr "grades.xlsx"))
     = Ok (2%nat, ["Math"; "PE"], [VInt 95; VStr "不及格"], [VInt 4; VInt 2]).
Proof.
  assert (rectangular example_frame) as R
    by (repeat constructor).
  assert (valid_rows scalar_str example_frame = [1; 4]%nat) as V
    by (vm_compute; reflexivity).
  split; [reflexivity|]. split; [exact R|].
  rewrite (proj2 (proj2 (proj2
            (loader_keeps_named_rows scalar_str example_env "grades.xlsx"
               example_frame eq_refl (or_introl eq_refl) eq_refl R
               ltac:(cbn; lia) ltac:(cbn; lia)))));
    [rewrite V; vm_compute; reflexivity | rewrite V; discriminate].
Defined.

(** ** C9: deleting a record of the history *)

Lemma load_history_nonempty (d : storage) :
  load_history d <> [] ->
  file d = FileJson (load_history d) /\ readable d = true.
Proof.
  unfold load_history. destruct (file d) as [| |h]; try congruence.
  destruct (readable d); [tauto | congruence].
Qed.

(** When the file cannot be written the deletion fails and the disk is as
    before. *)
Lemma delete_record_read_only (d : storage) (index : pyval) :
  writable d = false -> snd (delete_record d index) = d.
Proof.
  intros Hw. unfold delete_record, write_history. rewrite Hw.
  destruct (as_int index); [|reflexivity].
  destruct (Nat.eqb _ _); [reflexivity|].
  destruct (_ && _); reflexivity.
Qed.

(** C9.  On a history file that can be written: [delete_record(k)] with
    0 <= k < length removes the record at position k and no other, every
    later record moves down by one index, and the call returns True; with k
    out of range it returns False and the history is unchanged. *)
Theorem delete_record_by_index (d : storage) (k : Z) :
  writable d = true ->
  ((0 <= k < Z.of_nat (length (load_history d)))%Z ->
     exists d',
       delete_record d (VInt k) = (Ok true, d')
       /\ load_history d' = delete (Z.to_nat k) (load_history d)
       /\ S (length (load_history d')) = length (load_history d)
       /\ (forall i, (i < Z.to_nat k)%nat ->
             load_history d' !! i = load_history d !! i)
       /\ (forall i, (Z.to_nat k <= i)%nat ->
             load_history d' !! i = load_history d !! S i))
  /\ (~ (0 <= k < Z.of_nat (length (load_history d)))%Z ->
     delete_record d (VInt k) = (Ok false, d)).
Proof.
  intros Hw. split.
  - intros [Hk0 Hklen].
    assert (load_history d <> []) as Hne
      by (intros E; rewrite E in Hklen; cbn in Hklen; lia).
    destruct (load_history_nonempty d Hne) as [Hfile Hread].
    unfold delete_record, write_history. cbn [as_int].
    rewrite Hw.
    replace (Nat.eqb (length (load_history d)) 0) with false
      by (symmetry; apply Nat.eqb_neq;
          destruct (load_history d); [congruence | discriminate]).
    replace (Z.leb 0 k) with true by (symmetry; apply Z.leb_le; lia).
    replace (Z.ltb k (Z.of_nat (length (load_history d)))) with true
      by (symmetry; apply Z.ltb_lt; lia).
    cbn [andb]. eexists. split; [reflexivity|].
    assert (load_history
              {| file := FileJson (delete (Z.to_nat k) (load_history d));
                 readable := readable d; writable := true |}
            = delete (Z.to_nat k) (load_history d)) as E
      by (unfold load_history at 1; cbn; rewrite Hread; reflexivity).
    rewrite E. split; [reflexivity|]. split.
    + rewrite length_delete by (apply lookup_lt_is_Some; lia).
      destruct (load_history d); [congruence | cbn; lia].
    + split; intros i Hi.
      * apply list_lookup_delete_lt. exact Hi.
      * apply list_lookup_delete_ge. exact Hi.
  - intros Hout. unfold delete_record. cbn [as_int].
    destruct (Nat.eqb (length (load_history d)) 0); [reflexivity|].
    destruct (Z.leb 0 k && Z.ltb k (Z.of_nat (length (load_history d))))
      eqn:E; [|reflexivity].
    apply andb_prop in E as [E1 E2].
    apply Z.leb_le in E1. apply Z.ltb_lt in E2. lia.
Qed.

Lemma delete_record_by_index_witness :
  writable example_storage = true
  /\ (0 <= 1 < Z.of_nat (length (load_history example_storage)))%Z
  /\ exists d',
       delete_record example_storage (VInt 1) = (Ok true, d')
       /\ load_history d' = [example_record "a"; example_record "c"].
Proof.
  split; [reflexivity|].
  assert (0 <= 1 < Z.of_nat (length (load_history example_storage)))%Z as R
    by (cbn; lia).
  split; [exact R|].
  destruct (proj1 (delete_record_by_index example_storage 1 eq_refl) R)
    as (d' & Hd & Hh & _).
  exists d'. split; [exact Hd|]. rewrite Hh. reflexivity.
Defined.

(** * Further properties of the code *)

(** ** [load_data]: arguments, stored values, warnings *)

Section LoadDataValues.

Variable str_to_float : string -> option pyfloat.

Lemma convert_credit_value (names : list pyval) (i : nat) (credit : pyval) :
  is_Some (names !! i) ->
  convert_credit str_to_float names i credit
  = (credit_warnings str_to_float i credit,
     Ok (normalize_credit str_to_float credit)).
Proof.
  intros [name Hname].
  unfold convert_credit, credit_warnings, normalize_credit, getitem, lift, bind.
  destruct (py_float str_to_float credit) as [x | e] eqn:E.
  - destruct (flt x (fz 0)); [rewrite Hname|]; reflexivity.
  - cbn. rewrite (py_float_raise_kind _ _ _ E), Hname. reflexivity.
Qed.

Lemma convert_credits_values (names : list pyval) (credits : list pyval) :
  forall i,
    (i + length credits <= length names)%nat ->
    convert_credits str_to_float names i credits
    = (concat (imap (fun j => credit_warnings str_to_float (i + j)) credits),
       Ok (map (normalize_credit str_to_float) credits)).
Proof.
  induction credits as [|c rest IH]; intros i Hlen; [reflexivity|].
  cbn [length convert_credits] in *.
  rewrite convert_credit_value by (apply lookup_lt_is_Some; lia).
  unfold bind at 1. rewrite IH by lia. cbn.
  rewrite app_nil_r, Nat.add_0_r. do 3 f_equal.
  apply imap_ext. intros j x _. cbn. f_equal. lia.
Qed.

Lemma convert_grade_value (names : list pyval) (i : nat) (grade : pyval) :
  is_Some (names !! i) ->
  convert_grade str_to_float names i grade
  = (grade_warnings str_to_float i grade,
     Ok (normalize_grade str_to_float grade)).
Proof.
  intros [name Hname].
  unfold convert_grade, grade_warnings, normalize_grade, getitem, lift.
  destruct (mapped_grade grade); [reflexivity|]. unfold bind.
  destruct (py_float str_to_float grade) as [x | e] eqn:E.
  - destruct (flt x (fz 0)); [rewrite Hname; reflexivity|].
    destruct (fgt x (fz 100)); [rewrite Hname|]; reflexivity.
  - cbn. rewrite (py_float_raise_kind _ _ _ E), Hname. reflexivity.
Qed.

Lemma convert_grades_values (names : list pyval) (grades : list pyval) :
  forall i,
    (i + length grades <= length names)%nat ->
    convert_grades str_to_float names i grades
    = (concat (imap (fun j => grade_warnings str_to_float (i + j)) grades),
       Ok (map (normalize_grade str_to_float) grades)).
Proof.
  induction grades as [|g rest IH]; intros i Hlen; [reflexivity|].
  cbn [length convert_grades] in *.
  rewrite convert_grade_value by (apply lookup_lt_is_Some; lia).
  unfold bind at 1. rewrite IH by lia. cbn.
  rewrite app_nil_r, Nat.add_0_r. do 3 f_equal.
  apply imap_ext. intros j x _. cbn. f_equal. lia.
Qed.

(** The result of [load_data] on three lists of one length that is not
    0: its log and the state it builds. *)
Lemma load_data_computed (self : GpaCalculator)
    (names grades credits : list pyval) :
  length names = length grades -> length grades = length credits ->
  length names <> 0%nat ->
  load_data str_to_float self (AList names) (AList grades) (AList credits)
  = (concat (imap (credit_warnings str_to_float) credits)
       ++ (if feq (py_sum (map (normalize_credit str_to_float) credits)) (fz 0)
           then [WarnTotalCreditsZero] else [])
       ++ concat (imap (grade_warnings str_to_float) grades),
     Ok {| course_names := names;
           course_grades := map (normalize_grade str_to_float) grades;
           course_credits := map (normalize_credit str_to_float) credits;
           course_count := length names;
           total_credits :=
             py_sum (map (normalize_credit str_to_float) credits) |}).
Proof.
  intros Hng Hgc Hne. unfold load_data. cbn [is_list arg_items andb negb].
  rewrite Hng, Hgc, !Nat.eqb_refl. cbn [andb negb].
  replace (Nat.eqb (length credits) 0%nat) with false
    by (symmetry; apply Nat.eqb_neq; congruence).
  rewrite convert_credits_values by lia. unfold bind at 1.
  rewrite convert_grades_values by lia.
  destruct (feq (py_sum (map (normalize_credit str_to_float) credits)) (fz 0));
    cbn; rewrite ?app_nil_r; reflexivity.
Qed.

End LoadDataValues.

(** ** Loading normalized data again *)

Lemma imap_no_entries {A B} (f : nat -> A -> list B) (l : list A) :
  (forall i x, In x l -> f i x = []) -> concat (imap f l) = [].
Proof.
  revert f. induction l as [|x l IH]; intros f H; [reflexivity|].
  cbn. rewrite (H 0%nat x) by (left; reflexivity). cbn.
  apply IH. intros i y Hy. apply H. right. exact Hy.
Qed.

Lemma normalize_credit_stored (str_to_float : string -> option pyfloat)
    (c : pyfloat) :
  credit_not_negative c ->
  normalize_credit str_to_float (VFloat c) = c
  /\ forall i, credit_warnings str_to_float i (VFloat c) = [].
Proof.
  unfold credit_not_negative, normalize_credit, credit_warnings.
  cbn [py_float]. intros ->. split; reflexivity.
Qed.

Lemma loaded_grade_not_clamped (g : pyfloat) :
  loaded_grade g -> flt g (fz 0) = false /\ fgt g (fz 100) = false.
Proof.
  intros [(q & -> & H0 & H100) | ->]; [|split; reflexivity].
  split; apply Qcltb_ge; assumption.
Qed.

Lemma normalize_grade_stored (str_to_float : string -> option pyfloat)
    (g : pyfloat) :
  loaded_grade g ->
  normalize_grade str_to_float (VFloat g) = g
  /\ forall i, grade_warnings str_to_float i (VFloat g) = [].
Proof.
  intros Hg. destruct (loaded_grade_not_clamped g Hg) as [H0 H100].
  unfold normalize_grade, grade_warnings. cbn [mapped_grade py_float].
  rewrite H0, H100. split; reflexivity.
Qed.

Lemma map_stored {A} (f : A -> pyfloat) (P : pyfloat -> Prop)
    (inj : pyfloat -> A) (l : list pyfloat) :
  (forall x, P x -> f (inj x) = x) -> Forall P l -> map f (map inj l) = l.
Proof.
  intros H Hl. induction Hl as [|x l Hx _ IH]; [reflexivity|].
  cbn [map]. rewrite IH, (H x Hx). reflexivity.
Qed.

(** X3.  Loading again what a successful load stored changes nothing: the
    stored grades and credits pass normalization as they are, and the only
    entry that can be logged is the zero-total warning. *)
Theorem load_data_idempotent (str_to_float : string -> option pyfloat)
    (self : GpaCalculator) (names grades credits : pyarg) (s : GpaCalculator) :
  output (load_data str_to_float self names grades credits) = Ok s ->
  load_data str_to_float s (AList (course_names s))
            (AList (map VFloat (course_grades s)))
            (AList (map VFloat (course_credits s)))
  = (if feq (total_credits s) (fz 0) then [WarnTotalCreditsZero] else [],
     Ok s).
Proof.
  intros Hload.
  apply load_data_inv in Hload
    as (ns & gs & cs & _ & _ & _ & _ & _ & Hne & Hnames & Hcount & Hinv).
  destruct Hinv as [Hn Hg Hc Ht Hgv Hcv].
  rewrite load_data_computed; rewrite ?length_map; try congruence.
  rewrite (map_stored (normalize_credit str_to_float) credit_not_negative
             VFloat (course_credits s))
    by (assumption || intros x Hx; apply normalize_credit_stored; exact Hx).
  rewrite (map_stored (normalize_grade str_to_float) loaded_grade
             VFloat (course_grades s))
    by (assumption || intros x Hx; apply normalize_grade_stored; exact Hx).
  rewrite !imap_no_entries, <- Ht, app_nil_r, Hn.
  - destruct s; reflexivity.
  - intros i x Hx. apply in_map_iff in Hx as (g & <- & Hin).
    apply normalize_grade_stored.
    rewrite List.Forall_forall in Hgv. apply Hgv. exact Hin.
  - intros i x Hx. apply in_map_iff in Hx as (c & <- & Hin).
    apply normalize_credit_stored.
    rewrite List.Forall_forall in Hcv. apply Hcv. exact Hin.
Qed.

Lemma load_data_idempotent_witness :
  output example_courses = Ok (state_after example_courses)
  /\ load_data decimal_float (state_after example_courses)
       (AList (course_names (state_after example_courses)))
       (AList (map VFloat (course_grades (state_after example_courses))))
       (AList (map VFloat (course_credits (state_after example_courses))))
     = ([], Ok (state_after example_courses)).
Proof.
  assert (output example_courses = Ok (state_after example_courses)) as E
    by (vm_compute; reflexivity).
  split; [exact E|].
  exact (load_data_idempotent decimal_float init _ _ _ _ E).
Defined.

(** ** Rounding is monotone *)

Lemma round_half_even_floor (q : Qc) :
  (Qfloor q <= round_half_even q <= Qfloor q + 1)%Z.
Proof.
  unfold round_half_even.
  destruct (Qccompare (q - Qc_of_Z (Qfloor q)) (Q2Qc (1 # 2)));
    [destruct (Z.even (Qfloor q))|..]; lia.
Qed.

Lemma round_half_even_mono (q r : Qc) :
  q <= r -> (round_half_even q <= round_half_even r)%Z.
Proof.
  intros H.
  assert (Qfloor q <= Qfloor r)%Z as Hf.
  { apply Qfloor_lower. eapply Qcle_trans; [apply Qfloor_le_Qc | exact H]. }
  destruct (Z.eq_dec (Qfloor q) (Qfloor r)) as [E|NE].
  - assert (this (Q2Qc (1 # 2)) = (1 # 2)%Q) as Eh by reflexivity.
    unfold round_half_even. rewrite <- E.
    destruct (Qccompare (q - Qc_of_Z (Qfloor q)) (Q2Qc (1 # 2))) eqn:E1;
      destruct (Qccompare (r - Qc_of_Z (Qfloor q)) (Q2Qc (1 # 2))) eqn:E2;
      try (destruct (Z.even (Qfloor q))); try lia; exfalso;
      repeat match goal with
             | H : Qccompare _ _ = Eq |- _ => apply Qceq_alt in H
             | H : Qccompare _ _ = Lt |- _ => apply Qclt_alt in H
             | H : Qccompare _ _ = Gt |- _ => apply Qcgt_alt in H
             end;
      clear E Hf; generalize dependent (Qc_of_Z (Qfloor q)); intros f; intros;
      qc2q; rewrite ?Eh in *; lra.
  - pose proof (round_half_even_floor q).
    pose proof (round_half_even_floor r). lia.
Qed.

(** ** Grade points in tenths *)

Lemma tenths_0 : FNum 0 = FNum (Qc_of_Z 0 / Qc_of_Z 10).
Proof. f_equal. apply Qc_is_canon. reflexivity. Qed.

Lemma tenths_weaken (lo hi lo' hi' : Z) (x : pyfloat) :
  (lo' <= lo)%Z -> (hi <= hi')%Z -> tenths lo hi x -> tenths lo' hi' x.
Proof. intros H1 H2 (k & -> & Hk). exists k. split; [reflexivity | lia]. Qed.

Lemma grade_point_failing (q : Qc) :
  q < Qc_of_Z 60 -> grade_point (FNum q) = FNum 0.
Proof.
  intros H. cbn [grade_point]. apply Qcltb_lt in H. rewrite H. reflexivity.
Qed.

Lemma grade_point_passing (q : Qc) :
  Qc_of_Z 60 <= q -> q <= Qc_of_Z 100 ->
  grade_point (FNum q)
  = FNum (Qc_of_Z (round_half_even (linear_scale q * Qc_of_Z 10))
          / Qc_of_Z 10)
  /\ (10 <= round_half_even (linear_scale q * Qc_of_Z 10) <= 50)%Z.
Proof.
  intros H60 H100. cbn [grade_point].
  replace (Qcltb q (Qc_of_Z 60)) with false
    by (symmetry; apply Qcltb_ge; exact H60).
  rewrite formula_is_linear. split; [reflexivity|].
  destruct (linear_scale_bounds q H60 H100) as [H1 H5].
  apply round_half_even_bounds; qc2q; lra.
Qed.

Lemma grade_point_tenths (g : pyfloat) :
  loaded_grade g -> tenths 0 50 (grade_point g).
Proof.
  intros [(q & -> & H0 & H100) | ->].
  - destruct (Qclt_le_dec q (Qc_of_Z 60)) as [Hlt | Hge].
    + rewrite (grade_point_failing q Hlt). exists 0%Z.
      split; [exact tenths_0 | lia].
    + destruct (grade_point_passing q Hge H100) as [-> Hk].
      eexists. split; [reflexivity | lia].
  - exists 0%Z. split; [exact tenths_0 | lia].
Qed.

Lemma linear_scale_mono (a b : Qc) :
  a <= b -> linear_scale a * Qc_of_Z 10 <= linear_scale b * Qc_of_Z 10.
Proof. intros H. unfold linear_scale. qc2q. lra. Qed.

Lemma tenths_le (j k : Z) :
  (j <= k)%Z -> Qc_of_Z j / Qc_of_Z 10 <= Qc_of_Z k / Qc_of_Z 10.
Proof.
  intros H. apply Qc_of_Z_le in H.
  generalize dependent (Qc_of_Z j). generalize dependent (Qc_of_Z k).
  intros x y H. qc2q. lra.
Qed.

Lemma grade_point_mono (a b : Qc) :
  a <= b -> b <= Qc_of_Z 100 ->
  fle (grade_point (FNum a)) (grade_point (FNum b)).
Proof.
  intros Hab H100.
  destruct (Qclt_le_dec a (Qc_of_Z 60)) as [Ha | Ha].
  - rewrite (grade_point_failing a Ha).
    destruct (Qclt_le_dec b (Qc_of_Z 60)) as [Hb | Hb].
    + rewrite (grade_point_failing b Hb). exists 0, 0.
      repeat split. apply Qcle_refl.
    + destruct (grade_point_passing b Hb H100) as [-> Hk].
      rewrite tenths_0. eexists _, _. repeat split.
      apply tenths_le. lia.
  - assert (Qc_of_Z 60 <= b) as Hb by (eapply Qcle_trans; eauto).
    assert (a <= Qc_of_Z 100) as Ha' by (eapply Qcle_trans; eauto).
    destruct (grade_point_passing a Ha Ha') as [-> _].
    destruct (grade_point_passing b Hb H100) as [-> _].
    eexists _, _. repeat split.
    apply tenths_le, round_half_even_mono, linear_scale_mono. exact Hab.
Qed.

Lemma nan_errors_only_errors (grades : list pyfloat) :
  forall i w, In w (nan_errors i grades) -> exists j, w = ErrCourseGpa j.
Proof.
  induction grades as [|g rest IH]; intros i w; [intros []|].
  destruct g; cbn [nan_errors]; try apply IH.
  intros [<- | H]; [eexists; reflexivity | exact (IH _ _ H)].
Qed.

(** X4.  After a successful load [calculate_course_gpa] returns one grade
    point per course, each a whole number of tenths between 0.0 and 5.0:
    exactly 0.0 for a grade below 60 or a NaN grade, between 1.0 and 5.0
    for a grade of 60 or more.  It logs an error entry for each NaN grade
    and nothing else. *)
Theorem course_gpa_after_load (str_to_float : string -> option pyfloat)
    (self : GpaCalculator) (names grades credits : pyarg) (s : GpaCalculator) :
  output (load_data str_to_float self names grades credits) = Ok s ->
  exists gpas,
    calculate_course_gpa s = (nan_errors 0 (course_grades s), Ok gpas)
    /\ length gpas = course_count s
    /\ Forall (tenths 0 50) gpas
    /\ (forall i g, course_grades s !! i = Some g ->
          flt g (fz 60) = true \/ g = FNan -> gpas !! i = Some (FNum 0))
    /\ (forall i q, course_grades s !! i = Some (FNum q) ->
          Qc_of_Z 60 <= q ->
          exists x, gpas !! i = Some x /\ tenths 10 50 x)
    /\ (forall w, In w (logged (calculate_course_gpa s)) ->
          exists j, w = ErrCourseGpa j).
Proof.
  intros Hload.
  apply load_data_inv in Hload
    as (ns & gs & cs & _ & _ & _ & _ & _ & Hne & _ & Hcount & Hinv).
  assert (course_count s <> 0%nat) as Hc by congruence.
  rewrite (calculate_course_gpa_loaded s Hinv Hc).
  exists (map grade_point (course_grades s)).
  split; [reflexivity|].
  split; [rewrite length_map; exact (inv_grades s Hinv)|].
  split.
  { apply Forall_fmap. eapply Forall_impl; [exact (inv_grade_values s Hinv)|].
    intros g Hg. apply grade_point_tenths. exact Hg. }
  split.
  { intros i g Hi Hg. rewrite list_lookup_fmap, Hi. cbn. f_equal.
    destruct Hg as [Hg | ->]; [|reflexivity].
    destruct g as [q|neg|]; cbn in *; try reflexivity.
    unfold Qcltb in *. destruct (q ?= Qc_of_Z 60); congruence. }
  split.
  { intros i q Hi Hq. rewrite list_lookup_fmap, Hi. cbn [fmap option_fmap option_map].
    eexists. split; [reflexivity|].
    pose proof (inv_grade_values s Hinv) as Hall.
    rewrite Forall_lookup in Hall.
    destruct (Hall i _ Hi) as [(q' & [= <-] & _ & H100) | ?]; [|discriminate].
    destruct (grade_point_passing q Hq H100) as [-> Hk].
    eexists. split; [reflexivity | exact Hk]. }
  intros w Hw. exact (nan_errors_only_errors _ _ _ Hw).
Qed.

Lemma course_gpa_after_load_witness :
  output example_courses = Ok (state_after example_courses)
  /\ exists gpas,
       calculate_course_gpa (state_after example_courses) = ([], Ok gpas)
       /\ length gpas = 3%nat.
Proof.
  assert (output example_courses = Ok (state_after example_courses)) as E
    by (vm_compute; reflexivity).
  split; [exact E|].
  destruct (course_gpa_after_load decimal_float init _ _ _ _ E)
    as (gpas & H1 & H2 & _).
  exists gpas. split; [exact H1 | exact H2].
Defined.

(** X5.  The grade points are monotone in the grades: of two courses of a
    loaded calculator, the one with the higher numeric grade never gets the
    lower grade point. *)
Theorem course_gpa_monotone (str_to_float : string -> option pyfloat)
    (self : GpaCalculator) (names grades credits : pyarg) (s : GpaCalculator)
    (i j : nat) (a b : Qc) :
  output (load_data str_to_float self names grades credits) = Ok s ->
  course_grades s !! i = Some (FNum a) ->
  course_grades s !! j = Some (FNum b) ->
  a <= b ->
  exists gpas x y,
    output (calculate_course_gpa s) = Ok gpas
    /\ gpas !! i = Some x /\ gpas !! j = Some y /\ fle x y.
Proof.
  intros Hload Hi Hj Hab.
  apply load_data_inv in Hload
    as (ns & gs & cs & _ & _ & _ & _ & _ & Hne & _ & Hcount & Hinv).
  assert (course_count s <> 0%nat) as Hc by congruence.
  rewrite (calculate_course_gpa_loaded s Hinv Hc).
  eexists _, _, _. split; [reflexivity|].
  rewrite !list_lookup_fmap, Hi, Hj. split; [reflexivity|].
  split; [reflexivity|].
  pose proof (inv_grade_values s Hinv) as Hall.
  rewrite Forall_lookup in Hall.
  destruct (Hall j _ Hj) as [(q' & [= <-] & _ & H100) | ?]; [|discriminate].
  apply grade_point_mono; assumption.
Qed.

Lemma course_gpa_monotone_witness :
  exists gpas x y,
    output (calculate_course_gpa (state_after example_courses)) = Ok gpas
    /\ gpas !! 2%nat = Some x /\ gpas !! 0%nat = Some y /\ fle x y.
Proof.
  assert (output example_courses = Ok (state_after example_courses)) as E
    by (vm_compute; reflexivity).
  assert (course_grades (state_after example_courses) !! 2%nat
          = Some (FNum (Qc_of_Z 72))) as H2 by (vm_compute; reflexivity).
  assert (course_grades (state_after example_courses) !! 0%nat
          = Some (FNum (Qc_of_Z 95))) as H0 by (vm_compute; reflexivity).
  assert (Qc_of_Z 72 <= Qc_of_Z 95) as Hle by (apply -> Qc_of_Z_le; lia).
  exact (course_gpa_monotone decimal_float init _ _ _ _ 2 0 _ _ E H2 H0 Hle).
Defined.

(** ** Weighted means *)

(** ** The average score *)

(** ** A total of credits of 0 *)

(** The sum of stored credits is 0 exactly when every one of them is 0:
    none is negative, and NaN or an infinity makes the sum NaN or
    infinite. *)
Lemma py_sum_stored_credits (cs : list pyfloat) :
  Forall credit_not_negative cs ->
  match py_sum cs with
  | FNum q => Qc_of_Z 0 <= q /\ (q = 0 <-> Forall no_credit cs)
  | FInf neg => neg = false /\ ~ Forall no_credit cs
  | FNan => ~ Forall no_credit cs
  end.
Proof.
  induction 1 as [|c cs Hc Hcs IH].
  - cbn. split; [rewrite Qc_of_Z_0; apply Qcle_refl|].
    split; [constructor | reflexivity].
  - rewrite py_sum_cons. unfold credit_not_negative in Hc.
    destruct c as [a|neg|]; cbn [flt fz] in Hc.
    + apply Qcltb_ge in Hc.
      destruct (py_sum cs) as [q|neg|]; cbn [fadd].
      * destruct IH as [Hq IH]. split; [qc2q; lra|]. split.
        -- intros Hz.
           assert (a = 0 /\ q = 0) as [-> ->] by (split; qc2q; lra).
           constructor; [reflexivity | apply IH; reflexivity].
        -- intros Hall. inversion Hall as [|? ? Ha Hall']; subst.
           unfold no_credit in Ha. injection Ha as ->.
           apply IH in Hall'. subst q. apply Qc_is_canon. reflexivity.
      * destruct IH as [-> IH]. split; [reflexivity|].
        intros Hall. inversion Hall. contradiction.
      * intros Hall. inversion Hall. contradiction.
    + subst neg.
      assert (~ Forall no_credit (FInf false :: cs)) as Hno
        by (intros Hall; inversion Hall as [|? ? Ha _]; discriminate Ha).
      destruct (py_sum cs) as [q|neg|]; cbn [fadd]; [tauto| |exact Hno].
      destruct neg; cbn; [exact Hno | tauto].
    + assert (~ Forall no_credit (FNan :: cs)) as Hno
        by (intros Hall; inversion Hall as [|? ? Ha _]; discriminate Ha).
      destruct (py_sum cs); exact Hno.
Qed.

Lemma total_zero_iff_no_credit (s : GpaCalculator) :
  calc_inv s ->
  feq (total_credits s) (fz 0) = true <-> Forall no_credit (course_credits s).
Proof.
  intros Hinv. rewrite (inv_total s Hinv).
  pose proof (py_sum_stored_credits _ (inv_credit_values s Hinv)) as H.
  destruct (py_sum (course_credits s)) as [q|neg|]; cbn [feq fz].
  - destruct H as [_ H]. rewrite <- H, <- feq_fz_0. apply Qceqb_eq.
  - split; [discriminate | tauto].
  - split; [discriminate | tauto].
Qed.

(** X8.  After a successful load, [calculate_average_score] and
    [calculate_overall_gpa] raise ValueError exactly when every stored
    credit is 0; with any other credits both return. *)
Theorem metrics_fail_iff_no_credit (str_to_float : string -> option pyfloat)
    (self : GpaCalculator) (names grades credits : pyarg) (s : GpaCalculator) :
  output (load_data str_to_float self names grades credits) = Ok s ->
  (raises (output (calculate_average_score s)) ValueError
   <-> Forall no_credit (course_credits s))
  /\ (raises (output (calculate_overall_gpa s)) ValueError
      <-> Forall no_credit (course_credits s))
  /\ (~ Forall no_credit (course_credits s) ->
      is_ok (output (calculate_average_score s)) = true
      /\ is_ok (output (calculate_overall_gpa s)) = true).
Proof.
  intros Hload.
  apply load_data_inv in Hload
    as (ns & gs & cs & _ & _ & _ & _ & _ & Hne & _ & Hcount & Hinv).
  assert (course_count s <> 0%nat) as Hc by congruence.
  pose proof (total_zero_iff_no_credit s Hinv) as Hzero.
  destruct (feq (total_credits s) (fz 0)) eqn:Htotal.
  - assert (Forall no_credit (course_credits s)) as Hall
      by (apply Hzero; reflexivity).
    unfold calculate_average_score, calculate_overall_gpa.
    replace (Nat.eqb (course_count s) 0) with false
      by (symmetry; apply Nat.eqb_neq; assumption).
    rewrite Htotal. cbn [output snd raise].
    repeat split; try tauto; intros; eexists; reflexivity.
  - assert (~ Forall no_credit (course_credits s)) as Hnot
      by (intros Hall; apply Hzero in Hall; discriminate).
    rewrite (calculate_average_score_loaded s Hc Htotal).
    destruct (fdiv_ok (weighted_sum (map adjusted_grade_spec (course_grades s))
                                    (course_credits s))
                      (total_credits s) Htotal) as [avg ->].
    destruct (calculate_overall_gpa_loaded s Hinv Hc Htotal) as (v & _ & ->).
    cbn [output snd lift is_ok].
    repeat split; try tauto; intros [m Hm]; discriminate.
Qed.

Lemma metrics_fail_iff_no_credit_witness :
  output zero_credit_courses = Ok (state_after zero_credit_courses)
  /\ raises (output (calculate_average_score
                       (state_after zero_credit_courses))) ValueError.
Proof.
  assert (output zero_credit_courses = Ok (state_after zero_credit_courses))
    as E by (vm_compute; reflexivity).
  assert (Forall no_credit (course_credits (state_after zero_credit_courses)))
    as Hall.
  { assert (course_credits (state_after zero_credit_courses) = [fz 0]) as ->
      by (vm_compute; reflexivity).
    constructor; [exact fz_0 | constructor]. }
  split; [exact E|].
  exact (proj2 (proj1 (metrics_fail_iff_no_credit decimal_float init
                         _ _ _ _ E)) Hall).
Defined.

(** ** The loader without assumptions on the frame *)

Lemma bind_ok {A B} (m : M A) (k : A -> M B) (l : list log_entry) (b : B) :
  bind m k = (l, Ok b) ->
  exists l1 a l2, m = (l1, Ok a) /\ k a = (l2, Ok b) /\ l = l1 ++ l2.
Proof.
  destruct m as [l1 [a|e]]; cbn; [|discriminate].
  destruct (k a) as [l2 r] eqn:E. intros [= <- ->]. eauto 6.
Qed.

Lemma iloc_ok (df : DataFrame) (i j : nat) (l : list log_entry) (c : pyval) :
  iloc df i j = (l, Ok c) -> l = [] /\ cell df i j = c.
Proof.
  unfold iloc, cell.
  destruct (rows df !! i) as [r|]; [destruct (r !! j)|]; cbn;
    intros [= <- <-] || discriminate; split; reflexivity.
Qed.

Lemma iloc_raise_kind (df : DataFrame) (i j : nat) (l : list log_entry)
    (e : exn) :
  iloc df i j = (l, Raise e) -> l = [] /\ kind e = IndexError.
Proof.
  unfold iloc.
  destruct (rows df !! i) as [r|]; [destruct (r !! j)|]; cbn;
    intros [= <- <-] || discriminate; split; reflexivity.
Qed.

Section LoaderResult.

Variable str_of : pyval -> string.
Variable df : DataFrame.

Lemma scan_rows_ok (range : list nat) :
  forall l valid,
    scan_rows str_of df range = (l, Ok valid) ->
    valid = List.filter (row_valid str_of df) range
    /\ l = concat (map (row_warnings df) valid).
Proof.
  induction range as [|i rest IH]; intros l valid H.
  - cbn in H. injection H as <- <-. split; reflexivity.
  - cbn [scan_rows] in H.
    apply bind_ok in H as (l1 & name & l2 & Hname & H & ->).
    apply iloc_ok in Hname as [-> Hname].
    apply bind_ok in H as (l3 & found & l4 & Hfound & H & ->).
    apply bind_ok in H as (l5 & more & l6 & Hmore & H & ->).
    injection H as <- <-.
    destruct (IH _ _ Hmore) as [-> ->].
    cbn [List.filter]. unfold row_valid at 2 4. rewrite Hname.
    destruct (notna name && nonempty (strip (py_str str_of name))).
    + apply bind_ok in Hfound as (l7 & grade & l8 & Hg & Hfound & ->).
      apply iloc_ok in Hg as [-> Hg].
      apply bind_ok in Hfound as (lg & [] & l9 & Hlg & Hfound & ->).
      apply bind_ok in Hfound as (l10 & credit & l11 & Hc & Hfound & ->).
      apply iloc_ok in Hc as [-> Hc].
      apply bind_ok in Hfound as (lc & [] & l12 & Hlc & Hfound & ->).
      injection Hfound as <- <-.
      split; [reflexivity|].
      assert (lg ++ lc = row_warnings df i) as Hw.
      { unfold row_warnings, row_grade, row_credit. rewrite Hg, Hc.
        destruct (isna grade), (isna credit);
          injection Hlg as <-; injection Hlc as <-; reflexivity. }
      cbn [app map concat]. rewrite <- Hw, !app_nil_r, <- !app_assoc.
      reflexivity.
    + injection Hfound as <- <-. split; [reflexivity|].
      cbn [app]. rewrite app_nil_r. reflexivity.
Qed.

Lemma extract_rows_ok (valid : list nat) :
  forall l names grades credits,
    extract_rows str_of df valid = (l, Ok (names, grades, credits)) ->
    l = []
    /\ names = map (row_name str_of df) valid
    /\ grades = map (row_grade df) valid
    /\ credits = map (row_credit df) valid.
Proof.
  induction valid as [|i rest IH]; intros l names grades credits H.
  - cbn in H. injection H as <- <- <- <-. repeat split.
  - cbn [extract_rows] in H.
    apply bind_ok in H as (l1 & c & l2 & Hc & H & ->).
    apply iloc_ok in Hc as [-> Hc].
    apply bind_ok in H as (l3 & grade & l4 & Hg & H & ->).
    apply iloc_ok in Hg as [-> Hg].
    apply bind_ok in H as (l5 & credit & l6 & Hcr & H & ->).
    apply iloc_ok in Hcr as [-> Hcr].
    apply bind_ok in H as (l7 & [[ns gs] cs] & l8 & Hmore & H & ->).
    injection H as <- <- <- <-.
    destruct (IH _ _ _ _ Hmore) as (-> & -> & -> & ->).
    cbn [map]. unfold row_name at 2, row_grade at 2, row_credit at 2.
    rewrite Hc, Hg, Hcr. repeat split.
Qed.

Variable env : os_env.

Lemma load_from_frame_ok (path : string) (l : list log_entry) (n : nat)
    (names : list string) (grades credits : list pyval) :
  load_from_frame str_of env path = (l, Ok (n, names, grades, credits)) ->
  read_excel env path = Ok df ->
  (4 <= columns df)%nat /\ (1 < shape0 df)%nat
  /\ valid_rows str_of df <> []
  /\ n = length (valid_rows str_of df)
  /\ names = map (row_name str_of df) (valid_rows str_of df)
  /\ grades = map (row_grade df) (valid_rows str_of df)
  /\ credits = map (row_credit df) (valid_rows str_of df)
  /\ l = concat (map (row_warnings df) (valid_rows str_of df))
         ++ [InfoFound n; InfoExtracted n].
Proof.
  intros H Hread. unfold load_from_frame in H. rewrite Hread in H.
  change (lift (Ok df)) with (ret df) in H. rewrite bind_ret in H.
  destruct (df_empty df); [discriminate|].
  destruct (Nat.ltb _ _) eqn:Hcols in H; [discriminate|].
  destruct (Nat.leb _ _) eqn:Hrows in H; [discriminate|].
  apply Nat.ltb_ge in Hcols. apply Nat.leb_gt in Hrows.
  cbn in Hcols, Hrows. unfold shape1 in Hcols.
  apply bind_ok in H as (l1 & valid & l2 & Hscan & H & ->).
  apply scan_rows_ok in Hscan as [Hvalid ->].
  fold (data_rows df) in Hvalid. fold (valid_rows str_of df) in Hvalid.
  subst valid.
  destruct (Nat.eqb (length (valid_rows str_of df)) 0) eqn:Hlen;
    [discriminate|].
  apply Nat.eqb_neq in Hlen.
  apply bind_ok in H as (l3 & [] & l4 & Hlog & H & ->).
  injection Hlog as <-.
  apply bind_ok in H as (l5 & [[ns gs] cs] & l6 & Hex & H & ->).
  apply extract_rows_ok in Hex as (-> & -> & -> & ->).
  apply bind_ok in H as (l7 & [] & l8 & Hlog & H & ->).
  injection Hlog as <-. injection H as <- <- <- <- <-.
  rewrite !length_map.
  split; [lia|]. split; [lia|].
  split; [intros E; rewrite E in Hlen; contradiction|].
  repeat split.
Qed.

(** What a call that returns has read: the file exists, [read_excel]
    returned a frame, and the output is the list of its valid rows. *)
Lemma load_from_excel_ok (path : pyval) (l : list log_entry) (n : nat)
    (names : list string) (grades credits : list pyval) :
  load_from_excel str_of env path = (l, Ok (n, names, grades, credits)) ->
  exists p,
    path = VStr p /\ path_exists env p = true
    /\ load_from_frame str_of env p = (l, Ok (n, names, grades, credits)).
Proof.
  unfold load_from_excel. destruct path as [| | | |p|]; try discriminate.
  destruct (path_exists env p) eqn:Hexists; [|discriminate]. cbn [negb].
  destruct (negb _); [discriminate|].
  destruct (load_from_frame str_of env p) as [l' [a|e]] eqn:E.
  - unfold try_except. intros [= <- <-]. exists p.
    repeat split; assumption.
  - unfold try_except. cbn [select_handler].
    destruct (is_kind EmptyDataError (kind e)); [discriminate|].
    destruct (is_kind ParserError (kind e)); discriminate.
Qed.

End LoaderResult.

Lemma try_except_all {A} (m : M A) (h1 h2 h3 : exn -> M A) (k : exn_kind) :
  (forall e, raises (output (h1 e)) ValueError) ->
  (forall e, raises (output (h2 e)) ValueError) ->
  (forall e, raises (output (h3 e)) ValueError) ->
  raises (output (try_except m [ (is_kind EmptyDataError, h1);
                                 (is_kind ParserError, h2);
                                 (any_exception, h3) ])) k ->
  k = ValueError.
Proof.
  intros H1 H2 H3. destruct m as [l [a|e]]; cbn [try_except].
  - intros [m Hm]. discriminate.
  - cbn [select_handler any_exception].
    assert (forall h : exn -> M A, raises (output (h e)) ValueError ->
              raises (output (let '(l', r) := h e in (l ++ l', r))) k ->
              k = ValueError) as Hh.
    { intros h [m1 Hm1] [m2 Hm2]. destruct (h e) as [l' r]. cbn in *.
      congruence. }
    destruct (is_kind EmptyDataError (kind e)); [apply Hh, H1|].
    destruct (is_kind ParserError (kind e)); [apply Hh, H2 | apply Hh, H3].
Qed.

(** X9.  [load_from_excel] raises TypeError exactly for a path that is not
    a [str], FileNotFoundError exactly for a [str] path that does not
    exist, and otherwise returns or raises ValueError: whatever
    [read_excel] raises, and whatever the frame holds, no other exception
    leaves the loader. *)
Theorem load_from_excel_error_kinds (str_of : pyval -> string) (env : os_env)
    (path : pyval) :
  (raises (output (load_from_excel str_of env path)) TypeError
   <-> forall p, path <> VStr p)
  /\ (raises (output (load_from_excel str_of env path)) FileNotFoundError
      <-> exists p, path = VStr p /\ path_exists env p = false)
  /\ (forall k, raises (output (load_from_excel str_of env path)) k ->
        k = TypeError \/ k = FileNotFoundError \/ k = ValueError).
Proof.
  assert (forall p, path = VStr p -> path_exists env p = true ->
            forall k, raises (output (load_from_excel str_of env path)) k ->
                      k = ValueError) as Hin.
  { intros p -> Hex k. unfold load_from_excel. rewrite Hex. cbn [negb].
    destruct (negb _); [intros [m Hm]; cbn in Hm; congruence|].
    apply try_except_all; intros e; eexists; reflexivity. }
  destruct path as [| b | z | f | p | tag];
    try (split; [split; [intros _ p; discriminate
                        | intros _; eexists; reflexivity]|];
         split; [split; [intros [m Hm]; discriminate
                        | intros (p & Hp & _); discriminate]|];
         intros k [m Hm]; left; cbn in Hm; congruence).
  destruct (path_exists env p) eqn:Hex.
  - pose proof (Hin p eq_refl Hex) as Hk.
    split; [split; [intros H; apply Hk in H; discriminate
                   | intros H; exfalso; exact (H p eq_refl)]|].
    split; [split; [intros H; apply Hk in H; discriminate
                   | intros (p' & [= <-] & Hp'); congruence]|].
    intros k H. right. right. exact (Hk k H).
  - assert (output (load_from_excel str_of env (VStr p))
            = Raise (Exn FileNotFoundError ("文件不存在: " ++ p))) as E
      by (unfold load_from_excel; rewrite Hex; reflexivity).
    rewrite E.
    split; [split; [intros [m Hm]; discriminate
                   | intros H; exfalso; exact (H p eq_refl)]|].
    split; [split; [intros _; exists p; split; [reflexivity | exact Hex]
                   | intros _; eexists; reflexivity]|].
    intros k [m Hm]. right. left. congruence.
Qed.

(** X10.  A sheet that [read_excel] returns with no row or no column, with
    fewer than 4 columns, or with 1 row only is rejected with ValueError
    before any cell is read; the message of the shape check arrives behind
    the prefix of the loader's last [except] clause, and the same text is
    logged as an error. *)
Theorem load_from_excel_small_frames (str_of : pyval -> string) (env : os_env)
    (path : string) (df : DataFrame) :
  path_exists env path = true ->
  splitext_lower env path = ".xlsx" \/ splitext_lower env path = ".xls" ->
  read_excel env path = Ok df ->
  (shape0 df = 0%nat \/ columns df = 0%nat ->
     load_from_excel str_of env (VStr path)
     = ([ErrLoad "加载Excel文件失败: Excel文件为空"],
        Raise (Exn ValueError "加载Excel文件失败: Excel文件为空")))
  /\ (shape0 df <> 0%nat -> (0 < columns df < 4)%nat ->
     load_from_excel str_of env (VStr path)
     = ([ErrLoad "加载Excel文件失败: Excel文件列数不足，至少需要4列"],
        Raise (Exn ValueError "加载Excel文件失败: Excel文件列数不足，至少需要4列")))
  /\ (shape0 df = 1%nat -> (4 <= columns df)%nat ->
     load_from_excel str_of env (VStr path)
     = ([ErrLoad "加载Excel文件失败: Excel文件中没有足够的数据行，至少需要2行"],
        Raise (Exn ValueError
                 "加载Excel文件失败: Excel文件中没有足够的数据行，至少需要2行"))).
Proof.
  intros Hexists Hext Hread.
  assert (negb (String.eqb (splitext_lower env path) ".xlsx"
                || String.eqb (splitext_lower env path) ".xls") = false)
    as Hext'.
  { destruct Hext as [-> | ->]; reflexivity. }
  unfold load_from_excel, load_from_frame.
  rewrite Hexists, Hext', Hread. cbn [negb].
  change (lift (Ok df)) with (ret df). rewrite bind_ret.
  unfold df_empty, shape1.
  split; [|split].
  - intros [H | H]; rewrite H; rewrite ?Nat.eqb_refl, ?Bool.orb_true_r;
      reflexivity.
  - intros Hrows Hcols.
    replace (Nat.eqb (shape0 df) 0) with false
      by (symmetry; apply Nat.eqb_neq; assumption).
    replace (Nat.eqb (columns df) 0) with false
      by (symmetry; apply Nat.eqb_neq; lia).
    cbn [orb].
    replace (Nat.ltb (columns df) _) with true
      by (symmetry; apply Nat.ltb_lt; cbn; lia).
    reflexivity.
  - intros Hrows Hcols. rewrite Hrows.
    replace (Nat.eqb (columns df) 0) with false
      by (symmetry; apply Nat.eqb_neq; lia).
    cbn [orb Nat.eqb].
    replace (Nat.ltb (columns df) _) with false
      by (symmetry; apply Nat.ltb_ge; cbn; lia).
    reflexivity.
Qed.

Lemma load_from_excel_small_frames_witness :
  load_from_excel scalar_str (frame_env narrow_frame) (VStr "grades.xlsx")
  = ([ErrLoad "加载Excel文件失败: Excel文件列数不足，至少需要4列"],
     Raise (Exn ValueError "加载Excel文件失败: Excel文件列数不足，至少需要4列")).
Proof.
  refine (proj1 (proj2 (load_from_excel_small_frames scalar_str
                          (frame_env narrow_frame) "grades.xlsx" narrow_frame
                          eq_refl (or_introl eq_refl) eq_refl)) _ _).
  - cbn. lia.
  - cbn. lia.
Defined.

Lemma valid_rows_named (str_of : pyval -> string) (df : DataFrame) :
  Forall (fun name => name <> "")
         (map (row_name str_of df) (valid_rows str_of df)).
Proof.
  apply Forall_fmap, List.Forall_forall. intros i Hi.
  apply List.filter_In in Hi as [_ Hi]. unfold row_valid in Hi.
  apply andb_prop in Hi as [_ Hi]. cbn. unfold row_name.
  destruct (strip _); [discriminate | discriminate].
Qed.

Lemma lookup_In {A} (l : list A) (k : nat) (x : A) :
  l !! k = Some x -> In x l.
Proof.
  revert k. induction l as [|y l IH]; intros [|k] H; try discriminate.
  - injection H as ->. left. reflexivity.
  - right. exact (IH k H).
Qed.

Lemma in_concat_map {A B} (f : A -> list B) (l : list A) (x : A) (y : B) :
  In x l -> In y (f x) -> In y (concat (map f l)).
Proof.
  intros Hx Hy. apply in_concat. exists (f x). split; [|exact Hy].
  apply in_map. exact Hx.
Qed.

(** X12.  A row with a name and an empty grade or credit cell is kept: the
    loader logs a warning that names the row, counted from 1, and hands the
    empty cell on in place of the grade or credit.  The log of a call that
    returns holds these warnings in row order, then the two counts. *)
Theorem loader_missing_cell_warnings (str_of : pyval -> string) (env : os_env)
    (path : string) (df : DataFrame) (l : list log_entry) (n : nat)
    (names : list string) (grades credits : list pyval) :
  load_from_excel str_of env (VStr path)
  = (l, Ok (n, names, grades, credits)) ->
  read_excel env path = Ok df ->
  l = concat (map (row_warnings df) (valid_rows str_of df))
      ++ [InfoFound n; InfoExtracted n]
  /\ (forall k i, valid_rows str_of df !! k = Some i ->
        (isna (row_grade df i) = true ->
           In (WarnNoGrade (i + 1)) l
           /\ exists g, grades !! k = Some g /\ isna g = true)
        /\ (isna (row_credit df i) = true ->
              In (WarnNoCredit (i + 1)) l
              /\ exists c, credits !! k = Some c /\ isna c = true)).
Proof.
  intros H Hread.
  apply load_from_excel_ok in H as (p & [= <-] & Hex & E).
  destruct (load_from_frame_ok str_of df env path _ _ _ _ _ E Hread)
    as (_ & _ & Hne & Hn & Hnames & Hgrades & Hcredits & Hl).
  subst n names grades credits l.
  split; [reflexivity|].
  intros k i Hk.
  assert (In i (valid_rows str_of df)) as Hin.
  { exact (lookup_In _ _ _ Hk). }
  split; intros Hna.
  - split.
    + apply in_or_app. left. apply (in_concat_map _ _ i); [exact Hin|].
      unfold row_warnings. rewrite Hna. left. reflexivity.
    + exists (row_grade df i). rewrite list_lookup_fmap, Hk.
      split; [reflexivity | exact Hna].
  - split.
    + apply in_or_app. left. apply (in_concat_map _ _ i); [exact Hin|].
      unfold row_warnings. rewrite Hna. apply in_or_app. right.
      left. reflexivity.
    + exists (row_credit df i). rewrite list_lookup_fmap, Hk.
      split; [reflexivity | exact Hna].
Qed.

Lemma loader_missing_cell_warnings_witness :
  logged (load_from_excel scalar_str (frame_env sparse_frame)
            (VStr "grades.xlsx"))
  = concat (map (row_warnings sparse_frame)
                (valid_rows scalar_str sparse_frame))
    ++ [InfoFound 2; InfoExtracted 2].
Proof.
  assert (load_from_excel scalar_str (frame_env sparse_frame)
            (VStr "grades.xlsx")
          = ([WarnNoGrade 3; WarnNoCredit 3; InfoFound 2; InfoExtracted 2],
             Ok (2%nat, ["Math"; "Art"], [VInt 95; VFloat FNan],
                 [VInt 4; VFloat FNan]))) as E by (vm_compute; reflexivity).
  rewrite E.
  exact (proj1 (loader_missing_cell_warnings scalar_str
                  (frame_env sparse_frame) "grades.xlsx" sparse_frame
                  _ _ _ _ _ E eq_refl)).
Defined.

(** ** The history file *)

Lemma write_history_ok (d : storage) (history : list CalculationRecord) :
  writable d = true ->
  write_history d history
  = Ok {| file := FileJson history; readable := readable d;
          writable := true |}.
Proof. intros H. unfold write_history. rewrite H. reflexivity. Qed.

Lemma write_history_denied (d : storage) (history : list CalculationRecord) :
  writable d = false -> exists e, write_history d history = Raise e.
Proof. intros H. unfold write_history. rewrite H. eexists. reflexivity. Qed.

Lemma load_history_written (d : storage) (history : list CalculationRecord) :
  readable d = true ->
  load_history {| file := FileJson history; readable := readable d;
                  writable := true |} = history.
Proof. intros H. unfold load_history. cbn. rewrite H. reflexivity. Qed.

Lemma get_record_by_index_lookup (d : storage) (k : Z) :
  get_record_by_index d (VInt k)
  = Ok (if Z.leb 0 k then load_history d !! Z.to_nat k else None).
Proof.
  unfold get_record_by_index. cbn [as_int].
  destruct (Z.leb 0 k) eqn:E0; [|reflexivity]. cbn [andb].
  destruct (Z.ltb k (Z.of_nat (length (load_history d)))) eqn:E1;
    [reflexivity|].
  apply Z.ltb_ge in E1. apply Z.leb_le in E0.
  symmetry. f_equal. apply lookup_ge_None. lia.
Qed.

(** X14.  Deleting the entry that [save_record] has just appended gives
    back the history as it was before the save. *)
Theorem save_then_delete_last (d : storage) (now : string) (r : record_dict) :
  writable d = true -> readable d = true -> missing_keys r = [] ->
  exists d' d'',
    save_record d now (ADict r) = (Ok true, d')
    /\ delete_record d' (VInt (Z.of_nat (length (load_history d))))
       = (Ok true, d'')
    /\ load_history d'' = load_history d.
Proof.
  intros Hw Hr Hkeys.
  unfold save_record. rewrite Hkeys, (write_history_ok d _ Hw).
  eexists _, _. split; [reflexivity|].
  unfold delete_record. cbn [as_int].
  rewrite (load_history_written d _ Hr), length_app. cbn [length].
  replace (Nat.eqb (length (load_history d) + 1) 0) with false
    by (symmetry; apply Nat.eqb_neq; lia).
  replace (Z.leb 0 (Z.of_nat (length (load_history d)))) with true
    by (symmetry; apply Z.leb_le; lia).
  replace (Z.ltb (Z.of_nat (length (load_history d)))
                 (Z.of_nat (length (load_history d) + 1))) with true
    by (symmetry; apply Z.ltb_lt; lia).
  cbn [andb]. rewrite write_history_ok by reflexivity. cbn [readable].
  split; [reflexivity|].
  rewrite (load_history_written d _ Hr), Nat2Z.id.
  clear. induction (load_history d) as [|x l IH]; [reflexivity|].
  cbn. f_equal. exact IH.
Qed.

Lemma save_then_delete_last_witness :
  exists d' d'',
    save_record example_storage "2025-06-01T12:00:00"
                (ADict (dict_of (example_record "d"))) = (Ok true, d')
    /\ delete_record d' (VInt 3) = (Ok true, d'')
    /\ load_history d'' = load_history example_storage.
Proof.
  exact (save_then_delete_last example_storage "2025-06-01T12:00:00"
           (dict_of (example_record "d")) eq_refl eq_refl eq_refl).
Defined.

(** X16.  [clear_history] on a file that can be written returns True and
    leaves an empty history, also when the file was absent or was not
    JSON: afterwards no index holds a record and no deletion succeeds.  On
    a file that cannot be written it returns False and changes nothing. *)
Theorem clear_history_empties (d : storage) :
  (writable d = true ->
   exists d',
     clear_history d = (true, d')
     /\ file d' = FileJson []
     /\ load_history d' = []
     /\ (forall index, as_int index <> None ->
           get_record_by_index d' index = Ok None
           /\ delete_record d' index = (Ok false, d')))
  /\ (writable d = false -> clear_history d = (false, d)).
Proof.
  split; intros Hw.
  - unfold clear_history. rewrite (write_history_ok d _ Hw).
    eexists. split; [reflexivity|]. split; [reflexivity|].
    assert (load_history {| file := FileJson []; readable := readable d;
                            writable := true |} = []) as Hload
      by (unfold load_history; cbn; destruct (readable d); reflexivity).
    split; [exact Hload|].
    intros index Hint. unfold get_record_by_index, delete_record.
    destruct (as_int index) as [k|]; [|contradiction].
    rewrite Hload. cbn [length Nat.eqb]. split; [|reflexivity].
    destruct (Z.leb 0 k) eqn:E; [|reflexivity].
    replace (Z.ltb k (Z.of_nat 0)) with false; [reflexivity|].
    symmetry. apply Z.ltb_ge. apply Z.leb_le in E. lia.
  - unfold clear_history.
    destruct (write_history_denied d [] Hw) as [e ->]. reflexivity.
Qed.

Lemma clear_history_empties_witness :
  exists d',
    clear_history example_storage = (true, d') /\ load_history d' = [].
Proof.
  destruct (proj1 (clear_history_empties example_storage) eq_refl)
    as (d' & H1 & _ & H2 & _).
  exists d'. split; [exact H1 | exact H2].
Defined.

(** X17.  After [delete_record(k)] has returned True,
    [get_record_by_index] finds below [k] the records it found before, and
    at [k] and above the records that were one index higher. *)
Theorem get_record_after_delete (d d' : storage) (k i : Z) :
  delete_record d (VInt k) = (Ok true, d') ->
  get_record_by_index d' (VInt i)
  = get_record_by_index d (VInt (if Z.ltb i k then i else i + 1)).
Proof.
  intros Hdel. unfold delete_record in Hdel. cbn [as_int] in Hdel.
  destruct (Nat.eqb (length (load_history d)) 0); [discriminate|].
  destruct (Z.leb 0 k && Z.ltb k (Z.of_nat (length (load_history d))))
    eqn:Hrange; [|discriminate].
  apply andb_prop in Hrange as [Hk0 Hklen].
  apply Z.leb_le in Hk0. apply Z.ltb_lt in Hklen.
  assert (load_history d <> []) as Hne
    by (intros E; rewrite E in Hklen; cbn in Hklen; lia).
  destruct (load_history_nonempty d Hne) as [Hfile Hread].
  unfold write_history in Hdel.
  destruct (writable d); [|discriminate]. injection Hdel as <-.
  rewrite !get_record_by_index_lookup.
  rewrite (load_history_written d _ Hread).
  destruct (Z.ltb i k) eqn:Hik.
  - apply Z.ltb_lt in Hik.
    destruct (Z.leb 0 i) eqn:Hi0; [|reflexivity]. apply Z.leb_le in Hi0.
    f_equal. apply list_lookup_delete_lt. lia.
  - apply Z.ltb_ge in Hik.
    replace (Z.leb 0 i) with true by (symmetry; apply Z.leb_le; lia).
    replace (Z.leb 0 (i + 1)) with true by (symmetry; apply Z.leb_le; lia).
    f_equal. rewrite list_lookup_delete_ge by lia.
    f_equal. lia.
Qed.

Lemma get_record_after_delete_witness :
  get_record_by_index
    {| file := FileJson [example_record "a"; example_record "c"];
       readable := true; writable := true |} (VInt 1)
  = get_record_by_index example_storage (VInt 2).
Proof.
  exact (get_record_after_delete example_storage _ 1 1 eq_refl).
Defined.

(** ** The console results *)

Lemma zip_with_length_eq {A B C} (f : A -> B -> C) (xs : list A)
    (ys : list B) :
  length xs = length ys -> length (zip_with f xs ys) = length xs.
Proof.
  revert ys. induction xs as [|x xs IH]; intros [|y ys] H;
    try discriminate; [reflexivity|].
  cbn. f_equal. apply IH. cbn in H. congruence.
Qed.

(** ** The main window *)

Lemma table_items_ok {A B C} (xs : list A) (ys : list B) (zs : list C)
    (range : list nat) :
  Forall (fun i => (i < length xs)%nat /\ (i < length ys)%nat
                   /\ (i < length zs)%nat) range ->
  table_items xs ys zs range = ret tt.
Proof.
  induction 1 as [|i rest (Hx & Hy & Hz) _ IH]; [reflexivity|].
  cbn [table_items]. unfold getitem.
  destruct (lookup_lt_is_Some_2 xs i Hx) as [x ->].
  destruct (lookup_lt_is_Some_2 ys i Hy) as [y ->].
  destruct (lookup_lt_is_Some_2 zs i Hz) as [z ->].
  rewrite !bind_ret. exact IH.
Qed.

Lemma seq_below (n : nat) (P : nat -> Prop) :
  (forall i, (i < n)%nat -> P i) -> Forall P (seq 0 n).
Proof.
  intros H. apply List.Forall_forall. intros i Hi.
  apply List.in_seq in Hi. apply H. lia.
Qed.

Section Window.

Variable str_of : pyval -> string.
Variable str_to_float : string -> option pyfloat.
Variable env : os_env.



Lemma floats_raise (values : list pyval) (v : pyval) (e : exn) :
  In v values -> py_float str_to_float v = Raise e ->
  exists e', floats str_to_float values = Raise e'.
Proof.
  intros Hin Hv. induction values as [|x rest IH]; [contradiction|].
  cbn [floats]. destruct Hin as [-> | Hin].
  - rewrite Hv. eexists. reflexivity.
  - destruct (py_float str_to_float x); [|eexists; reflexivity].
    destruct (IH Hin) as [e' ->]. eexists. reflexivity.
Qed.

(** X22.  [_save_record] saves nothing when a loaded grade or credit does
    not convert with [float], as a grade given by its label does not, or
    when a result label still shows its dashes: it opens one error box and
    leaves the window and the file as they were. *)
Theorem gui_save_needs_numbers (w : MainWindow) (now : string) :
  (exists v e, (In v (win_course_grades w) \/ In v (win_course_credits w))
               /\ py_float str_to_float v = Raise e)
  \/ avg_score_label w = Dashes \/ overall_gpa_label w = Dashes ->
  exists text, _save_record str_to_float w now = (w, [Critical text]).
Proof.
  intros H. unfold _save_record, record_of_window.
  destruct (floats str_to_float (win_course_grades w)) as [gs|e1] eqn:E1;
    [|eexists; reflexivity].
  destruct (floats str_to_float (win_course_credits w)) as [cs|e2] eqn:E2;
    [|eexists; reflexivity].
  destruct H as [(v & e & [Hin | Hin] & Hv) | H].
  - destruct (floats_raise _ _ _ Hin Hv) as [e' He']. congruence.
  - destruct (floats_raise _ _ _ Hin Hv) as [e' He']. congruence.
  - destruct (avg_score_label w); [eexists; reflexivity|].
    destruct (overall_gpa_label w); [eexists; reflexivity|].
    destruct H; discriminate.
Qed.


End Window.

Lemma gui_save_needs_numbers_witness :
  exists text,
    _save_record decimal_float label_window "2025-06-01T12:00:00"
    = (label_window, [Critical text]).
Proof.
  apply gui_save_needs_numbers. left.
  exists (VStr "优秀"), (Exn ValueError "could not convert string to float").
  split; [left; left; reflexivity | vm_compute; reflexivity].
Defined.


(** ** The outcomes on the examples *)

Lemma load_from_excel_error_kinds_witness :
  raises (output (load_from_excel scalar_str example_env (VInt 3))) TypeError.
Proof.
  apply (proj2 (proj1 (load_from_excel_error_kinds scalar_str example_env
                         (VInt 3)))).
  intros p. discriminate.
Defined.

(** ** A clean sheet, from the file to the results *)

(** ** [str.strip] *)

Lemma drop_prefix_append (p s s' : string) :
  drop_prefix p s = Some s' -> s = String.append p s'.
Proof.
  revert s. induction p as [|a p IH]; intros s H.
  - cbn in H. injection H as ->. reflexivity.
  - destruct s as [|b s]; [discriminate|]. cbn in H.
    destruct (Ascii.eqb a b) eqn:E; [|discriminate].
    apply Ascii.eqb_eq in E. subst b.
    change (String a s = String a (String.append p s')).
    f_equal. apply IH. exact H.
Qed.

Lemma drop_prefix_extend (p s s' v : string) :
  drop_prefix p s = Some s' ->
  drop_prefix p (String.append s v) = Some (String.append s' v).
Proof.
  revert s. induction p as [|a p IH]; intros s H.
  - cbn in H. injection H as ->. reflexivity.
  - destruct s as [|b s]; [discriminate|]. cbn in H.
    change (drop_prefix (String a p) (String b (String.append s v))
            = Some (String.append s' v)).
    cbn [drop_prefix].
    destruct (Ascii.eqb a b); [|discriminate]. apply IH. exact H.
Qed.

Lemma drop_any_prefix_extend (ws : list string) (s v : string) :
  drop_any_prefix ws (String.append s v) = None ->
  drop_any_prefix ws s = None.
Proof.
  induction ws as [|p ws IH]; [reflexivity|]. cbn.
  destruct (drop_prefix p s) as [s'|] eqn:E.
  - rewrite (drop_prefix_extend p s s' v E). discriminate.
  - destruct (drop_prefix p (String.append s v)); [discriminate|]. exact IH.
Qed.

Lemma append_length (a b : string) :
  String.length (String.append a b)
  = (String.length a + String.length b)%nat.
Proof.
  induction a as [|c a IH]; [reflexivity|].
  change (S (String.length (String.append a b))
          = (S (String.length a) + String.length b)%nat).
  rewrite IH. reflexivity.
Qed.

Lemma drop_any_prefix_cut (ws : list string) (s s' : string) :
  Forall (fun p => p <> EmptyString) ws ->
  drop_any_prefix ws s = Some s' ->
  (String.length s' < String.length s)%nat
  /\ exists p, s = String.append p s'.
Proof.
  induction 1 as [|p ws Hp _ IH]; [discriminate|]. cbn.
  destruct (drop_prefix p s) as [t|] eqn:E; [|exact IH].
  intros [= <-]. apply drop_prefix_append in E. subst s.
  split; [|exists p; reflexivity].
  rewrite append_length. destruct p; [contradiction|]. cbn [String.length].
  lia.
Qed.

Lemma append_assoc (a b c : string) :
  String.append (String.append a b) c = String.append a (String.append b c).
Proof.
  induction a as [|x a IH]; [reflexivity|].
  change (String x (String.append (String.append a b) c)
          = String x (String.append a (String.append b c))).
  rewrite IH. reflexivity.
Qed.

(** With enough fuel the loop stops at a string that starts with none of
    the patterns, and has only cut a prefix. *)
Lemma lstrip_with_done (ws : list string) :
  Forall (fun p => p <> EmptyString) ws ->
  forall fuel s,
    (String.length s <= fuel)%nat ->
    drop_any_prefix ws (lstrip_with ws fuel s) = None
    /\ exists pre, s = String.append pre (lstrip_with ws fuel s).
Proof.
  intros Hws. induction fuel as [|fuel IH]; intros s Hlen.
  - destruct s; [|cbn in Hlen; lia]. cbn [lstrip_with].
    split; [|exists EmptyString; reflexivity].
    clear Hlen. induction Hws as [|p ws Hp _ IH]; [reflexivity|].
    cbn. destruct p; [contradiction | exact IH].
  - cbn [lstrip_with].
    destruct (drop_any_prefix ws s) as [s'|] eqn:E.
    + destruct (drop_any_prefix_cut ws s s' Hws E) as [Hlt [p ->]].
      destruct (IH s' ltac:(lia)) as [Hnone [pre Hpre]].
      split; [exact Hnone|].
      exists (String.append p pre). rewrite append_assoc, <- Hpre.
      reflexivity.
    + split; [exact E | exists EmptyString; reflexivity].
Qed.

Lemma list_ascii_of_string_append (a b : string) :
  String.list_ascii_of_string (String.append a b)
  = String.list_ascii_of_string a ++ String.list_ascii_of_string b.
Proof.
  induction a as [|c a IH]; [reflexivity|].
  change (c :: String.list_ascii_of_string (String.append a b)
          = c :: (String.list_ascii_of_string a
                    ++ String.list_ascii_of_string b)).
  rewrite IH. reflexivity.
Qed.

Lemma string_of_list_ascii_app (l1 l2 : list Ascii.ascii) :
  String.string_of_list_ascii (l1 ++ l2)
  = String.append (String.string_of_list_ascii l1)
                  (String.string_of_list_ascii l2).
Proof.
  induction l1 as [|c l1 IH]; [reflexivity|].
  change (String c (String.string_of_list_ascii (l1 ++ l2))
          = String c (String.append (String.string_of_list_ascii l1)
                                    (String.string_of_list_ascii l2))).
  rewrite IH. reflexivity.
Qed.

Lemma string_rev_append (a b : string) :
  string_rev (String.append a b)
  = String.append (string_rev b) (string_rev a).
Proof.
  unfold string_rev.
  rewrite list_ascii_of_string_append, rev_app_distr.
  apply string_of_list_ascii_app.
Qed.

Lemma string_rev_involutive (s : string) : string_rev (string_rev s) = s.
Proof.
  unfold string_rev.
  rewrite String.list_ascii_of_string_of_list_ascii, rev_involutive.
  apply String.string_of_list_ascii_of_string.
Qed.

Lemma string_of_list_ascii_length (l : list Ascii.ascii) :
  String.length (String.string_of_list_ascii l) = length l.
Proof. induction l as [|c l IH]; cbn; [reflexivity|]. rewrite IH. reflexivity. Qed.

Lemma list_ascii_of_string_length (s : string) :
  length (String.list_ascii_of_string s) = String.length s.
Proof. induction s as [|c s IH]; cbn; [reflexivity|]. rewrite IH. reflexivity. Qed.

Lemma string_rev_length (s : string) :
  String.length (string_rev s) = String.length s.
Proof.
  unfold string_rev.
  rewrite string_of_list_ascii_length, length_rev.
  apply list_ascii_of_string_length.
Qed.

Lemma nonempty_patterns (ws : list string) :
  forallb nonempty ws = true -> Forall (fun p => p <> EmptyString) ws.
Proof.
  intros H. apply List.Forall_forall. intros p Hp.
  apply (proj1 (forallb_forall _ _) H) in Hp.
  intros ->. discriminate.
Qed.

Lemma whitespace_nonempty :
  Forall (fun p => p <> EmptyString) whitespace
  /\ Forall (fun p => p <> EmptyString) (map string_rev whitespace).
Proof. split; apply nonempty_patterns; vm_compute; reflexivity. Qed.

Lemma lstrip_with_fixed (ws : list string) (fuel : nat) (s : string) :
  drop_any_prefix ws s = None -> lstrip_with ws fuel s = s.
Proof. intros H. destruct fuel; cbn; [|rewrite H]; reflexivity. Qed.

(** What [strip] returns starts and ends with no whitespace character, and
    [strip] leaves it as it is. *)
Lemma strip_trimmed (s : string) :
  starts_with_whitespace (strip s) = false
  /\ ends_with_whitespace (strip s) = false
  /\ strip (strip s) = strip s.
Proof.
  destruct whitespace_nonempty as [Hws Hrws].
  destruct (lstrip_with_done whitespace Hws (String.length s) s
              ltac:(lia)) as [Hstart _].
  fold (lstrip s) in Hstart.
  destruct (lstrip_with_done (map string_rev whitespace) Hrws
              (String.length (lstrip s)) (string_rev (lstrip s)))
    as [Hend [pre Hpre]]; [rewrite string_rev_length; lia|].
  assert (lstrip s
          = String.append (rstrip (lstrip s)) (string_rev pre)) as Hcut.
  { rewrite <- (string_rev_involutive (lstrip s)) at 1.
    rewrite Hpre at 1. rewrite string_rev_append. reflexivity. }
  assert (drop_any_prefix whitespace (strip s) = None) as H1.
  { unfold strip. apply (drop_any_prefix_extend _ _ (string_rev pre)).
    rewrite <- Hcut. exact Hstart. }
  assert (drop_any_prefix (map string_rev whitespace) (string_rev (strip s))
          = None) as H2.
  { unfold strip, rstrip. rewrite string_rev_involutive. exact Hend. }
  split; [unfold starts_with_whitespace; rewrite H1; reflexivity|].
  split; [unfold ends_with_whitespace; rewrite H2; reflexivity|].
  unfold strip at 1. unfold lstrip at 1.
  rewrite (lstrip_with_fixed _ _ _ H1). unfold rstrip.
  rewrite (lstrip_with_fixed _ _ _ H2). apply string_rev_involutive.
Qed.

(** X25.  Every course name that [load_from_excel] returns is trimmed: it
    is not empty, it starts and ends with no whitespace character, and
    [strip] leaves it as it is. *)
Theorem loader_names_trimmed (str_of : pyval -> string) (env : os_env)
    (path : pyval) (n : nat) (names : list string)
    (grades credits : list pyval) :
  output (load_from_excel str_of env path) = Ok (n, names, grades, credits) ->
  Forall (fun name => name <> EmptyString
                      /\ starts_with_whitespace name = false
                      /\ ends_with_whitespace name = false
                      /\ strip name = name) names.
Proof.
  intros H.
  destruct (load_from_excel str_of env path) as [l r] eqn:E. cbn in H.
  subst r. apply load_from_excel_ok in E as (p & -> & Hex & E).
  destruct (read_excel env p) as [df|e] eqn:Hread;
    [|unfold load_from_frame in E; rewrite Hread in E; discriminate].
  destruct (load_from_frame_ok str_of df env p _ _ _ _ _ E Hread)
    as (_ & _ & _ & _ & -> & _).
  pose proof (valid_rows_named str_of df) as Hnamed.
  rewrite Forall_fmap in Hnamed |- *.
  eapply Forall_impl; [exact Hnamed|].
  intros i Hi. cbn in Hi |- *. split; [exact Hi|].
  unfold row_name. apply strip_trimmed.
Qed.

Lemma loader_names_trimmed_witness :
  Forall (fun name => name <> EmptyString
                      /\ starts_with_whitespace name = false
                      /\ ends_with_whitespace name = false
                      /\ strip name = name) ["Math"; "PE"].
Proof.
  assert (output (load_from_excel scalar_str example_env (VStr "grades.xlsx"))
          = Ok (2%nat, ["Math"; "PE"], [VInt 95; VStr "不及格"],
                [VInt 4; VInt 2])) as E by (vm_compute; reflexivity).
  exact (loader_names_trimmed scalar_str example_env _ _ _ _ _ E).
Defined.

(** * The program over binary64: proofs *)

(** ** The grade-point loop *)

Lemma binary64_turn_grade_point (self : Binary64.GpaCalculator) (i : nat)
    (g : Binary64.float) :
  is_Some (Binary64.course_names self !! i) ->
  output (Binary64.course_gpa_turn self i g) = Ok (Binary64.grade_point g).
Proof.
  intros [name Hname].
  unfold Binary64.course_gpa_turn, Binary64.grade_point, Binary64.flt,
    Binary64.fgt, Binary64.fsub, Binary64.fadd, Binary64.fdiv, getitem, lift.
  destruct (SFltb g (Binary64.fz 60)); [reflexivity|].
  change (Binary64.feq (Binary64.fz 10) (Binary64.fz 0)) with false.
  cbv iota.
  destruct (Binary64.py_int g) as [k|e]; cbn [bind catch any_exception].
  - match goal with |- context [SFltb ?c (Binary64.fz 0)] =>
      destruct (SFltb c (Binary64.fz 0)) eqn:Hneg;
      [|destruct (SFltb (Binary64.fz 5) c) eqn:Hhigh]
    end; rewrite ?Hname; reflexivity.
  - rewrite Hname. reflexivity.
Qed.

Lemma binary64_loop_grade_points (self : Binary64.GpaCalculator)
    (grades : list Binary64.float) :
  forall i,
    (i + length grades <= length (Binary64.course_names self))%nat ->
    output (Binary64.course_gpa_loop self i grades)
    = Ok (map Binary64.grade_point grades).
Proof.
  induction grades as [|g rest IH]; intros i Hlen; [reflexivity|].
  cbn [length Binary64.course_gpa_loop] in *.
  pose proof (binary64_turn_grade_point self i g) as Hturn.
  specialize (IH (S i)).
  destruct (Binary64.course_gpa_turn self i g) as [l1 r1].
  destruct (Binary64.course_gpa_loop self (S i) rest) as [l2 r2].
  unfold output in *. cbn [snd] in *.
  rewrite Hturn by (apply lookup_lt_is_Some; lia).
  rewrite IH by lia. reflexivity.
Qed.

(** ** [load_data] *)

Lemma converted_all (cells : list Binary64.pyval) :
  existsb Binary64.too_large cells = false -> Binary64.converted cells = cells.
Proof.
  induction cells as [|c rest IH]; [reflexivity|]. cbn.
  destruct (Binary64.too_large c); [discriminate|].
  intros H. rewrite IH by exact H. reflexivity.
Qed.

Lemma converted_length (cells : list Binary64.pyval) :
  (length (Binary64.converted cells) <= length cells)%nat.
Proof.
  induction cells as [|c rest IH]; cbn; [lia|].
  destruct (Binary64.too_large c); cbn; lia.
Qed.

Section BinaryLoadData.

Variable str_to_float : string -> option Binary64.float.

Lemma binary64_py_float_ok (v : Binary64.pyval) (x : Binary64.float) :
  Binary64.py_float str_to_float v = Ok x -> Binary64.too_large v = false.
Proof.
  destruct v as [|b|z|f|s|tag]; cbn; try reflexivity.
  destruct (Binary64.is_infinite (Binary64.fz z)); [discriminate|reflexivity].
Qed.

Lemma binary64_py_float_raise (v : Binary64.pyval) (e : exn) :
  Binary64.py_float str_to_float v = Raise e ->
  if Binary64.too_large v then e = Binary64.overflow_error
  else value_or_type_error (kind e) = true.
Proof.
  destruct v as [|b|z|f|s|tag]; cbn;
    try (intros [= <-]; reflexivity); try discriminate.
  - destruct (Binary64.is_infinite (Binary64.fz z)); [|discriminate].
    intros [= <-]. reflexivity.
  - destruct (str_to_float s); [discriminate|]. intros [= <-]. reflexivity.
Qed.

Lemma binary64_convert_credit_value (names : list Binary64.pyval) (i : nat)
    (credit : Binary64.pyval) :
  is_Some (names !! i) ->
  Binary64.too_large credit = false ->
  Binary64.convert_credit str_to_float names i credit
  = (Binary64.credit_warnings str_to_float i credit,
     Ok (Binary64.normalize_credit str_to_float credit)).
Proof.
  intros [name Hname] Hfit.
  unfold Binary64.convert_credit, Binary64.credit_warnings,
    Binary64.normalize_credit, getitem, lift, bind.
  destruct (Binary64.py_float str_to_float credit) as [x | e] eqn:E.
  - destruct (Binary64.flt x (Binary64.fz 0)); [rewrite Hname|]; reflexivity.
  - apply binary64_py_float_raise in E. rewrite Hfit in E.
    cbn. rewrite E, Hname. reflexivity.
Qed.

Lemma binary64_convert_credit_overflow (names : list Binary64.pyval) (i : nat)
    (credit : Binary64.pyval) :
  Binary64.too_large credit = true ->
  Binary64.convert_credit str_to_float names i credit
  = ([], Raise Binary64.overflow_error).
Proof.
  intros Hbig. unfold Binary64.convert_credit, lift, bind.
  destruct (Binary64.py_float str_to_float credit) as [x | e] eqn:E.
  - apply binary64_py_float_ok in E. congruence.
  - apply binary64_py_float_raise in E. rewrite Hbig in E. subst e.
    reflexivity.
Qed.

Lemma binary64_convert_credits_filled (names credits : list Binary64.pyval) :
  forall i appended,
    (i + length credits <= length names)%nat ->
    Binary64.convert_credits str_to_float names i credits appended
    = (concat (imap (fun j => Binary64.credit_warnings str_to_float (i + j))
                 (Binary64.converted credits)),
       if existsb Binary64.too_large credits
       then Some Binary64.overflow_error else None,
       appended ++ map (Binary64.normalize_credit str_to_float)
                       (Binary64.converted credits)).
Proof.
  induction credits as [|c rest IH]; intros i appended Hlen.
  { cbn. rewrite app_nil_r. reflexivity. }
  cbn [length Binary64.convert_credits Binary64.converted existsb] in *.
  destruct (Binary64.too_large c) eqn:Hc.
  - rewrite binary64_convert_credit_overflow by exact Hc.
    cbn. rewrite app_nil_r. reflexivity.
  - rewrite binary64_convert_credit_value
      by (try apply lookup_lt_is_Some; try exact Hc; lia).
    rewrite IH by lia. cbn. rewrite Nat.add_0_r, <- app_assoc. cbn.
    do 4 f_equal.
    apply imap_ext. intros j x _. cbn. f_equal. lia.
Qed.

Lemma binary64_convert_grade_value (names : list Binary64.pyval) (i : nat)
    (grade : Binary64.pyval) :
  is_Some (names !! i) ->
  Binary64.too_large grade = false ->
  Binary64.convert_grade str_to_float names i grade
  = (Binary64.grade_warnings str_to_float i grade,
     Ok (Binary64.normalize_grade str_to_float grade)).
Proof.
  intros [name Hname] Hfit.
  unfold Binary64.convert_grade, Binary64.grade_warnings,
    Binary64.normalize_grade, getitem, lift.
  destruct (Binary64.mapped_grade grade); [reflexivity|]. unfold bind.
  destruct (Binary64.py_float str_to_float grade) as [x | e] eqn:E.
  - destruct (Binary64.flt x (Binary64.fz 0)); [rewrite Hname; reflexivity|].
    destruct (Binary64.fgt x (Binary64.fz 100)); [rewrite Hname|]; reflexivity.
  - apply binary64_py_float_raise in E. rewrite Hfit in E.
    cbn. rewrite E, Hname. reflexivity.
Qed.

Lemma binary64_convert_grade_overflow (names : list Binary64.pyval) (i : nat)
    (grade : Binary64.pyval) :
  Binary64.too_large grade = true ->
  Binary64.convert_grade str_to_float names i grade
  = ([], Raise Binary64.overflow_error).
Proof.
  intros Hbig. destruct grade as [|b|z|f|s|tag]; try discriminate.
  unfold Binary64.convert_grade, Binary64.mapped_grade, lift, bind.
  destruct (Binary64.py_float str_to_float (Binary64.VInt z)) as [x | e] eqn:E.
  - apply binary64_py_float_ok in E. congruence.
  - apply binary64_py_float_raise in E. rewrite Hbig in E. subst e.
    reflexivity.
Qed.

Lemma binary64_convert_grades_filled (names grades : list Binary64.pyval) :
  forall i appended,
    (i + length grades <= length names)%nat ->
    Binary64.convert_grades str_to_float names i grades appended
    = (concat (imap (fun j => Binary64.grade_warnings str_to_float (i + j))
                 (Binary64.converted grades)),
       if existsb Binary64.too_large grades
       then Some Binary64.overflow_error else None,
       appended ++ map (Binary64.normalize_grade str_to_float)
                       (Binary64.converted grades)).
Proof.
  induction grades as [|g rest IH]; intros i appended Hlen.
  { cbn. rewrite app_nil_r. reflexivity. }
  cbn [length Binary64.convert_grades Binary64.converted existsb] in *.
  destruct (Binary64.too_large g) eqn:Hg.
  - rewrite binary64_convert_grade_overflow by exact Hg.
    cbn. rewrite app_nil_r. reflexivity.
  - rewrite binary64_convert_grade_value
      by (try apply lookup_lt_is_Some; try exact Hg; lia).
    rewrite IH by lia. cbn. rewrite Nat.add_0_r, <- app_assoc. cbn.
    do 4 f_equal.
    apply imap_ext. intros j x _. cbn. f_equal. lia.
Qed.

End BinaryLoadData.

Section BinaryLoad.

Variable str_to_float : string -> option Binary64.float.
Variable builtin_sum : list Binary64.float -> Binary64.float.

(** [load_data] on three lists of one length that is not 0. *)
Lemma binary64_load_data_computed (self : Binary64.GpaCalculator)
    (names grades credits : list Binary64.pyval) :
  length names = length grades -> length grades = length credits ->
  length names <> 0%nat ->
  Binary64.load_data str_to_float builtin_sum self (Binary64.AList names)
    (Binary64.AList grades) (Binary64.AList credits)
  = if existsb Binary64.too_large credits
    then ((concat (imap (Binary64.credit_warnings str_to_float)
                     (Binary64.converted credits)),
           Raise Binary64.overflow_error),
          Binary64.after_credits str_to_float self names credits)
    else ((concat (imap (Binary64.credit_warnings str_to_float) credits)
             ++ (if Binary64.feq
                      (builtin_sum
                         (map (Binary64.normalize_credit str_to_float) credits))
                      (Binary64.fz 0)
                 then [WarnTotalCreditsZero] else [])
             ++ concat (imap (Binary64.grade_warnings str_to_float)
                          (Binary64.converted grades)),
           if existsb Binary64.too_large grades
           then Raise Binary64.overflow_error else Ok tt),
          Binary64.after_grades str_to_float builtin_sum names grades credits).
Proof.
  intros Hng Hgc Hne. unfold Binary64.load_data.
  cbn [Binary64.is_list Binary64.arg_items andb negb].
  rewrite Hng, Hgc, !Nat.eqb_refl. cbn [andb negb].
  replace (Nat.eqb (length credits) 0%nat) with false
    by (symmetry; apply Nat.eqb_neq; congruence).
  rewrite binary64_convert_credits_filled by lia.
  rewrite binary64_convert_grades_filled by lia.
  unfold Binary64.after_credits, Binary64.after_grades.
  destruct (existsb Binary64.too_large credits) eqn:Hc.
  - cbn. rewrite Hng, Hgc. reflexivity.
  - rewrite (converted_all credits Hc).
    destruct (existsb Binary64.too_large grades); cbn; rewrite Hng, Hgc;
      reflexivity.
Qed.

End BinaryLoad.

(** ** Tables over a range of integers *)

Lemma same_float_eq (x y : Binary64.float) :
  Binary64.same_float x y = true -> x = y.
Proof.
  destruct x as [a|a| |a m e], y as [b|b| |b n f]; cbn; try discriminate;
    try reflexivity.
  - intros H. apply Bool.eqb_prop in H. congruence.
  - intros H. apply Bool.eqb_prop in H. congruence.
  - rewrite !Bool.andb_true_iff. intros [[Hs Hm] He].
    apply Bool.eqb_prop in Hs. apply Pos.eqb_eq in Hm. apply Z.eqb_eq in He.
    congruence.
Qed.

Lemma Z_range_all (P : Z -> bool) (lo : Z) (n : nat) :
  forallb P (Binary64.Z_range lo n) = true ->
  forall z, (lo <= z < lo + Z.of_nat n)%Z -> P z = true.
Proof.
  intros Hall z Hz. rewrite forallb_forall in Hall. apply Hall.
  unfold Binary64.Z_range. apply in_map_iff.
  exists (Z.to_nat (z - lo)). split; [lia|].
  apply in_seq. lia.
Qed.

(** ** Successful loads *)

Lemma binary64_load_data_returns
    (str_to_float : string -> option Binary64.float)
    (builtin_sum : list Binary64.float -> Binary64.float)
    (self : Binary64.GpaCalculator) (names grades credits : Binary64.pyarg)
    (l : list log_entry) (s : Binary64.GpaCalculator) :
  Binary64.load_data str_to_float builtin_sum self names grades credits
  = ((l, Ok tt), s) ->
  exists ns gs cs,
    names = Binary64.AList ns /\ grades = Binary64.AList gs
    /\ credits = Binary64.AList cs
    /\ length ns = length gs /\ length gs = length cs /\ length ns <> 0%nat
    /\ existsb Binary64.too_large cs = false
    /\ existsb Binary64.too_large gs = false
    /\ s = Binary64.after_grades str_to_float builtin_sum ns gs cs.
Proof.
  intros Hload.
  destruct names as [ns|], grades as [gs|], credits as [cs|];
    try (unfold Binary64.load_data in Hload; cbn in Hload; discriminate Hload).
  exists ns, gs, cs.
  destruct (Nat.eq_dec (length ns) (length gs)) as [E1|E1];
    [destruct (Nat.eq_dec (length gs) (length cs)) as [E2|E2];
     [destruct (Nat.eq_dec (length ns) 0%nat) as [E3|E3]|]|].
  - exfalso. unfold Binary64.load_data in Hload.
    cbn [Binary64.is_list Binary64.arg_items andb negb] in Hload.
    rewrite E1, E2, !Nat.eqb_refl in Hload. cbn [andb negb] in Hload.
    replace (Nat.eqb (length cs) 0%nat) with true in Hload
      by (symmetry; apply Nat.eqb_eq; congruence).
    discriminate Hload.
  - rewrite binary64_load_data_computed in Hload by assumption.
    destruct (existsb Binary64.too_large cs); [discriminate Hload|].
    destruct (existsb Binary64.too_large gs); [discriminate Hload|].
    injection Hload as _ <-. repeat split; try assumption; reflexivity.
  - exfalso. unfold Binary64.load_data in Hload.
    cbn [Binary64.is_list Binary64.arg_items andb negb] in Hload.
    replace (Nat.eqb (length gs) (length cs)) with false in Hload
      by (symmetry; apply Nat.eqb_neq; assumption).
    rewrite Bool.andb_false_r in Hload. discriminate Hload.
  - exfalso. unfold Binary64.load_data in Hload.
    cbn [Binary64.is_list Binary64.arg_items andb negb] in Hload.
    replace (Nat.eqb (length ns) (length gs)) with false in Hload
      by (symmetry; apply Nat.eqb_neq; assumption).
    discriminate Hload.
Qed.

(** ** C4: the grade point of each course *)

(** C4, counterexample.  One course of grade 63.5 loads without a warning,
    and [calculate_course_gpa] returns the float 1.3 for it; the formula
    floor(g/10) + (g/10 - floor(g/10)) - 5 is 1.35 at 63.5, which rounded to
    one decimal place is 1.4.  The quotient 63.5 / 10 is rounded below 6.35
    in binary64, and so is the value that [round] receives. *)
Lemma course_gpa_of_63_5 :
  fst Binary64.course_63_5 = ([], Ok tt)
  /\ Binary64.course_grades (snd Binary64.course_63_5)
     = [Binary64.decimal 635 10]
  /\ output (Binary64.calculate_course_gpa (snd Binary64.course_63_5))
     = Ok [Binary64.decimal 13 10]
  /\ grade_point_formula (Q2Qc (635 # 10)) = Q2Qc (135 # 100)
  /\ py_round1 (FNum (grade_point_formula (Q2Qc (635 # 10))))
     = FNum (Qc_of_Z 14 / Qc_of_Z 10)
  /\ Binary64.decimal 13 10 <> Binary64.decimal 14 10.
Proof.
  split; [vm_compute; reflexivity|].
  split; [vm_compute; reflexivity|].
  split; [vm_compute; reflexivity|].
  split; [float_eq|].
  split; [vm_compute; float_eq|].
  vm_compute. discriminate.
Qed.

(** C4, as amended.  After a successful load, [calculate_course_gpa]
    returns for each course the grade point 0.0 when the normalized grade
    is below 60 or is not a finite number, and otherwise the binary64 value
    of m + (g/10 - m) - 5 with m = int(g) // 10, rounded to one decimal
    place.  For the whole grades 0 to 100 this is 0.0 below 60 and exactly
    (g - 50)/10 from 60 on: grade 60 gives 1.0 and grade 100 gives 5.0.  For
    the grades from 60.0 to 100.0 with one decimal that do not end in 5 it
    is the tenth nearest to (g - 50)/10.  Grade 59.9 gives 0.0. *)
Theorem course_gpa_binary64 (str_to_float : string -> option Binary64.float)
    (builtin_sum : list Binary64.float -> Binary64.float)
    (self : Binary64.GpaCalculator) (names grades credits : Binary64.pyarg)
    (l : list log_entry) (s : Binary64.GpaCalculator) :
  Binary64.load_data str_to_float builtin_sum self names grades credits
  = ((l, Ok tt), s) ->
  output (Binary64.calculate_course_gpa s)
  = Ok (map Binary64.grade_point (Binary64.course_grades s))
  /\ (forall z, (0 <= z <= 100)%Z ->
        Binary64.grade_point (Binary64.fz z)
        = if (z <? 60)%Z then Binary64.fz 0
          else Binary64.nearest false (z - 50) 10)
  /\ (forall k, (600 <= k <= 1000)%Z -> (k mod 10 <> 5)%Z ->
        Binary64.grade_point (Binary64.decimal k 10)
        = Binary64.nearest false (Binary64.tenths_half_even (k - 500)) 10)
  /\ Binary64.grade_point (Binary64.fz 60) = Binary64.fz 1
  /\ Binary64.grade_point (Binary64.fz 100) = Binary64.fz 5
  /\ Binary64.grade_point (Binary64.decimal 599 10) = Binary64.fz 0.
Proof.
  intros Hload.
  apply binary64_load_data_returns in Hload
    as (ns & gs & cs & _ & _ & _ & Hng & Hgc & Hne & Hcs & Hgs & ->).
  split.
  { unfold Binary64.calculate_course_gpa, Binary64.after_grades.
    cbn [Binary64.course_count Binary64.course_grades].
    replace (Nat.eqb (length ns) 0%nat) with false
      by (symmetry; apply Nat.eqb_neq; exact Hne).
    apply binary64_loop_grade_points.
    cbn [Binary64.course_names]. rewrite length_map.
    pose proof (converted_length gs). lia. }
  split.
  { intros z Hz. apply same_float_eq.
    apply (Z_range_all Binary64.whole_grade_row 0 101);
      [vm_compute; reflexivity | lia]. }
  split.
  { intros k Hk Hend.
    assert (Binary64.one_decimal_row k = true) as Hrow.
    { apply (Z_range_all Binary64.one_decimal_row 600 401);
        [vm_compute; reflexivity | lia]. }
    unfold Binary64.one_decimal_row in Hrow.
    apply Bool.orb_true_iff in Hrow as [Hrow | Hrow].
    - apply Z.eqb_eq in Hrow. contradiction.
    - apply same_float_eq. exact Hrow. }
  repeat split; vm_compute; reflexivity.
Qed.

Lemma course_gpa_binary64_witness :
  fst Binary64.example_courses = ([], Ok tt)
  /\ output (Binary64.calculate_course_gpa (snd Binary64.example_courses))
     = Ok [Binary64.decimal 45 10; Binary64.fz 0; Binary64.decimal 22 10].
Proof.
  assert (Binary64.example_courses
          = (([], Ok tt), snd Binary64.example_courses)) as E
    by (vm_compute; reflexivity).
  split; [vm_compute; reflexivity|].
  rewrite (proj1 (course_gpa_binary64 (fun _ => None) Binary64.sum_left
                    Binary64.init
                    _ _ _ [] (snd Binary64.example_courses) E)).
  vm_compute. reflexivity.
Defined.

(** ** C5: the weighted average *)

Lemma binary64_positive_not_zero (x : Binary64.float) :
  Binary64.fgt x (Binary64.fz 0) = true ->
  Binary64.feq x (Binary64.fz 0) = false.
Proof.
  destruct x as [s|s| |s m e]; try (destruct s); cbn; try discriminate;
    reflexivity.
Qed.

Lemma binary64_sum_weighted (xs ws : list Binary64.float) :
  forall acc,
    fold_left Binary64.fadd (Binary64.products xs ws) acc
    = Binary64.weighted_sum_from acc xs ws.
Proof.
  revert ws. induction xs as [|x xs IH]; intros ws acc; [reflexivity|].
  destruct ws as [|w ws]; [reflexivity|]. cbn. apply IH.
Qed.

(** C5, counterexample.  One course of grade 60 and credit 1.1 loads without
    a warning; the weighted average of one grade is that grade, 60, and
    [calculate_average_score] returns 59.99999999999999, the float next
    below 60: the product 60 * 1.1 is stored as 66.0.  Two courses of grade
    100 with the credits 0.1 and 0.7 load without a warning too; the
    weighted average of the numbers stored is exactly 100, and
    [calculate_average_score] returns 100.00000000000001, the float next
    above 100: the stored total is 0.7999999999999999 and the stored sum
    80.0. *)
Lemma average_score_not_exact :
  (fst Binary64.course_60 = ([], Ok tt)
   /\ Binary64.course_grades (snd Binary64.course_60) = [Binary64.fz 60]
   /\ Binary64.course_credits (snd Binary64.course_60)
      = [Binary64.decimal 11 10]
   /\ output (Binary64.calculate_average_score Binary64.sum_left
                (snd Binary64.course_60))
      = Ok (S754_finite false 8444249301319679 (-47))
   /\ Binary64.fz 60 = S754_finite false 8444249301319680 (-47)
   /\ (60 * Binary64.exact_value (Binary64.decimal 11 10)
       / Binary64.exact_value (Binary64.decimal 11 10) == 60)%Q)
  /\ fst Binary64.two_full_marks = ([], Ok tt)
  /\ Binary64.course_grades (snd Binary64.two_full_marks)
     = [Binary64.fz 100; Binary64.fz 100]
  /\ Binary64.course_credits (snd Binary64.two_full_marks)
     = [Binary64.decimal 1 10; Binary64.decimal 7 10]
  /\ Binary64.total_credits (snd Binary64.two_full_marks)
     = S754_finite false 7205759403792793 (-53)
  /\ output (Binary64.calculate_average_score Binary64.sum_left
               (snd Binary64.two_full_marks))
     = Ok (S754_finite false 7036874417766401 (-46))
  /\ Binary64.fz 100 = S754_finite false 7036874417766400 (-46)
  /\ Binary64.fgt (S754_finite false 7036874417766401 (-46)) (Binary64.fz 100)
     = true
  /\ ((100 * Binary64.exact_value (Binary64.decimal 1 10)
       + 100 * Binary64.exact_value (Binary64.decimal 7 10))
      / (Binary64.exact_value (Binary64.decimal 1 10)
         + Binary64.exact_value (Binary64.decimal 7 10)) == 100)%Q.
Proof.
  repeat split; vm_compute; reflexivity.
Qed.

(** C5, as amended.  After a successful load with a total of credits above
    0, [calculate_average_score] returns the binary64 quotient of the
    weighted sum by the total of credits.  The weighted sum is the builtin
    [sum] of the products adjusted grade times credit, each product rounded
    to binary64, in course order; the total is the builtin [sum] of the
    stored credits; the adjusted grade is 40 when the normalized grade is
    below 60 and the normalized grade otherwise.  Where [sum] adds from left
    to right, starting from 0, the weighted sum is
    [((0 + g1 * c1) + g2 * c2) + ...] and the total [((0 + c1) + c2) + ...],
    every product and every partial sum rounded to binary64. *)
Theorem average_score_binary64 (str_to_float : string -> option Binary64.float)
    (builtin_sum : list Binary64.float -> Binary64.float)
    (self : Binary64.GpaCalculator) (names grades credits : Binary64.pyarg)
    (l : list log_entry) (s : Binary64.GpaCalculator) :
  Binary64.load_data str_to_float builtin_sum self names grades credits
  = ((l, Ok tt), s) ->
  Binary64.fgt (Binary64.total_credits s) (Binary64.fz 0) = true ->
  Binary64.calculate_average_score builtin_sum s
  = ([], Ok (SFdiv Binary64.prec Binary64.emax
               (builtin_sum
                  (Binary64.products
                     (map Binary64.adjusted_grade (Binary64.course_grades s))
                     (Binary64.course_credits s)))
               (Binary64.total_credits s)))
  /\ Binary64.total_credits s = builtin_sum (Binary64.course_credits s)
  /\ length (Binary64.course_grades s) = length (Binary64.course_credits s)
  /\ (forall i g, Binary64.course_grades s !! i = Some g ->
        map Binary64.adjusted_grade (Binary64.course_grades s) !! i
        = Some (if SFltb g (Binary64.fz 60) then Binary64.fz 40 else g))
  /\ (forall i g c,
        Binary64.course_grades s !! i = Some g ->
        Binary64.course_credits s !! i = Some c ->
        Binary64.products
          (map Binary64.adjusted_grade (Binary64.course_grades s))
          (Binary64.course_credits s) !! i
        = Some (SFmul Binary64.prec Binary64.emax
                  (if SFltb g (Binary64.fz 60) then Binary64.fz 40 else g) c))
  /\ Binary64.sum_left
       (Binary64.products
          (map Binary64.adjusted_grade (Binary64.course_grades s))
          (Binary64.course_credits s))
     = Binary64.weighted_sum
         (map Binary64.adjusted_grade (Binary64.course_grades s))
         (Binary64.course_credits s)
  /\ Binary64.sum_left (Binary64.course_credits s)
     = fold_left (SFadd Binary64.prec Binary64.emax)
         (Binary64.course_credits s) (S754_zero false).
Proof.
  intros Hload Hpos.
  apply binary64_load_data_returns in Hload
    as (ns & gs & cs & _ & _ & _ & Hng & Hgc & Hne & Hcs & Hgs & ->).
  apply binary64_positive_not_zero in Hpos.
  split.
  { unfold Binary64.calculate_average_score, Binary64.fdiv.
    rewrite Hpos.
    replace (Nat.eqb (Binary64.course_count
                        (Binary64.after_grades str_to_float builtin_sum
                           ns gs cs)) 0%nat)
      with false by (symmetry; apply Nat.eqb_neq; exact Hne).
    reflexivity. }
  split; [reflexivity|].
  split.
  { cbn [Binary64.after_grades Binary64.course_grades Binary64.course_credits].
    rewrite !length_map, (converted_all cs Hcs), (converted_all gs Hgs).
    exact Hgc. }
  split.
  { intros i g Hi. rewrite list_lookup_fmap.
    transitivity (Binary64.adjusted_grade <$> Some g); [|reflexivity].
    f_equal. exact Hi. }
  split.
  { intros i g c Hg Hc. unfold Binary64.products.
    apply lookup_zip_with_Some. exists (Binary64.adjusted_grade g), c.
    split; [reflexivity|]. split; [|exact Hc].
    rewrite list_lookup_fmap.
    transitivity (Binary64.adjusted_grade <$> Some g); [|reflexivity].
    f_equal. exact Hg. }
  split; [apply binary64_sum_weighted|reflexivity].
Qed.

Lemma average_score_binary64_witness :
  fst Binary64.example_courses = ([], Ok tt)
  /\ Binary64.fgt (Binary64.total_credits (snd Binary64.example_courses))
       (Binary64.fz 0) = true
  /\ Binary64.calculate_average_score Binary64.sum_left
       (snd Binary64.example_courses)
     = ([], Ok (Binary64.decimal 676 9)).
Proof.
  assert (Binary64.example_courses
          = (([], Ok tt), snd Binary64.example_courses)) as E
    by (vm_compute; reflexivity).
  assert (Binary64.fgt (Binary64.total_credits (snd Binary64.example_courses))
            (Binary64.fz 0) = true) as P by (vm_compute; reflexivity).
  split; [vm_compute; reflexivity|]. split; [exact P|].
  rewrite (proj1 (average_score_binary64 (fun _ => None) Binary64.sum_left
                    Binary64.init
                    _ _ _ [] (snd Binary64.example_courses) E P)).
  vm_compute. reflexivity.
Defined.

(** ** [load_data]: arguments, overflow, stored values *)

Lemma converted_short (cells : list Binary64.pyval) :
  existsb Binary64.too_large cells = true ->
  (length (Binary64.converted cells) < length cells)%nat.
Proof.
  induction cells as [|c rest IH]; cbn; [discriminate|].
  destruct (Binary64.too_large c); cbn; [lia|].
  intros H. specialize (IH H). lia.
Qed.

Section BinaryLoadOutcomes.

Variable str_to_float : string -> option Binary64.float.
Variable builtin_sum : list Binary64.float -> Binary64.float.

Lemma binary64_load_data_rejected (self : Binary64.GpaCalculator)
    (names grades credits : Binary64.pyarg) :
  Binary64.is_list names && Binary64.is_list grades && Binary64.is_list credits
  = false
  \/ length (Binary64.arg_items names) <> length (Binary64.arg_items grades)
  \/ length (Binary64.arg_items grades) <> length (Binary64.arg_items credits)
  \/ length (Binary64.arg_items names) = 0%nat ->
  exists m,
    Binary64.load_data str_to_float builtin_sum self names grades credits
    = (([], Raise (Exn (if Binary64.is_list names && Binary64.is_list grades
                           && Binary64.is_list credits
                        then ValueError else TypeError) m)), self).
Proof.
  intros H. unfold Binary64.load_data.
  destruct (Binary64.is_list names && Binary64.is_list grades
            && Binary64.is_list credits); cbn [negb];
    [|eexists; reflexivity].
  destruct H as [H | H]; [discriminate|].
  destruct (Nat.eqb (length (Binary64.arg_items names))
              (length (Binary64.arg_items grades))) eqn:E1;
    [|eexists; reflexivity].
  destruct (Nat.eqb (length (Binary64.arg_items grades))
              (length (Binary64.arg_items credits))) eqn:E2;
    [|eexists; reflexivity].
  destruct (Nat.eqb (length (Binary64.arg_items names)) 0%nat) eqn:E3;
    [eexists; reflexivity|].
  apply Nat.eqb_eq in E1, E2. apply Nat.eqb_neq in E3. exfalso.
  destruct H as [H | [H | H]]; contradiction.
Qed.

Ltac binary64_outcome_cases :=
  cbn [fst snd output is_ok];
  repeat split; intros;
  repeat match goal with
         | H : _ /\ _ |- _ => destruct H
         | H : _ \/ _ |- _ => destruct H
         | H : raises _ _ |- _ => destruct H as [? H]; try discriminate H
         end;
  try discriminate; try congruence; try tauto; try lia;
  try (eexists; reflexivity).

(** X1.  [load_data] raises TypeError exactly when an argument is not a
    list, and ValueError exactly when the three are lists whose lengths
    differ or are 0; in both cases the calculator is left as it was.  For
    lists of one length that is not 0 it raises OverflowError exactly when a
    credit or a grade is an [int] beyond the range of [float], and returns
    otherwise.  The OverflowError is not caught by the loops: it leaves the
    new names and count, the credits converted before the cell that is too
    large, and, when that cell is a credit, the grades and the total of the
    load before. *)
Theorem load_data_outcomes_binary64 (self : Binary64.GpaCalculator)
    (names grades credits : Binary64.pyarg) :
  (raises (output (fst (Binary64.load_data str_to_float builtin_sum self
                          names grades credits))) TypeError
   <-> Binary64.is_list names && Binary64.is_list grades
       && Binary64.is_list credits = false)
  /\ (raises (output (fst (Binary64.load_data str_to_float builtin_sum self
                             names grades credits))) ValueError
      <-> Binary64.is_list names && Binary64.is_list grades
          && Binary64.is_list credits = true
          /\ (length (Binary64.arg_items names)
              <> length (Binary64.arg_items grades)
              \/ length (Binary64.arg_items grades)
                 <> length (Binary64.arg_items credits)
              \/ length (Binary64.arg_items names) = 0%nat))
  /\ (raises (output (fst (Binary64.load_data str_to_float builtin_sum self
                             names grades credits))) OverflowError
      <-> Binary64.is_list names && Binary64.is_list grades
          && Binary64.is_list credits = true
          /\ length (Binary64.arg_items names)
             = length (Binary64.arg_items grades)
          /\ length (Binary64.arg_items grades)
             = length (Binary64.arg_items credits)
          /\ length (Binary64.arg_items names) <> 0%nat
          /\ existsb Binary64.too_large
               (Binary64.arg_items credits ++ Binary64.arg_items grades)
             = true)
  /\ (is_ok (output (fst (Binary64.load_data str_to_float builtin_sum self
                            names grades credits))) = true
      <-> Binary64.is_list names && Binary64.is_list grades
          && Binary64.is_list credits = true
          /\ length (Binary64.arg_items names)
             = length (Binary64.arg_items grades)
          /\ length (Binary64.arg_items grades)
             = length (Binary64.arg_items credits)
          /\ length (Binary64.arg_items names) <> 0%nat
          /\ existsb Binary64.too_large
               (Binary64.arg_items credits ++ Binary64.arg_items grades)
             = false)
  /\ (raises (output (fst (Binary64.load_data str_to_float builtin_sum self
                             names grades credits))) TypeError
      \/ raises (output (fst (Binary64.load_data str_to_float builtin_sum self
                                names grades credits))) ValueError ->
      snd (Binary64.load_data str_to_float builtin_sum self names grades
             credits) = self)
  /\ (raises (output (fst (Binary64.load_data str_to_float builtin_sum self
                             names grades credits))) OverflowError ->
      let after :=
        snd (Binary64.load_data str_to_float builtin_sum self names grades
               credits) in
      Binary64.course_names after = Binary64.arg_items names
      /\ Binary64.course_count after = length (Binary64.arg_items names)
      /\ Binary64.course_credits after
         = map (Binary64.normalize_credit str_to_float)
             (Binary64.converted (Binary64.arg_items credits))
      /\ (existsb Binary64.too_large (Binary64.arg_items credits) = true ->
          Binary64.course_grades after = Binary64.course_grades self
          /\ Binary64.total_credits after = Binary64.total_credits self
          /\ (length (Binary64.course_credits after)
              < Binary64.course_count after)%nat)
      /\ (existsb Binary64.too_large (Binary64.arg_items credits) = false ->
          Binary64.course_grades after
          = map (Binary64.normalize_grade str_to_float)
              (Binary64.converted (Binary64.arg_items grades))
          /\ Binary64.total_credits after
             = builtin_sum (Binary64.course_credits after)
          /\ (length (Binary64.course_grades after)
              < Binary64.course_count after)%nat)).
Proof.
  destruct (Binary64.is_list names && Binary64.is_list grades
            && Binary64.is_list credits) eqn:Hlists.
  - destruct names as [ns|], grades as [gs|], credits as [cs|];
      try discriminate.
    cbn [Binary64.arg_items].
    destruct (Nat.eq_dec (length ns) (length gs)) as [E1|E1];
      [destruct (Nat.eq_dec (length gs) (length cs)) as [E2|E2];
       [destruct (Nat.eq_dec (length ns) 0%nat) as [E3|E3]|]|].
    + destruct (binary64_load_data_rejected self (Binary64.AList ns)
                  (Binary64.AList gs) (Binary64.AList cs)) as [m ->];
        [cbn [Binary64.arg_items]; tauto|].
      rewrite Hlists. binary64_outcome_cases.
    + rewrite binary64_load_data_computed by assumption.
      rewrite existsb_app.
      destruct (existsb Binary64.too_large cs) eqn:Hcs;
        [|destruct (existsb Binary64.too_large gs) eqn:Hgs];
        cbn [orb fst snd output is_ok Binary64.after_credits
               Binary64.after_grades Binary64.course_names
               Binary64.course_count Binary64.course_credits
               Binary64.course_grades Binary64.total_credits].
      * pose proof (converted_short cs Hcs).
        binary64_outcome_cases;
          try (rewrite length_map; lia);
          try (eexists; reflexivity).
      * pose proof (converted_short gs Hgs).
        rewrite (converted_all cs Hcs).
        binary64_outcome_cases;
          try (rewrite length_map; lia);
          try (eexists; reflexivity).
      * binary64_outcome_cases.
    + destruct (binary64_load_data_rejected self (Binary64.AList ns)
                  (Binary64.AList gs) (Binary64.AList cs)) as [m ->];
        [cbn [Binary64.arg_items]; tauto|].
      rewrite Hlists. binary64_outcome_cases.
    + destruct (binary64_load_data_rejected self (Binary64.AList ns)
                  (Binary64.AList gs) (Binary64.AList cs)) as [m ->];
        [cbn [Binary64.arg_items]; tauto|].
      rewrite Hlists. binary64_outcome_cases.
  - destruct (binary64_load_data_rejected self names grades credits)
      as [m ->]; [tauto|].
    rewrite Hlists. binary64_outcome_cases.
Qed.

(** X2.  For three lists of one length that is not 0 in which no cell is an
    [int] beyond the range of [float], [load_data] returns and stores the
    names as given, the grades and credits normalized cell by cell, the
    count and the sum of the stored credits; its log is the credit warnings
    in course order, the zero-total warning when the total is 0, then the
    grade warnings in course order. *)
Theorem load_data_result_binary64 (self : Binary64.GpaCalculator)
    (names grades credits : list Binary64.pyval) :
  length names = length grades -> length grades = length credits ->
  length names <> 0%nat ->
  existsb Binary64.too_large credits = false ->
  existsb Binary64.too_large grades = false ->
  exists cs gs,
    cs = map (Binary64.normalize_credit str_to_float) credits
    /\ gs = map (Binary64.normalize_grade str_to_float) grades
    /\ Binary64.load_data str_to_float builtin_sum self (Binary64.AList names)
         (Binary64.AList grades) (Binary64.AList credits)
       = ((concat (imap (Binary64.credit_warnings str_to_float) credits)
             ++ (if Binary64.feq (builtin_sum cs) (Binary64.fz 0)
                 then [WarnTotalCreditsZero] else [])
             ++ concat (imap (Binary64.grade_warnings str_to_float) grades),
           Ok tt),
          {| Binary64.course_names := names;
             Binary64.course_grades := gs;
             Binary64.course_credits := cs;
             Binary64.course_count := length names;
             Binary64.total_credits := builtin_sum cs |})
    /\ length cs = length names /\ length gs = length names.
Proof.
  intros Hng Hgc Hne Hcs Hgs. eexists _, _.
  split; [reflexivity|]. split; [reflexivity|].
  split.
  - rewrite binary64_load_data_computed by assumption.
    rewrite Hcs, Hgs. unfold Binary64.after_grades.
    rewrite (converted_all credits Hcs), (converted_all grades Hgs).
    reflexivity.
  - rewrite !length_map. split; congruence.
Qed.

End BinaryLoadOutcomes.

Lemma load_data_outcomes_binary64_witness :
  raises (output (fst Binary64.huge_credit)) OverflowError
  /\ Binary64.course_names (snd Binary64.huge_credit)
     = [Binary64.VStr "A"; Binary64.VStr "B"]
  /\ Binary64.course_count (snd Binary64.huge_credit) = 2%nat
  /\ Binary64.course_credits (snd Binary64.huge_credit) = [Binary64.fz 3]
  /\ Binary64.course_grades (snd Binary64.huge_credit)
     = [Binary64.fz 95; Binary64.fz 0; Binary64.fz 72]
  /\ Binary64.total_credits (snd Binary64.huge_credit) = Binary64.fz 9.
Proof.
  pose proof (load_data_outcomes_binary64 (fun _ => None) Binary64.sum_left
                (snd Binary64.example_courses)
                (Binary64.AList [Binary64.VStr "A"; Binary64.VStr "B"])
                (Binary64.AList [Binary64.VInt 90; Binary64.VInt 80])
                (Binary64.AList [Binary64.VInt 3; Binary64.VInt (10 ^ 400)]))
    as (_ & _ & Hover & _ & _ & _).
  split.
  - apply Hover. vm_compute. repeat split; discriminate.
  - vm_compute. repeat split; reflexivity.
Defined.

Lemma load_data_result_binary64_witness :
  fst Binary64.example_courses = ([], Ok tt)
  /\ Binary64.course_grades (snd Binary64.example_courses)
     = [Binary64.fz 95; Binary64.fz 0; Binary64.fz 72]
  /\ Binary64.total_credits (snd Binary64.example_courses) = Binary64.fz 9.
Proof.
  destruct (load_data_result_binary64 (fun _ => None) Binary64.sum_left
              Binary64.init
              [Binary64.VStr "Math"; Binary64.VStr "PE"; Binary64.VStr "English"]
              [Binary64.VInt 95; Binary64.VStr "不及格"; Binary64.VInt 72]
              [Binary64.VInt 4; Binary64.VInt 2; Binary64.VInt 3]
              eq_refl eq_refl ltac:(discriminate) eq_refl eq_refl)
    as (cs & gs & -> & -> & H & _).
  unfold Binary64.example_courses. rewrite H.
  vm_compute. repeat split; reflexivity.
Defined.

(** ** The three metrics on a loaded calculator *)

Lemma output_bind_ok {A B} (m : M A) (k : A -> M B) (a : A) :
  output m = Ok a -> output (bind m k) = output (k a).
Proof.
  destruct m as [l r]. cbn. intros ->. cbn. destruct (k a). reflexivity.
Qed.

Lemma output_catch_ok {A} (m : M A) (caught : exn_kind -> bool)
    (h : exn -> M A) (a : A) :
  output m = Ok a -> output (catch m caught h) = Ok a.
Proof.
  destruct m as [l r]. cbn. intros ->. reflexivity.
Qed.

Lemma binary64_course_gpa_loaded (s : Binary64.GpaCalculator) :
  Binary64.course_count s <> 0%nat ->
  (length (Binary64.course_grades s) <= length (Binary64.course_names s))%nat ->
  output (Binary64.calculate_course_gpa s)
  = Ok (map Binary64.grade_point (Binary64.course_grades s)).
Proof.
  intros Hc Hlen. unfold Binary64.calculate_course_gpa.
  replace (Nat.eqb (Binary64.course_count s) 0%nat) with false
    by (symmetry; apply Nat.eqb_neq; exact Hc).
  apply binary64_loop_grade_points. lia.
Qed.

Section BinaryMetrics.

Variable str_to_float : string -> option Binary64.float.
Variable builtin_sum : list Binary64.float -> Binary64.float.

Lemma binary64_average_score_loaded (s : Binary64.GpaCalculator) :
  Binary64.course_count s <> 0%nat ->
  Binary64.calculate_average_score builtin_sum s
  = if Binary64.feq (Binary64.total_credits s) (Binary64.fz 0)
    then raise (Exn ValueError "总学分为0，无法计算平均学分绩")
    else ([], Ok (Binary64.average_score_value builtin_sum s)).
Proof.
  intros Hc. unfold Binary64.calculate_average_score, Binary64.fdiv.
  replace (Nat.eqb (Binary64.course_count s) 0%nat) with false
    by (symmetry; apply Nat.eqb_neq; exact Hc).
  destruct (Binary64.feq (Binary64.total_credits s) (Binary64.fz 0));
    reflexivity.
Qed.

Lemma binary64_overall_gpa_loaded (s : Binary64.GpaCalculator) :
  Binary64.course_count s <> 0%nat ->
  (length (Binary64.course_grades s) <= length (Binary64.course_names s))%nat ->
  output (Binary64.calculate_overall_gpa builtin_sum s)
  = if Binary64.feq (Binary64.total_credits s) (Binary64.fz 0)
    then Raise (Exn ValueError "总学分为0，无法计算平均学分绩点")
    else Ok (Binary64.overall_gpa_value builtin_sum s).
Proof.
  intros Hc Hlen. unfold Binary64.calculate_overall_gpa.
  replace (Nat.eqb (Binary64.course_count s) 0%nat) with false
    by (symmetry; apply Nat.eqb_neq; exact Hc).
  destruct (Binary64.feq (Binary64.total_credits s) (Binary64.fz 0)) eqn:Ht;
    [reflexivity|].
  apply output_catch_ok.
  rewrite (output_bind_ok _ _ _ (binary64_course_gpa_loaded s Hc Hlen)).
  unfold Binary64.fdiv. rewrite Ht.
  unfold Binary64.overall_gpa_value, Binary64.flt, Binary64.fgt, lift.
  change (zip_with Binary64.fmul
            (map Binary64.grade_point (Binary64.course_grades s))
            (Binary64.course_credits s))
    with (Binary64.products
            (map Binary64.grade_point (Binary64.course_grades s))
            (Binary64.course_credits s)).
  cbn [bind].
  match goal with |- context [SFltb ?v (Binary64.fz 0)] =>
    destruct (SFltb v (Binary64.fz 0));
    [|destruct (SFltb (Binary64.fz 5) v)]
  end; reflexivity.
Qed.

Lemma after_grades_loaded (ns gs cs : list Binary64.pyval) :
  length ns = length gs -> length ns <> 0%nat ->
  Binary64.course_count (Binary64.after_grades str_to_float builtin_sum ns gs cs) <> 0%nat
  /\ (length (Binary64.course_grades
                (Binary64.after_grades str_to_float builtin_sum ns gs cs))
      <= length (Binary64.course_names
                   (Binary64.after_grades str_to_float builtin_sum ns gs cs)))%nat.
Proof.
  intros Hng Hne. cbn. split; [exact Hne|].
  rewrite length_map. pose proof (converted_length gs). lia.
Qed.

(** ** The console results *)

(** X19.  After a successful load the console prints, in this order: the
    average score or the reason it cannot be computed, the title and one
    grade-point line per course, the overall GPA or the reason it cannot be
    computed.  The course lines are printed whatever the credits are; the
    two averages are replaced by their reasons exactly when the stored
    total of credits is 0; otherwise the average score is printed as the
    binary64 quotient rounded to two decimals and the overall GPA as
    [calculate_overall_gpa] returns it; the line of the outer [except] is
    never printed. *)
Theorem console_results_binary64
    (self : Binary64.GpaCalculator) (names grades credits : Binary64.pyarg)
    (l : list log_entry) (s : Binary64.GpaCalculator) :
  Binary64.load_data str_to_float builtin_sum self names grades credits
  = ((l, Ok tt), s) ->
  exists average overall,
    output (Binary64._calculate_and_display_results builtin_sum s)
    = Ok (average
            ++ Binary64.PrintCourseGpaTitle
               :: zip_with Binary64.PrintCourseGpa (Binary64.course_names s)
                    (map Binary64.grade_point (Binary64.course_grades s))
            ++ overall)
    /\ length (zip_with Binary64.PrintCourseGpa (Binary64.course_names s)
                 (map Binary64.grade_point (Binary64.course_grades s)))
       = Binary64.course_count s
    /\ (Binary64.feq (Binary64.total_credits s) (Binary64.fz 0) = true ->
          average
          = [Binary64.PrintAverageScoreFailed "总学分为0，无法计算平均学分绩"]
          /\ overall
             = [Binary64.PrintOverallGpaFailed "总学分为0，无法计算平均学分绩点"])
    /\ (Binary64.feq (Binary64.total_credits s) (Binary64.fz 0) = false ->
          average
          = [Binary64.PrintAverageScore
               (Binary64.py_format_2f
                  (Binary64.average_score_value builtin_sum s))]
          /\ overall
             = [Binary64.PrintOverallGpa
                  (Binary64.overall_gpa_value builtin_sum s)]
          /\ output (Binary64.calculate_average_score builtin_sum s)
             = Ok (Binary64.average_score_value builtin_sum s)
          /\ output (Binary64.calculate_overall_gpa builtin_sum s)
             = Ok (Binary64.overall_gpa_value builtin_sum s)).
Proof.
  intros Hload.
  apply binary64_load_data_returns in Hload
    as (ns & gs & cs & _ & _ & _ & Hng & Hgc & Hne & Hcs & Hgs & ->).
  destruct (after_grades_loaded ns gs cs Hng Hne) as [Hc Hlen].
  pose proof (binary64_course_gpa_loaded _ Hc Hlen) as Hgpa.
  pose proof (binary64_average_score_loaded _ Hc) as Havg.
  pose proof (binary64_overall_gpa_loaded _ Hc Hlen) as Hall.
  set (s := Binary64.after_grades str_to_float builtin_sum ns gs cs) in *.
  assert (length (zip_with Binary64.PrintCourseGpa (Binary64.course_names s)
                    (map Binary64.grade_point (Binary64.course_grades s)))
          = Binary64.course_count s) as Hlines.
  { rewrite zip_with_length_eq; [reflexivity|].
    subst s. cbn. rewrite !length_map, (converted_all gs Hgs). exact Hng. }
  unfold Binary64._calculate_and_display_results,
    Binary64.show_average_score, Binary64.show_course_gpa,
    Binary64.show_overall_gpa.
  destruct (Binary64.calculate_course_gpa s) as [lg rg].
  destruct (Binary64.calculate_overall_gpa builtin_sum s) as [lo ro].
  unfold output in Hgpa, Hall. cbn [snd] in Hgpa, Hall. subst rg ro.
  rewrite Havg.
  destruct (Binary64.feq (Binary64.total_credits s) (Binary64.fz 0)) eqn:Ht.
  - exists [Binary64.PrintAverageScoreFailed "总学分为0，无法计算平均学分绩"],
           [Binary64.PrintOverallGpaFailed "总学分为0，无法计算平均学分绩点"].
    split; [cbn; rewrite ?app_nil_r; reflexivity|]. split; [exact Hlines|].
    split; [intros _; split; reflexivity | discriminate].
  - exists [Binary64.PrintAverageScore
              (Binary64.py_format_2f
                 (Binary64.average_score_value builtin_sum s))],
           [Binary64.PrintOverallGpa
              (Binary64.overall_gpa_value builtin_sum s)].
    split; [cbn; rewrite ?app_nil_r; reflexivity|]. split; [exact Hlines|].
    split; [discriminate|]. intros _. repeat split.
Qed.

End BinaryMetrics.

Lemma console_results_binary64_witness :
  fst Binary64.two_courses = ([], Ok tt)
  /\ output (Binary64._calculate_and_display_results Binary64.sum_left
               (snd Binary64.two_courses))
     = Ok [ Binary64.PrintAverageScore (Binary64.decimal 6683 100);
            Binary64.PrintCourseGpaTitle;
            Binary64.PrintCourseGpa (Binary64.VStr "A") (Binary64.fz 1);
            Binary64.PrintCourseGpa (Binary64.VStr "B")
              (Binary64.decimal 17 10);
            Binary64.PrintOverallGpa (Binary64.decimal 17 10) ].
Proof.
  assert (Binary64.two_courses = (([], Ok tt), snd Binary64.two_courses)) as E
    by (vm_compute; reflexivity).
  split; [vm_compute; reflexivity|].
  destruct (console_results_binary64 (fun _ => None) Binary64.sum_left
              Binary64.init
              _ _ _ [] (snd Binary64.two_courses) E)
    as (average & overall & -> & _ & _ & Hshown).
  destruct Hshown as (-> & -> & _); vm_compute; reflexivity.
Defined.

(** ** The loader *)

Lemma binary64_iloc_ok (df : Binary64.DataFrame) (i j : nat) (l : list log_entry) (c : Binary64.pyval) :
  Binary64.iloc df i j = (l, Ok c) -> l = [] /\ Binary64.cell df i j = c.
Proof.
  unfold Binary64.iloc, Binary64.cell.
  destruct (Binary64.rows df !! i) as [r|]; [destruct (r !! j)|]; cbn;
    intros [= <- <-] || discriminate; split; reflexivity.
Qed.

Section BinaryLoaderResult.

Variable str_of : Binary64.pyval -> string.
Variable df : Binary64.DataFrame.

Lemma binary64_scan_rows_ok (range : list nat) :
  forall l valid,
    Binary64.scan_rows str_of df range = (l, Ok valid) ->
    valid = List.filter (Binary64.row_valid str_of df) range.
Proof.
  induction range as [|i rest IH]; intros l valid H.
  - cbn in H. injection H as <- <-. reflexivity.
  - cbn [Binary64.scan_rows] in H.
    apply bind_ok in H as (l1 & name & l2 & Hname & H & ->).
    apply binary64_iloc_ok in Hname as [-> Hname].
    apply bind_ok in H as (l3 & found & l4 & Hfound & H & ->).
    apply bind_ok in H as (l5 & more & l6 & Hmore & H & ->).
    injection H as <- <-.
    rewrite (IH _ _ Hmore).
    cbn [List.filter]. unfold Binary64.row_valid at 2 4. rewrite Hname.
    destruct (Binary64.notna name && nonempty (strip (Binary64.py_str str_of name))).
    + apply bind_ok in Hfound as (l7 & grade & l8 & Hg & Hfound & ->).
      apply binary64_iloc_ok in Hg as [-> Hg].
      apply bind_ok in Hfound as (lg & [] & l9 & Hlg & Hfound & ->).
      apply bind_ok in Hfound as (l10 & credit & l11 & Hc & Hfound & ->).
      apply binary64_iloc_ok in Hc as [-> Hc].
      apply bind_ok in Hfound as (lc & [] & l12 & Hlc & Hfound & ->).
      injection Hfound as <- <-.
      reflexivity.
    + injection Hfound as <- <-. reflexivity.
Qed.

Lemma binary64_extract_rows_ok (valid : list nat) :
  forall l names grades credits,
    Binary64.extract_rows str_of df valid = (l, Ok (names, grades, credits)) ->
    l = []
    /\ names = map (Binary64.row_name str_of df) valid
    /\ grades = map (Binary64.row_grade df) valid
    /\ credits = map (Binary64.row_credit df) valid.
Proof.
  induction valid as [|i rest IH]; intros l names grades credits H.
  - cbn in H. injection H as <- <- <- <-. repeat split.
  - cbn [Binary64.extract_rows] in H.
    apply bind_ok in H as (l1 & c & l2 & Hc & H & ->).
    apply binary64_iloc_ok in Hc as [-> Hc].
    apply bind_ok in H as (l3 & grade & l4 & Hg & H & ->).
    apply binary64_iloc_ok in Hg as [-> Hg].
    apply bind_ok in H as (l5 & credit & l6 & Hcr & H & ->).
    apply binary64_iloc_ok in Hcr as [-> Hcr].
    apply bind_ok in H as (l7 & [[ns gs] cs] & l8 & Hmore & H & ->).
    injection H as <- <- <- <-.
    destruct (IH _ _ _ _ Hmore) as (-> & -> & -> & ->).
    cbn [map]. unfold Binary64.row_name at 2, Binary64.row_grade at 2, Binary64.row_credit at 2.
    rewrite Hc, Hg, Hcr. repeat split.
Qed.

Variable env : Binary64.os_env.

Lemma binary64_load_from_frame_ok (path : string) (l : list log_entry) (n : nat)
    (names : list string) (grades credits : list Binary64.pyval) :
  Binary64.load_from_frame str_of env path = (l, Ok (n, names, grades, credits)) ->
  Binary64.read_excel env path = Ok df ->
  (4 <= Binary64.columns df)%nat /\ (1 < Binary64.shape0 df)%nat
  /\ Binary64.valid_rows str_of df <> []
  /\ n = length (Binary64.valid_rows str_of df)
  /\ names = map (Binary64.row_name str_of df) (Binary64.valid_rows str_of df)
  /\ grades = map (Binary64.row_grade df) (Binary64.valid_rows str_of df)
  /\ credits = map (Binary64.row_credit df) (Binary64.valid_rows str_of df).
Proof.
  intros H Hread. unfold Binary64.load_from_frame in H. rewrite Hread in H.
  change (lift (Ok df)) with (ret df) in H. rewrite bind_ret in H.
  destruct (Binary64.df_empty df); [discriminate|].
  destruct (Nat.ltb _ _) eqn:Hcols in H; [discriminate|].
  destruct (Nat.leb _ _) eqn:Hrows in H; [discriminate|].
  apply Nat.ltb_ge in Hcols. apply Nat.leb_gt in Hrows.
  cbn in Hcols, Hrows. unfold Binary64.shape1 in Hcols.
  apply bind_ok in H as (l1 & valid & l2 & Hscan & H & ->).
  apply binary64_scan_rows_ok in Hscan as Hvalid.
  fold (Binary64.data_rows df) in Hvalid. fold (Binary64.valid_rows str_of df) in Hvalid.
  subst valid.
  destruct (Nat.eqb (length (Binary64.valid_rows str_of df)) 0) eqn:Hlen;
    [discriminate|].
  apply Nat.eqb_neq in Hlen.
  apply bind_ok in H as (l3 & [] & l4 & Hlog & H & ->).
  injection Hlog as <-.
  apply bind_ok in H as (l5 & [[ns gs] cs] & l6 & Hex & H & ->).
  apply binary64_extract_rows_ok in Hex as (-> & -> & -> & ->).
  apply bind_ok in H as (l7 & [] & l8 & Hlog & H & ->).
  injection Hlog as <-. injection H as <- <- <- <- <-.
  rewrite !length_map.
  split; [lia|]. split; [lia|].
  split; [intros E; rewrite E in Hlen; contradiction|].
  repeat split.
Qed.

(** What a call that returns has read: the file exists, [Binary64.read_excel]
    returned a frame, and the output is the list of its valid Binary64.rows. *)
Lemma binary64_load_from_excel_ok (path : Binary64.pyval) (l : list log_entry) (n : nat)
    (names : list string) (grades credits : list Binary64.pyval) :
  Binary64.load_from_excel str_of env path = (l, Ok (n, names, grades, credits)) ->
  exists p,
    path = Binary64.VStr p /\ Binary64.path_exists env p = true
    /\ Binary64.load_from_frame str_of env p = (l, Ok (n, names, grades, credits)).
Proof.
  unfold Binary64.load_from_excel. destruct path as [| | | |p|]; try discriminate.
  destruct (Binary64.path_exists env p) eqn:Hexists; [|discriminate]. cbn [negb].
  destruct (negb _); [discriminate|].
  destruct (Binary64.load_from_frame str_of env p) as [l' [a|e]] eqn:E.
  - unfold try_except. intros [= <- <-]. exists p.
    repeat split; assumption.
  - unfold try_except. cbn [select_handler].
    destruct (is_kind EmptyDataError (kind e)); [discriminate|].
    destruct (is_kind ParserError (kind e)); discriminate.
Qed.

End BinaryLoaderResult.

Lemma binary64_valid_rows_named (str_of : Binary64.pyval -> string) (df : Binary64.DataFrame) :
  Forall (fun name => name <> "")
         (map (Binary64.row_name str_of df) (Binary64.valid_rows str_of df)).
Proof.
  apply Forall_fmap, List.Forall_forall. intros i Hi.
  apply List.filter_In in Hi as [_ Hi]. unfold Binary64.row_valid in Hi.
  apply andb_prop in Hi as [_ Hi]. cbn. unfold Binary64.row_name.
  destruct (strip _); [discriminate | discriminate].
Qed.

(** ** From the sheet to the calculator *)

Section BinaryWindow.

Variable str_of : Binary64.pyval -> string.
Variable str_to_float : string -> option Binary64.float.
Variable builtin_sum : list Binary64.float -> Binary64.float.
Variable env : Binary64.os_env.

Lemma binary64_load_from_excel_lengths (path : Binary64.pyval) (n : nat) (names : list string)
    (grades credits : list Binary64.pyval) :
  output (Binary64.load_from_excel str_of env path) = Ok (n, names, grades, credits) ->
  length names = n /\ length grades = n /\ length credits = n
  /\ n <> 0%nat.
Proof.
  intros H.
  destruct (Binary64.load_from_excel str_of env path) as [l r] eqn:E. cbn in H.
  subst r. apply binary64_load_from_excel_ok in E as (p & -> & Hex & E).
  destruct (Binary64.read_excel env p) as [df|e] eqn:Hread;
    [|unfold Binary64.load_from_frame in E; rewrite Hread in E; discriminate].
  destruct (binary64_load_from_frame_ok str_of df env p _ _ _ _ _ E Hread)
    as (_ & _ & Hne & Hn & Hnames & Hgrades & Hcredits).
  subst n names grades credits. rewrite !length_map.
  repeat split. destruct (Binary64.valid_rows str_of df);
    [contradiction | discriminate].
Qed.

(** What a call of [Binary64.load_file] that opens no message box has done. *)
Lemma binary64_load_file_ok (w0 w : Binary64.MainWindow) (path : string) :
  Binary64.load_file str_of env w0 path = (w, []) ->
  exists n names grades credits,
    output (Binary64.load_from_excel str_of env (Binary64.VStr path))
    = Ok (n, names, grades, credits)
    /\ w = Binary64.set_calculate_button (Binary64.set_courses w0 n names grades credits) true
    /\ length names = n /\ length grades = n /\ length credits = n
    /\ n <> 0%nat.
Proof.
  unfold Binary64.load_file.
  destruct (output (Binary64.load_from_excel str_of env (Binary64.VStr path)))
    as [[[[n names] grades] credits] | e] eqn:E; [|discriminate].
  destruct (binary64_load_from_excel_lengths _ _ _ _ _ E) as (H1 & H2 & H3 & H4).
  rewrite table_items_ok by (apply seq_below; lia).
  cbn. intros [= <-]. exists n, names, grades, credits. repeat split;
    assumption.
Qed.

(** X11.  What [load_from_excel] returns passes the checks of [load_data]:
    the count is the length of each of the three sequences and is not 0,
    and no name is empty, so [load_data] raises neither TypeError nor
    ValueError on them and the calculator gets the names and the count.
    When no grade and no credit cell holds an [int] beyond the range of
    [float], [load_data] returns, and then [calculate_course_gpa] returns
    one grade point per course; otherwise [load_data] raises
    OverflowError. *)
Theorem loader_output_loads_binary64 (path : Binary64.pyval)
    (self : Binary64.GpaCalculator) (n : nat) (names : list string)
    (grades credits : list Binary64.pyval) :
  output (Binary64.load_from_excel str_of env path)
  = Ok (n, names, grades, credits) ->
  length names = n /\ length grades = n /\ length credits = n /\ (0 < n)%nat
  /\ Forall (fun name => name <> "") names
  /\ ~ raises (output (fst (Binary64.load_data str_to_float builtin_sum self
                              (Binary64.AList (map Binary64.VStr names))
                              (Binary64.AList grades)
                              (Binary64.AList credits)))) TypeError
  /\ ~ raises (output (fst (Binary64.load_data str_to_float builtin_sum self
                              (Binary64.AList (map Binary64.VStr names))
                              (Binary64.AList grades)
                              (Binary64.AList credits)))) ValueError
  /\ Binary64.course_count
       (snd (Binary64.load_data str_to_float builtin_sum self
               (Binary64.AList (map Binary64.VStr names))
               (Binary64.AList grades) (Binary64.AList credits))) = n
  /\ Binary64.course_names
       (snd (Binary64.load_data str_to_float builtin_sum self
               (Binary64.AList (map Binary64.VStr names))
               (Binary64.AList grades) (Binary64.AList credits)))
     = map Binary64.VStr names
  /\ (existsb Binary64.too_large (credits ++ grades) = true ->
      raises (output (fst (Binary64.load_data str_to_float builtin_sum self
                             (Binary64.AList (map Binary64.VStr names))
                             (Binary64.AList grades)
                             (Binary64.AList credits)))) OverflowError)
  /\ (existsb Binary64.too_large (credits ++ grades) = false ->
      output (fst (Binary64.load_data str_to_float builtin_sum self
                     (Binary64.AList (map Binary64.VStr names))
                     (Binary64.AList grades) (Binary64.AList credits)))
      = Ok tt
      /\ exists gpas,
           output (Binary64.calculate_course_gpa
                     (snd (Binary64.load_data str_to_float builtin_sum self
                             (Binary64.AList (map Binary64.VStr names))
                             (Binary64.AList grades)
                             (Binary64.AList credits)))) = Ok gpas
           /\ length gpas = n).
Proof.
  intros H.
  assert (Forall (fun name => name <> "") names) as Hnamed.
  { destruct (Binary64.load_from_excel str_of env path) as [l r] eqn:E.
    cbn in H. subst r.
    apply binary64_load_from_excel_ok in E as (p & -> & Hex & E).
    destruct (Binary64.read_excel env p) as [df|e] eqn:Hread;
      [|unfold Binary64.load_from_frame in E; rewrite Hread in E;
        discriminate].
    destruct (binary64_load_from_frame_ok str_of df env p _ _ _ _ _ E Hread)
      as (_ & _ & _ & _ & -> & _).
    apply binary64_valid_rows_named. }
  apply binary64_load_from_excel_lengths in H as (Hn & Hg & Hc & Hne).
  split; [exact Hn|]. split; [exact Hg|]. split; [exact Hc|].
  split; [lia|]. split; [exact Hnamed|].
  rewrite binary64_load_data_computed
    by (rewrite ?length_map; congruence).
  rewrite existsb_app.
  destruct (existsb Binary64.too_large credits) eqn:Hcs;
    [|destruct (existsb Binary64.too_large grades) eqn:Hgs];
    cbn [orb fst snd output Binary64.after_credits Binary64.after_grades
           Binary64.course_names Binary64.course_count];
    rewrite ?length_map.
  - repeat split; try exact Hn; try discriminate;
      try (intros [m Hm]; discriminate Hm).
    intros _. eexists. reflexivity.
  - repeat split; try exact Hn; try discriminate;
      try (intros [m Hm]; discriminate Hm).
    intros _. eexists. reflexivity.
  - repeat split; try exact Hn; try discriminate;
      try (intros [m Hm]; discriminate Hm).
    destruct (after_grades_loaded str_to_float builtin_sum
                (map Binary64.VStr names)
                grades credits) as [Hcount Hlen];
      [rewrite length_map; congruence | rewrite length_map; congruence|].
    rewrite (binary64_course_gpa_loaded _ Hcount Hlen).
    eexists. split; [reflexivity|].
    cbn. rewrite !length_map, (converted_all grades Hgs). exact Hg.
Qed.

(** X20.  After [load_file] has loaded a sheet, [_calculate_gpa] gets the
    names and the count of the sheet into the calculator.  When a grade or
    a credit cell is an [int] beyond the range of [float] it opens one error
    box and leaves the calculator as the interrupted [load_data] left it.
    Otherwise, when the stored total of credits is 0 it opens one error box
    with the reason of the average score and leaves both result labels and
    the save button as they were; when it is not, it opens no box, shows
    the average score at two decimals and the overall GPA, and enables
    saving. *)
Theorem gui_calculate_binary64 (w0 w : Binary64.MainWindow) (path : string) :
  Binary64.load_file str_of env w0 path = (w, []) ->
  exists s,
    s = snd (Binary64.load_data str_to_float builtin_sum
               (Binary64.calculator w)
               (Binary64.AList (map Binary64.VStr (Binary64.win_course_names w)))
               (Binary64.AList (Binary64.win_course_grades w))
               (Binary64.AList (Binary64.win_course_credits w)))
    /\ Binary64.course_count s = Binary64.win_course_count w
    /\ Binary64.course_names s
       = map Binary64.VStr (Binary64.win_course_names w)
    /\ (existsb Binary64.too_large
          (Binary64.win_course_credits w ++ Binary64.win_course_grades w)
        = true ->
        Binary64._calculate_gpa str_to_float builtin_sum w
        = (Binary64.set_calculator w s,
           [Critical ("计算GPA失败: " ++ "int too large to convert to float")]))
    /\ (existsb Binary64.too_large
          (Binary64.win_course_credits w ++ Binary64.win_course_grades w)
        = false ->
        Binary64.feq (Binary64.total_credits s) (Binary64.fz 0) = true ->
        Binary64._calculate_gpa str_to_float builtin_sum w
        = (Binary64.set_calculator w s,
           [Critical ("计算GPA失败: " ++ "总学分为0，无法计算平均学分绩")]))
    /\ (existsb Binary64.too_large
          (Binary64.win_course_credits w ++ Binary64.win_course_grades w)
        = false ->
        Binary64.feq (Binary64.total_credits s) (Binary64.fz 0) = false ->
        Binary64._calculate_gpa str_to_float builtin_sum w
        = (Binary64.set_save_result_button
             (Binary64.set_overall_gpa_label
                (Binary64.set_avg_score_label (Binary64.set_calculator w s)
                   (Binary64.Number
                      (Binary64.py_format_2f (Binary64.average_score_value builtin_sum s))))
                (Binary64.Number (Binary64.overall_gpa_value builtin_sum s)))
             true,
           [])).
Proof.
  intros Hfile.
  apply binary64_load_file_ok in Hfile
    as (n & names & grades & credits & _ & -> & Hn & Hg & Hc & Hne).
  cbn [Binary64.set_calculate_button Binary64.set_courses
       Binary64.calculator Binary64.win_course_names
       Binary64.win_course_grades Binary64.win_course_credits
       Binary64.win_course_count].
  eexists. split; [reflexivity|].
  unfold Binary64._calculate_gpa.
  cbn [Binary64.set_calculate_button Binary64.set_courses
       Binary64.calculator Binary64.win_course_names
       Binary64.win_course_grades Binary64.win_course_credits
       Binary64.win_course_count].
  rewrite binary64_load_data_computed
    by (rewrite ?length_map; congruence).
  rewrite existsb_app.
  destruct (existsb Binary64.too_large credits) eqn:Hcs;
    [|destruct (existsb Binary64.too_large grades) eqn:Hgs];
    cbn [orb fst snd output].
  - split; [cbn; rewrite length_map; exact Hn|]. split; [reflexivity|].
    split; [intros _; reflexivity|]. split; discriminate.
  - split; [cbn; rewrite length_map; exact Hn|]. split; [reflexivity|].
    split; [intros _; reflexivity|]. split; discriminate.
  - split; [cbn; rewrite length_map; exact Hn|]. split; [reflexivity|].
    split; [discriminate|].
    destruct (after_grades_loaded str_to_float builtin_sum
                (map Binary64.VStr names)
                grades credits) as [Hcount Hlen];
      [rewrite length_map; congruence | rewrite length_map; congruence|].
    set (s := Binary64.after_grades str_to_float builtin_sum
               (map Binary64.VStr names)
                grades credits) in *.
    rewrite (binary64_average_score_loaded builtin_sum s Hcount).
    rewrite (binary64_overall_gpa_loaded builtin_sum s Hcount Hlen),
      (binary64_course_gpa_loaded s Hcount Hlen).
    split; intros _ Ht; rewrite Ht; [reflexivity|].
    cbn [output snd Binary64.set_avg_score_label Binary64.set_calculator
         Binary64.win_course_names Binary64.win_course_grades
         Binary64.win_course_count].
    rewrite table_items_ok; [reflexivity|].
    apply seq_below. intros i Hi.
    subst s. cbn in Hi |- *.
    rewrite !length_map, (converted_all grades Hgs). lia.
Qed.

End BinaryWindow.

(** ** JSON documents *)





Section BinaryHistory.

Variable int_as_text : Z -> bool.




(** ** The history file *)








(** ** Records *)



Section BinaryPersistence.

Variable str_of : Binary64.pyobj -> string.
Variable code_points : string -> list string.







End BinaryPersistence.

(** ** Saving from the main window *)






Section BinarySave.

Variable str_of_obj : Binary64.pyobj -> string.
Variable str_to_float : string -> option Binary64.float.



End BinarySave.

End BinaryHistory.

(** ** The properties on the examples *)

Lemma loader_output_loads_binary64_witness :
  output (Binary64.load_from_excel Binary64.no_str Binary64.example_env
            (Binary64.VStr "grades.xlsx"))
  = Ok (2%nat, ["Math"; "PE"],
        [Binary64.VInt 95; Binary64.VStr "不及格"],
        [Binary64.VInt 4; Binary64.VInt 2])
  /\ output (fst (Binary64.load_data (fun _ => None) Binary64.sum_left
                    Binary64.init
                    (Binary64.AList (map Binary64.VStr ["Math"; "PE"]))
                    (Binary64.AList [Binary64.VInt 95; Binary64.VStr "不及格"])
                    (Binary64.AList [Binary64.VInt 4; Binary64.VInt 2])))
     = Ok tt.
Proof.
  assert (output (Binary64.load_from_excel Binary64.no_str
                    Binary64.example_env (Binary64.VStr "grades.xlsx"))
          = Ok (2%nat, ["Math"; "PE"],
                [Binary64.VInt 95; Binary64.VStr "不及格"],
                [Binary64.VInt 4; Binary64.VInt 2])) as E
    by (vm_compute; reflexivity).
  split; [exact E|].
  destruct (loader_output_loads_binary64 Binary64.no_str (fun _ => None)
              Binary64.sum_left
              Binary64.example_env (Binary64.VStr "grades.xlsx")
              Binary64.init 2%nat ["Math"; "PE"]
              [Binary64.VInt 95; Binary64.VStr "不及格"]
              [Binary64.VInt 4; Binary64.VInt 2] E)
    as (_ & _ & _ & _ & _ & _ & _ & _ & _ & _ & Hok).
  apply Hok. vm_compute. reflexivity.
Defined.

Lemma gui_calculate_binary64_witness :
  Binary64.load_file Binary64.no_str Binary64.example_env
    (Binary64.main_window Binary64.init Binary64.example_storage)
    "grades.xlsx"
  = (Binary64.loaded_window, [])
  /\ snd (Binary64._calculate_gpa (fun _ => None) Binary64.sum_left
            Binary64.loaded_window) = []
  /\ Binary64.avg_score_label
       (fst (Binary64._calculate_gpa (fun _ => None) Binary64.sum_left
            Binary64.loaded_window))
     = Binary64.Number (Binary64.decimal 7667 100).
Proof.
  assert (Binary64.load_file Binary64.no_str Binary64.example_env
            (Binary64.main_window Binary64.init Binary64.example_storage)
            "grades.xlsx"
          = (Binary64.loaded_window, [])) as E by (vm_compute; reflexivity).
  split; [exact E|].
  destruct (gui_calculate_binary64 Binary64.no_str (fun _ => None)
              Binary64.sum_left
              Binary64.example_env
              (Binary64.main_window Binary64.init Binary64.example_storage)
              Binary64.loaded_window "grades.xlsx" E)
    as (s & Hs & _ & _ & _ & _ & Hshown).
  rewrite Hshown.
  - subst s. split; [reflexivity | vm_compute; reflexivity].
  - vm_compute. reflexivity.
  - subst s. vm_compute. reflexivity.
Defined.




